(** * Agriculture-Management API: pagination, sessions and request guards

    A shallow embedding of the Go sources of the farm-management REST
    backend, organised by Go package.  Go [int] is the 64-bit two's
    complement integer, modelled as [Z] with its wrap-around written
    out; Go [string] is a byte string, modelled as [string]; a time
    instant is a number of nanoseconds since the Unix epoch.

    The first part holds the embedding, the second part the properties
    proved about it.  Third-party packages the sources call (strconv,
    strings, golang-jwt/jwt/v5, x/crypto/bcrypt, gin, database/sql) are
    modelled as far as the calls made by the sources reach; their
    cryptographic and wire-format primitives are operations of a type
    class, so every statement holds for any implementation of them. *)

From Stdlib Require Import ZArith Lia Bool List.
From Stdlib Require Import Strings.String Strings.Ascii.
From Stdlib Require Import Floats.PrimFloat.
From stdpp Require Import gmap strings list fin_maps.

Local Open Scope string_scope.
Local Open Scope Z_scope.

(** * Part I: the embedding *)

(** ** Go machine integers *)

Module goint.

Definition MaxInt : Z := 9223372036854775807.
Definition MinInt : Z := -9223372036854775808.
Definition MaxUint64 : Z := 18446744073709551615.

(** Two's complement wrap-around of an [int] result. *)
Definition wrap (z : Z) : Z := (z + 2 ^ 63) mod 2 ^ 64 - 2 ^ 63.

Definition in_range (z : Z) : Prop := MinInt <= z <= MaxInt.

Definition add (a b : Z) : Z := wrap (a + b).
Definition sub (a b : Z) : Z := wrap (a - b).
Definition mul (a b : Z) : Z := wrap (a * b).

(** Go's [/] truncates toward zero and panics on a zero divisor
    ([None]). *)
Definition div (a b : Z) : option Z :=
  if Z.eqb b 0 then None else Some (wrap (Z.quot a b)).

End goint.

(** ** Errors and results *)

(** The [error] values that the modelled functions produce. *)
Inductive claim_error :=
| ErrTokenExpired
| ErrTokenNotValidYet.

Inductive error :=
| errors_New (text : string)
| ErrTokenMalformed (detail : string)
| ErrTokenUnverifiable (detail : string)
| ErrTokenSignatureInvalid
| ErrTokenInvalidClaims (causes : list claim_error)
| ErrPasswordTooLong
| ErrHashTooShort
| InvalidHashPrefixError
| HashVersionTooNewError
| InvalidCostError
| ErrCorruptSalt
| ErrMismatchedHashAndPassword
| ErrSyntax
| ErrRange
| ErrNoRows
| ErrConstraint
| ErrBind (detail : string).

(** A Go [(value, error)] pair with the convention that the value is
    meaningful only when the error is nil. *)
Inductive result (A : Type) :=
| Ok (a : A)
| Err (e : error).
Arguments Ok {A} a.
Arguments Err {A} e.

(** A computation that may end in a run-time panic. *)
Inductive outcome (A : Type) :=
| Return (a : A)
| Panic (msg : string).
Arguments Return {A} a.
Arguments Panic {A} msg.

Definition is_ok {A} (r : result A) : bool :=
  match r with Ok _ => true | Err _ => false end.

(** ** Package strconv: [Atoi] on a 64-bit platform *)

Module strconv.

Definition is_digit (c : ascii) : bool :=
  let n := Z.of_nat (nat_of_ascii c) in (48 <=? n) && (n <=? 57).

Definition digit_val (c : ascii) : Z := Z.of_nat (nat_of_ascii c) - 48.

(** The digit loop of [ParseUint(s, 10, 64)]: [n] is the value read so
    far; a range error is reported as soon as the next digit would
    exceed [MaxUint64], before the remaining bytes are looked at. *)
Fixpoint parse_digits (s : string) (n : Z) : Z * option error :=
  match s with
  | EmptyString => (n, None)
  | String c s' =>
      if is_digit c then
        if goint.MaxUint64 / 10 + 1 <=? n then (goint.MaxUint64, Some ErrRange)
        else
          let n1 := n * 10 + digit_val c in
          if goint.MaxUint64 <? n1 then (goint.MaxUint64, Some ErrRange)
          else parse_digits s' n1
      else (0, Some ErrSyntax)
  end.

Definition ParseUint (s : string) : Z * option error :=
  match s with
  | EmptyString => (0, Some ErrSyntax)
  | _ => parse_digits s 0
  end.

Definition cutoff : Z := 9223372036854775808.

(** [ParseInt(s, 10, 0)]: an optional sign, then the magnitude; a
    magnitude beyond the [int] range yields the nearest bound together
    with [ErrRange], any other defect yields 0 with [ErrSyntax]. *)
Definition ParseInt (s : string) : Z * option error :=
  match s with
  | EmptyString => (0, Some ErrSyntax)
  | String c rest =>
      let neg := Ascii.eqb c "-" in
      let body := if Ascii.eqb c "+" || neg then rest else s in
      match ParseUint body with
      | (un, Some ErrRange) | (un, None) =>
          if negb neg && (cutoff <=? un) then (cutoff - 1, Some ErrRange)
          else if neg && (cutoff <? un) then (- cutoff, Some ErrRange)
          else (if neg then - un else un, None)
      | (_, Some e) => (0, Some e)
      end
  end.

(** [Atoi] returns [int(i64), err]; its fast path for short inputs
    computes the same value as [ParseInt]. *)
Definition Atoi (s : string) : Z * option error := ParseInt s.

End strconv.

(** ** Package strings *)

Module gostrings.

(** [strings.Split(s, sep)] for a one-byte separator. *)
Fixpoint Split (s : string) (sep : ascii) : list string :=
  match s with
  | EmptyString => [EmptyString]
  | String c s' =>
      if Ascii.eqb c sep then EmptyString :: Split s' sep
      else
        match Split s' sep with
        | h :: t => String c h :: t
        | [] => [String c EmptyString]
        end
  end.

(** [strings.Join(parts, sep)]. *)
Fixpoint Join (parts : list string) (sep : string) : string :=
  match parts with
  | [] => EmptyString
  | [p] => p
  | p :: rest => p ++ sep ++ Join rest sep
  end.

(** White space as [strings.TrimSpace] sees it among the one-byte
    code points: tab, line feed, vertical tab, form feed, carriage
    return and space.  (The multi-byte Unicode spaces are not
    modelled.) *)
Definition is_space (c : ascii) : bool :=
  let n := Z.of_nat (nat_of_ascii c) in
  ((9 <=? n) && (n <=? 13)) || (n =? 32).

Fixpoint trim_left (s : string) : string :=
  match s with
  | EmptyString => EmptyString
  | String c s' => if is_space c then trim_left s' else s
  end.

Fixpoint trim_right (s : string) : string :=
  match s with
  | EmptyString => EmptyString
  | String c s' =>
      match trim_right s' with
      | EmptyString => if is_space c then EmptyString else String c EmptyString
      | t => String c t
      end
  end.

Definition TrimSpace (s : string) : string := trim_right (trim_left s).

(** [strings.HasPrefix(s, prefix)]. *)
Fixpoint HasPrefix (s prefix : string) : bool :=
  match prefix, s with
  | EmptyString, _ => true
  | String p prefix', String c s' => Ascii.eqb c p && HasPrefix s' prefix'
  | String _ _, EmptyString => false
  end.

(** [strings.Contains(s, substr)]: [substr] begins at some position
    of [s]. *)
Fixpoint Contains (s substr : string) : bool :=
  HasPrefix s substr ||
  match s with
  | EmptyString => false
  | String _ s' => Contains s' substr
  end.

End gostrings.

(** ** Package time *)

Module gotime.

(** Instants and durations, both in nanoseconds. *)
Definition Time := Z.
Definition Duration := Z.

Definition Second : Duration := 1000000000.
Definition Minute : Duration := 60 * Second.
Definition Hour : Duration := 60 * Minute.

Definition Add (t : Time) (d : Duration) : Time := t + d.

Definition Before (t u : Time) : bool := t <? u.

(** [t.Truncate(d)] rounds [t] down to a multiple of [d] counted from
    the zero time, which for a [d] that divides one second is a
    multiple counted from the epoch; [d <= 0] leaves [t] unchanged. *)
Definition Truncate (t : Time) (d : Duration) : Time :=
  if d <=? 0 then t else t - t mod d.

(** [t.Sub(u)] saturates at the bounds of a [Duration]. *)
Definition Sub (t u : Time) : Duration :=
  Z.max goint.MinInt (Z.min goint.MaxInt (t - u)).

(** [time.Until(t)] when the clock reads [now]. *)
Definition Until (now t : Time) : Duration := Sub t now.

(** The zero [time.Time], January 1 of year 1. *)
Definition zeroTime : Time := -62135596800 * Second.

(** Successive readings of [time.Now()] made during one call. *)
Definition Clock := nat -> Time.

Definition after (k : nat) (clock : Clock) : Clock := fun n => clock (k + n)%nat.

(** [t.IsZero()]. *)
Definition IsZero (t : Time) : bool := Z.eqb t zeroTime.

(** The decimal digits of [n], for [0 <= n < 10 ^ 20]. *)
Fixpoint utoa (fuel : nat) (n : Z) (acc : string) : string :=
  match fuel with
  | O => acc
  | S fuel' =>
      let acc' := String (ascii_of_nat (Z.to_nat (48 + n mod 10))) acc in
      if n <? 10 then acc' else utoa fuel' (n / 10) acc'
  end.

Definition itoa (n : Z) : string := utoa 20 n EmptyString.

Fixpoint pad (n : nat) : string :=
  match n with
  | O => EmptyString
  | S n' => String "0" (pad n')
  end.

(** [appendInt(b, x, width)] of the formatter: a sign, then the
    decimal digits padded with zeros to [width]. *)
Definition appendInt (x : Z) (width : nat) : string :=
  (if x <? 0 then "-" else EmptyString)
  ++ pad (width - String.length (itoa (Z.abs x))) ++ itoa (Z.abs x).

Definition longMonthNames : list string :=
  [ "January"; "February"; "March"; "April"; "May"; "June"; "July";
    "August"; "September"; "October"; "November"; "December" ].

(** [Month.String()]. *)
Definition Month_String (m : Z) : string :=
  if (1 <=? m) && (m <=? 12) then nth (Z.to_nat (m - 1)) longMonthNames EmptyString
  else "%!Month(" ++ itoa (m mod 2 ^ 64) ++ ")".

(** The calendar date of an instant in its location, [t.Date()]. *)
Record Civil := {
  Year : Z;
  Month : Z;
  Day : Z
}.

(** [t.Format] for the layouts "2006", "2006-01" and "2006-01-02". *)
Definition Format_2006 (d : Civil) : string := appendInt (Year d) 4.

Definition Format_2006_01 (d : Civil) : string :=
  appendInt (Year d) 4 ++ "-" ++ appendInt (Month d) 2.

Definition Format_2006_01_02 (d : Civil) : string :=
  appendInt (Year d) 4 ++ "-" ++ appendInt (Month d) 2 ++ "-" ++ appendInt (Day d) 2.

End gotime.

(** ** Package github.com/golang-jwt/jwt/v5

    The parser, the HMAC signing methods and the claims validator, as
    far as [ParseWithClaims], [NewWithClaims] and [SignedString] use
    them with default parser options.  Base64url, JSON and the HMAC
    digests themselves are the operations of [Codec] and [MAC]. *)

Module jwt.

Inductive Hash := SHA256 | SHA384 | SHA512.

(** The registered signing methods, by the Go type that implements
    them. *)
Inductive SigningMethod :=
| SigningMethodHMAC (h : Hash)
| SigningMethodRSA (h : Hash)
| SigningMethodRSAPSS (h : Hash)
| SigningMethodECDSA (h : Hash)
| SigningMethodEd25519
| signingMethodNone.

Definition signingMethods : list (string * SigningMethod) :=
  [ ("HS256", SigningMethodHMAC SHA256);
    ("HS384", SigningMethodHMAC SHA384);
    ("HS512", SigningMethodHMAC SHA512);
    ("RS256", SigningMethodRSA SHA256);
    ("RS384", SigningMethodRSA SHA384);
    ("RS512", SigningMethodRSA SHA512);
    ("PS256", SigningMethodRSAPSS SHA256);
    ("PS384", SigningMethodRSAPSS SHA384);
    ("PS512", SigningMethodRSAPSS SHA512);
    ("ES256", SigningMethodECDSA SHA256);
    ("ES384", SigningMethodECDSA SHA384);
    ("ES512", SigningMethodECDSA SHA512);
    ("EdDSA", SigningMethodEd25519);
    ("none", signingMethodNone) ].

Fixpoint lookup_method (tbl : list (string * SigningMethod)) (alg : string)
  : option SigningMethod :=
  match tbl with
  | [] => None
  | (name, m) :: rest => if String.eqb name alg then Some m else lookup_method rest alg
  end.

Definition GetSigningMethod (alg : string) : option SigningMethod :=
  lookup_method signingMethods alg.

Definition Alg (m : SigningMethod) : string :=
  match m with
  | SigningMethodHMAC SHA256 => "HS256"
  | SigningMethodHMAC SHA384 => "HS384"
  | SigningMethodHMAC SHA512 => "HS512"
  | SigningMethodRSA SHA256 => "RS256"
  | SigningMethodRSA SHA384 => "RS384"
  | SigningMethodRSA SHA512 => "RS512"
  | SigningMethodRSAPSS SHA256 => "PS256"
  | SigningMethodRSAPSS SHA384 => "PS384"
  | SigningMethodRSAPSS SHA512 => "PS512"
  | SigningMethodECDSA SHA256 => "ES256"
  | SigningMethodECDSA SHA384 => "ES384"
  | SigningMethodECDSA SHA512 => "ES512"
  | SigningMethodEd25519 => "EdDSA"
  | signingMethodNone => "none"
  end.

Definition TimePrecision : gotime.Duration := gotime.Second.

(** [NewNumericDate(t)] keeps [t] truncated to [TimePrecision]. *)
Definition NewNumericDate (t : gotime.Time) : gotime.Time :=
  gotime.Truncate t TimePrecision.

(** Each date is a [*NumericDate]: [None] is the nil pointer of an
    absent claim. *)
Record RegisteredClaims := {
  Issuer : string;
  Subject : string;
  Audience : list string;
  ExpiresAt : option gotime.Time;
  NotBefore : option gotime.Time;
  IssuedAt : option gotime.Time;
  ID : string
}.

(** The wire primitives for a claims type [C]: unpadded base64url of a
    segment and JSON of the header map and of the claims. *)
Class Codec (C : Type) := {
  EncodeSegment : string -> string;
  DecodeSegment : string -> option string;
  MarshalHeader : gmap string string -> string;
  UnmarshalHeader : string -> option (gmap string string);
  MarshalClaims : C -> string;
  UnmarshalClaims : string -> option C
}.

(** [hmac_sum h key msg]: the HMAC of [msg] under [key] with hash [h]. *)
Class MAC := {
  hmac_sum : Hash -> string -> string -> string
}.

Record Token (C : Type) := {
  Raw : string;
  Method : SigningMethod;
  Header : gmap string string;
  Claims : C;
  Signature : string;
  Valid : bool
}.
Arguments Raw {C} _.
Arguments Method {C} _.
Arguments Header {C} _.
Arguments Claims {C} _.
Arguments Signature {C} _.
Arguments Valid {C} _.

Section Parser.
Context {C : Type} `{Codec C} `{MAC}.
Variable GetRegistered : C -> RegisteredClaims.

(** The header [NewWithClaims] gives a token. *)
Definition NewHeader (m : SigningMethod) : gmap string string :=
  <["typ" := "JWT"]> (<["alg" := Alg m]> ∅).

Definition SigningString (hdr : gmap string string) (claims : C) : string :=
  EncodeSegment (MarshalHeader hdr) ++ "." ++ EncodeSegment (MarshalClaims claims).

(** [Sign] and [Verify] with a [[]byte] key: only the HMAC methods
    accept such a key. *)
Definition Sign (m : SigningMethod) (signingString key : string) : result string :=
  match m with
  | SigningMethodHMAC h => Ok (hmac_sum h key signingString)
  | _ => Err (errors_New "key is of invalid type")
  end.

Definition Verify (m : SigningMethod) (signingString sig key : string) : option error :=
  match m with
  | SigningMethodHMAC h =>
      if String.eqb sig (hmac_sum h key signingString) then None
      else Some (errors_New "signature is invalid")
  | _ => Some (errors_New "key is of invalid type")
  end.

(** [NewWithClaims(m, claims).SignedString(key)]. *)
Definition SignedString (m : SigningMethod) (claims : C) (key : string) : result string :=
  let sstr := SigningString (NewHeader m) claims in
  match Sign m sstr key with
  | Ok sig => Ok (sstr ++ "." ++ EncodeSegment sig)
  | Err e => Err e
  end.

(** [Parser.ParseUnverified]: three segments, a decodable header and
    claims, and a registered [alg]. *)
Definition ParseUnverified (tokenString : string) : result (Token C * list string) :=
  let parts := gostrings.Split tokenString "." in
  match parts with
  | [p0; p1; p2] =>
      match DecodeSegment p0 with
      | None => Err (ErrTokenMalformed "could not base64 decode header")
      | Some headerBytes =>
          match UnmarshalHeader headerBytes with
          | None => Err (ErrTokenMalformed "could not JSON decode header")
          | Some hdr =>
              match DecodeSegment p1 with
              | None => Err (ErrTokenMalformed "could not base64 decode claim")
              | Some claimBytes =>
                  match UnmarshalClaims claimBytes with
                  | None => Err (ErrTokenMalformed "could not JSON decode claim")
                  | Some claims =>
                      match hdr !! "alg" with
                      | None => Err (ErrTokenUnverifiable "signing method (alg) is unspecified")
                      | Some alg =>
                          match GetSigningMethod alg with
                          | None => Err (ErrTokenUnverifiable "signing method (alg) is unavailable")
                          | Some m =>
                              Ok ({| Raw := tokenString; Method := m; Header := hdr;
                                     Claims := claims; Signature := EmptyString;
                                     Valid := false |}, parts)
                          end
                      end
                  end
              end
          end
      end
  | _ => Err (ErrTokenMalformed "token contains an invalid number of segments")
  end.

(** [Validator.Validate] with default options at clock reading [now]:
    [exp] and [nbf] are checked when present, [iat] is not. *)
Definition verifyExpiresAt (now : gotime.Time) (rc : RegisteredClaims) : list claim_error :=
  match ExpiresAt rc with
  | None => []
  | Some exp => if gotime.Before now exp then [] else [ErrTokenExpired]
  end.

Definition verifyNotBefore (now : gotime.Time) (rc : RegisteredClaims) : list claim_error :=
  match NotBefore rc with
  | None => []
  | Some nbf => if negb (gotime.Before now nbf) then [] else [ErrTokenNotValidYet]
  end.

Definition Validate (now : gotime.Time) (claims : C) : list claim_error :=
  verifyExpiresAt now (GetRegistered claims) ++ verifyNotBefore now (GetRegistered claims).

(** [ParseWithClaims(tokenString, claims, keyFunc)]; [now] is what the
    validator's [time.Now()] returns. *)
Definition ParseWithClaims (now : gotime.Time) (tokenString : string)
    (keyFunc : Token C -> result string) : result (Token C) :=
  match ParseUnverified tokenString with
  | Err e => Err e
  | Ok (token, parts) =>
      match DecodeSegment (nth 2 parts EmptyString) with
      | None => Err (ErrTokenMalformed "could not base64 decode signature")
      | Some sig =>
          let text := gostrings.Join (firstn 2 parts) "." in
          match keyFunc token with
          | Err e => Err (ErrTokenUnverifiable "error while executing keyfunc")
          | Ok key =>
              match Verify (Method token) text sig key with
              | Some _ => Err ErrTokenSignatureInvalid
              | None =>
                  match Validate now (Claims token) with
                  | [] =>
                      Ok {| Raw := Raw token; Method := Method token;
                            Header := Header token; Claims := Claims token;
                            Signature := sig; Valid := true |}
                  | errs => Err (ErrTokenInvalidClaims errs)
                  end
              end
          end
      end
  end.

End Parser.

End jwt.

(** ** Package crypto/hmac

    [hmac.New(h, key)] followed by [Write] and [Sum], over the hash
    functions of crypto/sha256 and crypto/sha512, which are the
    operation of [Digest]. *)

Module hmac.

(** [Sum h msg]: the digest of [msg] under the hash [h]. *)
Class Digest := {
  Sum : jwt.Hash -> string -> string
}.

Definition BlockSize (h : jwt.Hash) : nat :=
  match h with
  | jwt.SHA256 => 64
  | jwt.SHA384 => 128
  | jwt.SHA512 => 128
  end.

(** [copy(pad, key)] into a pad of [n] zero bytes. *)
Fixpoint fill (n : nat) (key : string) : string :=
  match n with
  | O => EmptyString
  | S n' =>
      match key with
      | EmptyString => String Ascii.zero (fill n' EmptyString)
      | String c key' => String c (fill n' key')
      end
  end.

(** [pad[i] ^= p] for every byte of the pad. *)
Fixpoint xor (p : N) (pad : string) : string :=
  match pad with
  | EmptyString => EmptyString
  | String c pad' => String (ascii_of_N (N.lxor (N_of_ascii c) p)) (xor p pad')
  end.

Section HMAC.
Context `{Digest}.

(** The key as [New] copies it into the pads: a key longer than the
    block is replaced by its digest, a shorter one is followed by
    zero bytes. *)
Definition block (h : jwt.Hash) (key : string) : string :=
  fill (BlockSize h)
    (if (BlockSize h <? String.length key)%nat then Sum h key else key).

(** The outer hash of the key xor [0x5c] and the inner digest, which
    is the hash of the key xor [0x36] and the message. *)
Definition New_Sum (h : jwt.Hash) (key msg : string) : string :=
  Sum h (xor 92 (block h key) ++ Sum h (xor 54 (block h key) ++ msg)).

(** The signing methods [HS256], [HS384] and [HS512] of jwt call
    [hmac.New] with the hash of their name. *)
Definition mac : jwt.MAC := {| jwt.hmac_sum := New_Sum |}.

End HMAC.

End hmac.

(** ** Package auth (pkg/auth/jwt.go) *)

Module auth.

Record Claims := {
  UserID : string;
  Email : string;
  Role : string;
  RegisteredClaims : jwt.RegisteredClaims
}.

Record JWTManager := {
  secretKey : string;
  tokenDuration : gotime.Duration
}.

(** [os.Getenv]: the empty string for an unset variable. *)
Definition Getenv (env : gmap string string) (key : string) : string :=
  default EmptyString (env !! key).

Section Manager.
Context `{jwt.Codec Claims} `{jwt.MAC}.
(** [time.ParseDuration]. *)
Variable ParseDuration : string -> result gotime.Duration.

Definition NewJWTManager (env : gmap string string) : JWTManager :=
  let secretKey :=
    if String.eqb (Getenv env "JWT_SECRET") EmptyString then "default-secret-key"
    else Getenv env "JWT_SECRET" in
  let tokenDuration :=
    if negb (String.eqb (Getenv env "JWT_EXPIRY") EmptyString) then
      match ParseDuration (Getenv env "JWT_EXPIRY") with
      | Ok parsed => parsed
      | Err _ => 24 * gotime.Hour
      end
    else 24 * gotime.Hour in
  {| secretKey := secretKey; tokenDuration := tokenDuration |}.

(** The claims [GenerateToken] builds; [uuid] is the fresh
    [uuid.New().String()]. *)
Definition newClaims (j : JWTManager) (clock : gotime.Clock) (uuid : string)
    (userID email role : string) : Claims :=
  {| UserID := userID;
     Email := email;
     Role := role;
     RegisteredClaims :=
       {| jwt.ExpiresAt := Some (jwt.NewNumericDate (gotime.Add (clock 0%nat) (tokenDuration j)));
          jwt.IssuedAt := Some (jwt.NewNumericDate (clock 1%nat));
          jwt.NotBefore := Some (jwt.NewNumericDate (clock 2%nat));
          jwt.Issuer := "agri-management-api";
          jwt.Subject := userID;
          jwt.Audience := [];
          jwt.ID := uuid |} |}.

Definition GenerateToken (j : JWTManager) (clock : gotime.Clock) (uuid : string)
    (userID email role : string) : result string :=
  let claims := newClaims j clock uuid userID email role in
  jwt.SignedString (jwt.SigningMethodHMAC jwt.SHA256) claims (secretKey j).

Definition keyFunc (j : JWTManager) (token : jwt.Token Claims) : result string :=
  match jwt.Method token with
  | jwt.SigningMethodHMAC _ => Ok (secretKey j)
  | _ => Err (errors_New "unexpected signing method")
  end.

Definition ValidateToken (j : JWTManager) (now : gotime.Time) (tokenString : string)
  : result Claims :=
  match jwt.ParseWithClaims RegisteredClaims now tokenString (keyFunc j) with
  | Err e => Err e
  | Ok token =>
      if jwt.Valid token then Ok (jwt.Claims token)
      else Err (errors_New "invalid token")
  end.

(** [RefreshToken]: the clock is read once by the validator, once by
    [time.Until] and then three times by [GenerateToken];
    [claims.ExpiresAt.Time] dereferences a nil pointer when the token
    has no [exp] claim. *)
Definition RefreshToken (j : JWTManager) (clock : gotime.Clock) (uuid : string)
    (tokenString : string) : outcome (result string) :=
  match ValidateToken j (clock 0%nat) tokenString with
  | Err e => Return (Err e)
  | Ok claims =>
      match jwt.ExpiresAt (RegisteredClaims claims) with
      | None => Panic "invalid memory address or nil pointer dereference"
      | Some exp =>
          if 15 * gotime.Minute <? gotime.Until (clock 1%nat) exp then
            Return (Err (errors_New "token is still valid"))
          else
            Return (GenerateToken j (gotime.after 2 clock) uuid
                      (UserID claims) (Email claims) (Role claims))
      end
  end.

End Manager.

End auth.

(** ** Package golang.org/x/crypto/bcrypt

    The hash format and the way the password enters the Blowfish key
    schedule are modelled; the key schedule itself and the salt
    alphabet are the operations of [Primitives]. *)

Module bcrypt.

Definition MinCost : Z := 4.
Definition MaxCost : Z := 31.
Definition DefaultCost : Z := 10.
Definition majorVersion : ascii := "2"%char.
Definition minorVersion : ascii := "a"%char.
Definition maxSaltSize : nat := 16.
Definition encodedSaltSize : nat := 22.
Definition encodedHashSize : nat := 31.
Definition minHashSize : nat := 59.

Fixpoint take (n : nat) (s : string) : string :=
  match n, s with
  | S n', String c s' => String c (take n' s')
  | _, _ => EmptyString
  end.

Fixpoint drop (n : nat) (s : string) : string :=
  match n, s with
  | S n', String _ s' => drop n' s'
  | _, _ => s
  end.

(** [n] bytes read from [key] cyclically, continuing at [cur]: what
    [blowfish.ExpandKey] reads from the key for the 18 words of the
    P-array when [n = 72]. *)
Fixpoint read_cyclic (n : nat) (key cur : string) : string :=
  match n with
  | O => EmptyString
  | S n' =>
      match cur with
      | String c rest => String c (read_cyclic n' key rest)
      | EmptyString =>
          match key with
          | String c rest => String c (read_cyclic n' key rest)
          | EmptyString => EmptyString
          end
      end
  end.

(** The key material of a password: the password followed by a NUL
    byte, read cyclically for 72 bytes. *)
Definition key_material (password : string) : string :=
  let ckey := password ++ String Ascii.zero EmptyString in
  read_cyclic 72 ckey ckey.

(** [base64Encode] is bcrypt's unpadded base64 of the salt bytes;
    [eksblowfish cost salt key] is the encoded digest for a cost, an
    encoded salt and 72 bytes of key material, [None] when the salt
    does not decode. *)
Class Primitives := {
  base64Encode : string -> string;
  eksblowfish : Z -> string -> string -> option string
}.

Record hashed := {
  hash : string;
  salt : string;
  cost : Z;
  major : ascii;
  minor : option ascii
}.

(** [fmt.Sprintf("%02d", n)] for [0 <= n < 100]. *)
Definition fmt02d (n : Z) : string :=
  String (ascii_of_nat (Z.to_nat (48 + n / 10)))
    (String (ascii_of_nat (Z.to_nat (48 + n mod 10))) EmptyString).

Fixpoint zeros (n : nat) : string :=
  match n with
  | O => EmptyString
  | S n' => String Ascii.zero (zeros n')
  end.

(** What [copy] leaves in a zeroed window of [n] bytes. *)
Definition fit (n : nat) (s : string) : string := take n (s ++ zeros n).

(** [p.Hash()] writes the fields into a fixed 60-byte array: the salt
    and the digest occupy exactly 22 and 31 bytes, and a zero minor
    version byte is left out. *)
Definition Hash (p : hashed) : string :=
  String "$" (String (major p)
    (match minor p with
     | Some m => if Ascii.eqb m Ascii.zero then EmptyString else String m EmptyString
     | None => EmptyString
     end ++ String "$" (fmt02d (cost p) ++ String "$"
              (fit encodedSaltSize (salt p) ++ fit encodedHashSize (hash p))))).

Definition checkCost (cost : Z) : option error :=
  if (cost <? MinCost) || (MaxCost <? cost) then Some InvalidCostError else None.

Section Bcrypt.
Context `{Primitives}.

Definition bcrypt (password : string) (cost : Z) (salt : string) : result string :=
  match eksblowfish cost salt (key_material password) with
  | Some d => Ok d
  | None => Err ErrCorruptSalt
  end.

(** [unencodedSalt] is the 16 bytes read from [rand.Reader]. *)
Definition newFromPassword (unencodedSalt password : string) (cost : Z) : result hashed :=
  let cost := if cost <? MinCost then DefaultCost else cost in
  match checkCost cost with
  | Some e => Err e
  | None =>
      let salt := base64Encode unencodedSalt in
      match bcrypt password cost salt with
      | Err e => Err e
      | Ok h => Ok {| hash := h; salt := salt; cost := cost;
                      major := majorVersion; minor := Some minorVersion |}
      end
  end.

(** [GenerateFromPassword] refuses a password of more than 72 bytes
    (releases of the package before v0.5 hashed its first 72 bytes
    instead). *)
Definition GenerateFromPassword (unencodedSalt password : string) (cost : Z) : result string :=
  if (72 <? String.length password)%nat then Err ErrPasswordTooLong
  else
    match newFromPassword unencodedSalt password cost with
    | Err e => Err e
    | Ok p => Ok (Hash p)
    end.

Definition newFromHash (hashedSecret : string) : result hashed :=
  if (String.length hashedSecret <? minHashSize)%nat then Err ErrHashTooShort
  else
    match hashedSecret with
    | String b0 (String b1 (String b2 rest)) =>
        if negb (Ascii.eqb b0 "$") then Err InvalidHashPrefixError
        else if (nat_of_ascii majorVersion <? nat_of_ascii b1)%nat then Err HashVersionTooNewError
        else
          let minor := if Ascii.eqb b2 "$" then None else Some b2 in
          let rest := if Ascii.eqb b2 "$" then rest else drop 1 rest in
          match strconv.Atoi (take 2 rest) with
          | (_, Some e) => Err e
          | (cost, None) =>
              match checkCost cost with
              | Some e => Err e
              | None =>
                  let rest := drop 3 rest in
                  Ok {| hash := drop encodedSaltSize rest;
                        salt := take encodedSaltSize rest;
                        cost := cost; major := b1; minor := minor |}
              end
          end
    | _ => Err ErrHashTooShort
    end.

Definition CompareHashAndPassword (hashedPassword password : string) : option error :=
  match newFromHash hashedPassword with
  | Err e => Some e
  | Ok p =>
      match bcrypt password (cost p) (salt p) with
      | Err e => Some e
      | Ok otherHash =>
          let otherP := {| hash := otherHash; salt := salt p; cost := cost p;
                           major := major p; minor := minor p |} in
          if String.eqb (Hash p) (Hash otherP) then None
          else Some ErrMismatchedHashAndPassword
      end
  end.

End Bcrypt.

End bcrypt.

(** ** Package models (internal/models/models.go) *)

Module models.

Record User := {
  User_ID : string;
  User_Name : string;
  User_Email : string;
  User_Password : string;
  User_Avatar : string;
  User_Role : string;
  User_FarmName : string;
  User_Location : string;
  User_IsVerified : bool;
  User_CreatedAt : gotime.Time;
  User_UpdatedAt : gotime.Time
}.

Record Transaction := {
  ID : string;
  UserID : string;
  Type_ : string;
  Category : string;
  Description : string;
  Amount : float;
  Currency : string;
  Date : gotime.Time;
  Status : string;
  PaymentMethod : string;
  Receipt : string;
  Notes : string;
  CreatedAt : gotime.Time;
  UpdatedAt : gotime.Time
}.

Record RegisterRequest := {
  Name : string;
  Email : string;
  Password : string;
  ConfirmPassword : string;
  FarmName : string;
  Location : string
}.

Record AuthResponse := {
  AuthResponse_User : User;
  Token : string;
  RefreshToken : string
}.

Record Pagination := {
  Page : Z;
  Limit : Z;
  Total : Z;
  TotalPages : Z
}.

(** The values handlers pass as [Data] or [Details]. *)
Inductive Payload :=
| PUser (u : User)
| PAuth (a : AuthResponse)
| PTransaction (t : Transaction)
| PError (e : error).

Record APIError := {
  Code : string;
  Message : string;
  Details : option Payload
}.

(** [Timestamp] is the instant that is formatted as RFC 3339. *)
Record APIMeta := {
  Timestamp : gotime.Time;
  Version : string;
  RequestID : string
}.

Record APIResponse := {
  Success : bool;
  Data : option Payload;
  APIResponse_Message : string;
  Error : option APIError;
  Meta : option APIMeta
}.

Record LoginRequest := {
  LoginRequest_Email : string;
  LoginRequest_Password : string
}.

End models.

(** ** Package github.com/gin-gonic/gin

    The request context and the handler chain, as far as the handlers
    of this program use them. *)

Module gin.

(** A [gin.H] literal. *)
Inductive H :=
| HBool (b : bool)
| HString (s : string)
| HMap (fields : Fields)
with Fields :=
| FNil
| FCons (key : string) (value : H) (rest : Fields).

Inductive Body :=
| BodyH (h : H)
| BodyAPI (r : models.APIResponse).

(** [Keys] holds the values handlers store with [c.Set]; in this
    program they are all strings.  [Query] and [Params] give the first
    value of each key.  [Written] lists the calls of [c.JSON], oldest
    first. *)
Record Context := {
  RequestHeader : gmap string (list string);
  Query : gmap string string;
  Params : gmap string string;
  Keys : gmap string string;
  index : Z;
  ResponseHeader : gmap string string;
  Written : list (Z * Body)
}.

Definition abortIndex : Z := 63.

(** The context the engine hands to the chain for a request with the
    given headers, query and path parameters. *)
Definition NewContext (header : gmap string (list string))
    (query params : gmap string string) : Context :=
  {| RequestHeader := header; Query := query; Params := params;
     Keys := ∅; index := -1; ResponseHeader := ∅; Written := [] |}.

Definition with_index (i : Z) (c : Context) : Context :=
  {| RequestHeader := RequestHeader c; Query := Query c; Params := Params c;
     Keys := Keys c; index := i; ResponseHeader := ResponseHeader c;
     Written := Written c |}.

Definition GetHeader (c : Context) (key : string) : string :=
  match RequestHeader c !! key with
  | Some (v :: _) => v
  | _ => EmptyString
  end.

Definition Header (c : Context) (key value : string) : Context :=
  {| RequestHeader := RequestHeader c; Query := Query c; Params := Params c;
     Keys := Keys c; index := index c;
     ResponseHeader := <[key := value]> (ResponseHeader c);
     Written := Written c |}.

Definition Set_ (c : Context) (key value : string) : Context :=
  {| RequestHeader := RequestHeader c; Query := Query c; Params := Params c;
     Keys := <[key := value]> (Keys c); index := index c;
     ResponseHeader := ResponseHeader c; Written := Written c |}.

Definition Get (c : Context) (key : string) : option string := Keys c !! key.

Definition Param (c : Context) (key : string) : string :=
  default EmptyString (Params c !! key).

Definition DefaultQuery (c : Context) (key defaultValue : string) : string :=
  default defaultValue (Query c !! key).

Definition JSON (c : Context) (code : Z) (obj : Body) : Context :=
  {| RequestHeader := RequestHeader c; Query := Query c; Params := Params c;
     Keys := Keys c; index := index c; ResponseHeader := ResponseHeader c;
     Written := Written c ++ [(code, obj)] |}.

Definition Abort (c : Context) : Context := with_index abortIndex c.

Definition IsAborted (c : Context) : bool := abortIndex <=? index c.

(** A handler receives what [c.Next()] does at its place in the
    chain. *)
Definition HandlerFunc : Type :=
  (Context -> outcome Context) -> Context -> outcome Context.

(** The loop of [c.Next()] over [hs], the handlers from position [pos]
    on: a handler runs when [c.index] has reached its position, and is
    passed over when [c.index] is already beyond it (a handler called
    [c.Next()] or [c.Abort()]). *)
Fixpoint run (hs : list HandlerFunc) (pos : Z) (c : Context) : outcome Context :=
  match hs with
  | [] => Return c
  | h :: rest =>
      if index c =? pos then
        match h (fun c0 => run rest (pos + 1) (with_index (index c0 + 1) c0)) c with
        | Return c' => run rest (pos + 1) (with_index (index c' + 1) c')
        | Panic m => Panic m
        end
      else run rest (pos + 1) c
  end.

(** The engine resets the index and calls [c.Next()]. *)
Definition ServeHTTP (hs : list HandlerFunc) (c : Context) : outcome Context :=
  run hs 0 (with_index 0 c).

Fixpoint field (name : string) (fields : Fields) : option H :=
  match fields with
  | FNil => None
  | FCons k v rest => if String.eqb k name then Some v else field name rest
  end.

(** The [error.code] of a response body. *)
Definition error_code (b : Body) : option string :=
  match b with
  | BodyAPI r => models.Code <$> models.Error r
  | BodyH (HMap fs) =>
      match field "error" fs with
      | Some (HMap es) =>
          match field "code" es with
          | Some (HString s) => Some s
          | _ => None
          end
      | _ => None
      end
  | BodyH _ => None
  end.

End gin.

(** ** Package database/sql: nullable values *)

Module sqlnull.

Record NullString := {
  NullString_String : string;
  NullString_Valid : bool
}.

Record NullFloat64 := {
  NullFloat64_Float64 : float;
  NullFloat64_Valid : bool
}.

Record NullTime := {
  NullTime_Time : gotime.Time;
  NullTime_Valid : bool
}.

End sqlnull.

(** ** Package utils (internal/utils/utils.go) *)

Module utils.

Section Passwords.
Context `{bcrypt.Primitives}.

(** [unencodedSalt] is the randomness [bcrypt.GenerateFromPassword]
    draws. *)
Definition HashPassword (unencodedSalt password : string) : string * option error :=
  match bcrypt.GenerateFromPassword unencodedSalt password 14 with
  | Ok bytes => (bytes, None)
  | Err err => (EmptyString, Some err)
  end.

Definition CheckPassword (password hash : string) : bool :=
  match bcrypt.CompareHashAndPassword hash password with
  | None => true
  | Some _ => false
  end.

End Passwords.

Definition ParsePagination (c : gin.Context) : Z * Z :=
  let pageStr := gin.DefaultQuery c "page" "1" in
  let limitStr := gin.DefaultQuery c "limit" "10" in
  let page := fst (strconv.Atoi pageStr) in
  let limit := fst (strconv.Atoi limitStr) in
  let page := if page <? 1 then 1 else page in
  let limit := if (limit <? 1) || (100 <? limit) then 10 else limit in
  (page, limit).

(** The division panics when [limit] is zero. *)
Definition CalculatePagination (page limit total : Z) : outcome models.Pagination :=
  match goint.div (goint.sub (goint.add total limit) 1) limit with
  | None => Panic "integer divide by zero"
  | Some totalPages =>
      let totalPages := if totalPages <? 1 then 1 else totalPages in
      Return {| models.Page := page; models.Limit := limit;
                models.Total := total; models.TotalPages := totalPages |}
  end.

(** [now] is the reading of [time.Now()]; the type assertion on
    [request_id] panics when the key was never set. *)
Definition SuccessResponse (now : gotime.Time) (c : gin.Context)
    (data : option models.Payload) (message : string) : outcome gin.Context :=
  match gin.Get c "request_id" with
  | None => Panic "interface conversion: interface {} is nil, not string"
  | Some requestID =>
      Return (gin.JSON c 200 (gin.BodyAPI
        {| models.Success := true;
           models.Data := data;
           models.APIResponse_Message := message;
           models.Error := None;
           models.Meta := Some {| models.Timestamp := now;
                                  models.Version := "1.0";
                                  models.RequestID := requestID |} |}))
  end.

Definition ErrorResponse (now : gotime.Time) (c : gin.Context) (statusCode : Z)
    (code message : string) (details : option models.Payload) : outcome gin.Context :=
  match gin.Get c "request_id" with
  | None => Panic "interface conversion: interface {} is nil, not string"
  | Some requestID =>
      Return (gin.JSON c statusCode (gin.BodyAPI
        {| models.Success := false;
           models.Data := None;
           models.APIResponse_Message := EmptyString;
           models.Error := Some {| models.Code := code;
                                   models.Message := message;
                                   models.Details := details |};
           models.Meta := Some {| models.Timestamp := now;
                                  models.Version := "1.0";
                                  models.RequestID := requestID |} |}))
  end.

Definition GetUserID (c : gin.Context) : result string :=
  match gin.Get c "user_id" with
  | None => Err (errors_New "user_id not found in context")
  | Some userID => Ok userID
  end.

Definition IsEmptyString (s : string) : bool :=
  String.eqb (gostrings.TrimSpace s) EmptyString.

Definition GetUserEmail (c : gin.Context) : result string :=
  match gin.Get c "user_email" with
  | None => Err (errors_New "user_email not found in context")
  | Some userEmail => Ok userEmail
  end.

Definition GetUserRole (c : gin.Context) : result string :=
  match gin.Get c "user_role" with
  | None => Err (errors_New "user_role not found in context")
  | Some userRole => Ok userRole
  end.





Definition NullStringToPtr (ns : sqlnull.NullString) : option string :=
  if sqlnull.NullString_Valid ns then Some (sqlnull.NullString_String ns) else None.

Definition NullFloat64ToPtr (nf : sqlnull.NullFloat64) : option float :=
  if sqlnull.NullFloat64_Valid nf then Some (sqlnull.NullFloat64_Float64 nf) else None.

Definition NullTimeToPtr (nt : sqlnull.NullTime) : option gotime.Time :=
  if sqlnull.NullTime_Valid nt then Some (sqlnull.NullTime_Time nt) else None.

Definition StringToNullString (s : string) : sqlnull.NullString :=
  {| sqlnull.NullString_String := s;
     sqlnull.NullString_Valid := negb (String.eqb s EmptyString) |}.

Definition Float64ToNullFloat64 (f : float) : sqlnull.NullFloat64 :=
  {| sqlnull.NullFloat64_Float64 := f; sqlnull.NullFloat64_Valid := true |}.

Definition TimeToNullTime (t : gotime.Time) : sqlnull.NullTime :=
  {| sqlnull.NullTime_Time := t; sqlnull.NullTime_Valid := negb (gotime.IsZero t) |}.

Definition ValidateEmail (email : string) : bool :=
  gostrings.Contains email "@" && gostrings.Contains email ".".

Definition SanitizeString (s : string) : string := gostrings.TrimSpace s.

End utils.

(** ** Package middleware (internal/middleware/middleware.go) *)

Module middleware.

Definition unauthorized (code message : string) : gin.Body :=
  gin.BodyH (gin.HMap
    (gin.FCons "success" (gin.HBool false)
      (gin.FCons "error" (gin.HMap
          (gin.FCons "code" (gin.HString code)
            (gin.FCons "message" (gin.HString message) gin.FNil)))
        gin.FNil))).

Section Auth.
Context `{jwt.Codec auth.Claims} `{jwt.MAC}.
Variable ParseDuration : string -> result gotime.Duration.

(** [env] is the process environment and [now] the reading of the
    clock made by the token validator. *)
Definition Auth (env : gmap string string) (now : gotime.Time) : gin.HandlerFunc :=
  fun next c =>
    let authHeader := gin.GetHeader c "Authorization" in
    if String.eqb authHeader EmptyString then
      Return (gin.Abort (gin.JSON c 401
        (unauthorized "MISSING_TOKEN" "Authorization token gerekli")))
    else
      let tokenParts := gostrings.Split authHeader " " in
      if negb (Nat.eqb (List.length tokenParts) 2)
         || negb (String.eqb (nth 0 tokenParts EmptyString) "Bearer") then
        Return (gin.Abort (gin.JSON c 401
          (unauthorized "INVALID_TOKEN_FORMAT" "Geçersiz token formatı")))
      else
        let tokenString := nth 1 tokenParts EmptyString in
        let jwtManager := auth.NewJWTManager ParseDuration env in
        match auth.ValidateToken jwtManager now tokenString with
        | Err _ =>
            Return (gin.Abort (gin.JSON c 401
              (unauthorized "INVALID_TOKEN" "Geçersiz veya süresi dolmuş token")))
        | Ok claims =>
            let c := gin.Set_ c "user_id" (auth.UserID claims) in
            let c := gin.Set_ c "user_email" (auth.Email claims) in
            let c := gin.Set_ c "user_role" (auth.Role claims) in
            next c
        end.

End Auth.

(** [fresh] is the [uuid.New().String()] drawn when the request
    carries no id of its own. *)
Definition RequestID (fresh : string) : gin.HandlerFunc :=
  fun next c =>
    let requestID := gin.GetHeader c "X-Request-ID" in
    let requestID := if String.eqb requestID EmptyString then fresh else requestID in
    let c := gin.Header c "X-Request-ID" requestID in
    let c := gin.Set_ c "request_id" requestID in
    next c.

End middleware.

(** ** The relational store (database/sql over the schema of
    internal/database/database.go)

    Tables are lists of rows in insertion order; the statements the
    handlers issue are functions on them.  Text is compared byte by
    byte, as SQLite's default collation does. *)

Module sql.

(** A row of [users]; [avatar] is the one column [Register] leaves
    NULL. *)
Record UserRow := {
  id : string;
  name : string;
  email : string;
  password : string;
  avatar : option string;
  role : string;
  farm_name : string;
  location : string;
  is_verified : bool;
  created_at : gotime.Time;
  updated_at : gotime.Time
}.

(** Rows of [transactions] are kept as the [models.Transaction] they
    scan into. *)
Record DB := {
  users : list UserRow;
  transactions : list models.Transaction
}.

Definition owned (transactionID userID : string) (t : models.Transaction) : bool :=
  String.eqb (models.ID t) transactionID && String.eqb (models.UserID t) userID.

(** [SELECT ... FROM transactions WHERE id = ? AND user_id = ?],
    scanned by [QueryRow]. *)
Definition select_transaction (db : DB) (transactionID userID : string)
  : result models.Transaction :=
  match List.find (owned transactionID userID) (transactions db) with
  | Some t => Ok t
  | None => Err ErrNoRows
  end.

(** [UPDATE transactions SET ... WHERE id = ? AND user_id = ?];
    [now] is [CURRENT_TIMESTAMP]. *)
Definition set_transaction (now : gotime.Time) (req t : models.Transaction)
  : models.Transaction :=
  {| models.ID := models.ID t;
     models.UserID := models.UserID t;
     models.Type_ := models.Type_ req;
     models.Category := models.Category req;
     models.Description := models.Description req;
     models.Amount := models.Amount req;
     models.Currency := models.Currency req;
     models.Date := models.Date req;
     models.Status := models.Status req;
     models.PaymentMethod := models.PaymentMethod req;
     models.Receipt := models.Receipt req;
     models.Notes := models.Notes req;
     models.CreatedAt := models.CreatedAt t;
     models.UpdatedAt := now |}.

Definition update_transaction (db : DB) (now : gotime.Time) (req : models.Transaction)
    (transactionID userID : string) : result DB :=
  Ok {| users := users db;
        transactions :=
          List.map (fun t => if owned transactionID userID t
                             then set_transaction now req t else t)
                   (transactions db) |}.

(** [DELETE FROM transactions WHERE id = ? AND user_id = ?] with its
    [RowsAffected]. *)
Definition delete_transaction (db : DB) (transactionID userID : string)
  : result (DB * Z) :=
  Ok ({| users := users db;
         transactions :=
           List.filter (fun t => negb (owned transactionID userID t)) (transactions db) |},
      Z.of_nat (List.length (List.filter (owned transactionID userID) (transactions db)))).

(** [SELECT id FROM users WHERE email = ?]. *)
Definition select_user_id (db : DB) (mail : string) : result string :=
  match List.find (fun u => String.eqb (email u) mail) (users db) with
  | Some u => Ok (id u)
  | None => Err ErrNoRows
  end.

(** [INSERT INTO users ...]: [id] is the primary key and [email] is
    unique. *)
Definition insert_user (db : DB) (row : UserRow) : result DB :=
  if List.existsb (fun u => String.eqb (id u) (id row) || String.eqb (email u) (email row))
       (users db)
  then Err ErrConstraint
  else Ok {| users := users db ++ [row]; transactions := transactions db |}.

(** What [Scan] reports for a NULL in the selected column number
    [index], named [column], that is read into a Go [string]. *)
Definition scan_null (index column : string) : error :=
  errors_New ("sql: Scan error on column index " ++ index ++ ", name "
              ++ String (ascii_of_nat 34) column ++ String (ascii_of_nat 34)
                   ": converting NULL to string is unsupported").

(** A row of [users] scanned into a [models.User]: [index] is the
    position of [avatar] among the selected columns, [pw] what the
    statement leaves in [Password]. *)
Definition scan_user (index pw : string) (row : UserRow) : result models.User :=
  match avatar row with
  | None => Err (scan_null index "avatar")
  | Some a =>
      Ok {| models.User_ID := id row;
            models.User_Name := name row;
            models.User_Email := email row;
            models.User_Password := pw;
            models.User_Avatar := a;
            models.User_Role := role row;
            models.User_FarmName := farm_name row;
            models.User_Location := location row;
            models.User_IsVerified := is_verified row;
            models.User_CreatedAt := created_at row;
            models.User_UpdatedAt := updated_at row |}
  end.

(** [SELECT id, name, email, password, avatar, ... FROM users WHERE
    email = ?]. *)
Definition select_user_by_email (db : DB) (mail : string) : result models.User :=
  match List.find (fun u => String.eqb (email u) mail) (users db) with
  | Some row => scan_user "4" (password row) row
  | None => Err ErrNoRows
  end.

(** [SELECT id, name, email, avatar, ... FROM users WHERE id = ?]. *)
Definition select_user_by_id (db : DB) (userID : string) : result models.User :=
  match List.find (fun u => String.eqb (id u) userID) (users db) with
  | Some row => scan_user "3" EmptyString row
  | None => Err ErrNoRows
  end.

Definition set_profile (now : gotime.Time) (newName newFarm newLocation : string)
    (u : UserRow) : UserRow :=
  {| id := id u; name := newName; email := email u; password := password u;
     avatar := avatar u; role := role u; farm_name := newFarm;
     location := newLocation; is_verified := is_verified u;
     created_at := created_at u; updated_at := now |}.

(** [UPDATE users SET name = ?, farm_name = ?, location = ?,
    updated_at = CURRENT_TIMESTAMP WHERE id = ?]. *)
Definition update_profile (db : DB) (now : gotime.Time)
    (newName newFarm newLocation userID : string) : result DB :=
  Ok {| users :=
          List.map (fun u => if String.eqb (id u) userID
                             then set_profile now newName newFarm newLocation u else u)
                   (users db);
        transactions := transactions db |}.

(** [SELECT password FROM users WHERE id = ?]. *)
Definition select_password (db : DB) (userID : string) : result string :=
  match List.find (fun u => String.eqb (id u) userID) (users db) with
  | Some row => Ok (password row)
  | None => Err ErrNoRows
  end.

Definition set_password (now : gotime.Time) (newPassword : string) (u : UserRow) : UserRow :=
  {| id := id u; name := name u; email := email u; password := newPassword;
     avatar := avatar u; role := role u; farm_name := farm_name u;
     location := location u; is_verified := is_verified u;
     created_at := created_at u; updated_at := now |}.

(** [UPDATE users SET password = ?, updated_at = CURRENT_TIMESTAMP
    WHERE id = ?]. *)
Definition update_password (db : DB) (now : gotime.Time)
    (newPassword userID : string) : result DB :=
  Ok {| users :=
          List.map (fun u => if String.eqb (id u) userID
                             then set_password now newPassword u else u)
                   (users db);
        transactions := transactions db |}.

(** [INSERT INTO transactions ...]: [id] is the primary key, and a
    NaN bound to the [NOT NULL] column [amount] is stored as NULL,
    which the constraint refuses. *)
Definition insert_transaction (db : DB) (row : models.Transaction) : result DB :=
  if PrimFloat.is_nan (models.Amount row)
     || List.existsb (fun t => String.eqb (models.ID t) (models.ID row)) (transactions db)
  then Err ErrConstraint
  else Ok {| users := users db; transactions := transactions db ++ [row] |}.

(** [SELECT ... FROM transactions WHERE id = ?]. *)
Definition select_transaction_by_id (db : DB) (transactionID : string)
  : result models.Transaction :=
  match List.find (fun t => String.eqb (models.ID t) transactionID) (transactions db) with
  | Some t => Ok t
  | None => Err ErrNoRows
  end.

(** [a <= b] for two text values under the BINARY collation: byte by
    byte, a proper prefix being smaller. *)
Fixpoint text_le (a b : string) : bool :=
  match a, b with
  | EmptyString, _ => true
  | String _ _, EmptyString => false
  | String x a', String y b' =>
      if (nat_of_ascii x <? nat_of_ascii y)%nat then true
      else if (nat_of_ascii y <? nat_of_ascii x)%nat then false
      else text_le a' b'
  end.

(** [LIMIT ? OFFSET ?] on the rows of a result: a negative offset
    counts as zero, a negative limit as no limit. *)
Definition limit_offset {A} (limit offset : Z) (rows : list A) : list A :=
  let rest := List.skipn (Z.to_nat offset) rows in
  if limit <? 0 then rest else List.firstn (Z.to_nat limit) rest.

(** [COALESCE(SUM(amount), 0)] over the selected amounts; [sum] is the
    engine's floating-point sum of a non-empty column. *)
Definition coalesce_sum (sum : list float -> float) (amounts : list float) : float :=
  match amounts with
  | [] => 0%float
  | _ => sum amounts
  end.

End sql.

(** ** Package handlers (internal/handlers) *)

Module handlers.

(** *** finance.go

    [clock] gives the readings of [time.Now()] in the order the
    handler makes them, [dbnow] is the store's [CURRENT_TIMESTAMP]. *)

(** The paging arithmetic of [GetTransactions], shared by every list
    handler: the pagination record and the [OFFSET] of the query, for
    the [total] the count query returned. *)
Definition GetTransactions_paging (c : gin.Context) (total : Z)
  : outcome (models.Pagination * Z) :=
  let (page, limit) := utils.ParsePagination c in
  match utils.CalculatePagination page limit total with
  | Panic m => Panic m
  | Return pagination =>
      let offset := goint.mul (goint.sub page 1) limit in
      Return (pagination, offset)
  end.

Definition GetTransaction (clock : gotime.Clock) (db : sql.DB) (c : gin.Context)
  : outcome gin.Context :=
  match utils.GetUserID c with
  | Err _ =>
      utils.ErrorResponse (clock 0%nat) c 401 "UNAUTHORIZED"
        "Kullanıcı kimliği doğrulanamadı" None
  | Ok userID =>
      let transactionID := gin.Param c "id" in
      if utils.IsEmptyString transactionID then
        utils.ErrorResponse (clock 0%nat) c 400 "MISSING_ID" "İşlem ID gerekli" None
      else
        match sql.select_transaction db transactionID userID with
        | Err ErrNoRows =>
            utils.ErrorResponse (clock 0%nat) c 404 "TRANSACTION_NOT_FOUND"
              "İşlem bulunamadı" None
        | Err err =>
            utils.ErrorResponse (clock 0%nat) c 500 "DB_ERROR"
              "İşlem getirilemedi" (Some (models.PError err))
        | Ok transaction =>
            utils.SuccessResponse (clock 0%nat) c
              (Some (models.PTransaction transaction))
              "İşlem detayları başarıyla getirildi"
        end
  end.

(** [bound] is what [c.ShouldBindJSON(&req)] yields for the request
    body. *)
Definition UpdateTransaction (clock : gotime.Clock) (dbnow : gotime.Time) (db : sql.DB)
    (bound : result models.Transaction) (c : gin.Context)
  : sql.DB * outcome gin.Context :=
  match utils.GetUserID c with
  | Err _ =>
      (db, utils.ErrorResponse (clock 0%nat) c 401 "UNAUTHORIZED"
             "Kullanıcı kimliği doğrulanamadı" None)
  | Ok userID =>
      let transactionID := gin.Param c "id" in
      if utils.IsEmptyString transactionID then
        (db, utils.ErrorResponse (clock 0%nat) c 400 "MISSING_ID" "İşlem ID gerekli" None)
      else
        match bound with
        | Err err =>
            (db, utils.ErrorResponse (clock 0%nat) c 400 "INVALID_REQUEST"
                   "Geçersiz istek formatı" (Some (models.PError err)))
        | Ok req =>
            match sql.update_transaction db dbnow req transactionID userID with
            | Err err =>
                (db, utils.ErrorResponse (clock 0%nat) c 500 "UPDATE_ERROR"
                       "İşlem güncellenemedi" (Some (models.PError err)))
            | Ok db' => (db', GetTransaction clock db' c)
            end
        end
  end.

Definition DeleteTransaction (clock : gotime.Clock) (db : sql.DB) (c : gin.Context)
  : sql.DB * outcome gin.Context :=
  match utils.GetUserID c with
  | Err _ =>
      (db, utils.ErrorResponse (clock 0%nat) c 401 "UNAUTHORIZED"
             "Kullanıcı kimliği doğrulanamadı" None)
  | Ok userID =>
      let transactionID := gin.Param c "id" in
      if utils.IsEmptyString transactionID then
        (db, utils.ErrorResponse (clock 0%nat) c 400 "MISSING_ID" "İşlem ID gerekli" None)
      else
        match sql.delete_transaction db transactionID userID with
        | Err err =>
            (db, utils.ErrorResponse (clock 0%nat) c 500 "DELETE_ERROR"
                   "İşlem silinemedi" (Some (models.PError err)))
        | Ok (db', rowsAffected) =>
            if rowsAffected =? 0 then
              (db', utils.ErrorResponse (clock 0%nat) c 404 "TRANSACTION_NOT_FOUND"
                      "İşlem bulunamadı" None)
            else
              (db', utils.SuccessResponse (clock 0%nat) c None "İşlem başarıyla silindi")
        end
  end.

Definition CreateTransaction (clock : gotime.Clock) (dbnow : gotime.Time) (db : sql.DB)
    (bound : result models.Transaction) (transactionID : string) (c : gin.Context)
  : sql.DB * outcome gin.Context :=
  match utils.GetUserID c with
  | Err _ =>
      (db, utils.ErrorResponse (clock 0%nat) c 401 "UNAUTHORIZED"
             "Kullanıcı kimliği doğrulanamadı" None)
  | Ok userID =>
      match bound with
      | Err err =>
          (db, utils.ErrorResponse (clock 0%nat) c 400 "INVALID_REQUEST"
                 "Geçersiz istek formatı" (Some (models.PError err)))
      | Ok req =>
          if utils.IsEmptyString (models.Type_ req)
             || utils.IsEmptyString (models.Category req)
             || PrimFloat.leb (models.Amount req) 0%float then
            (db, utils.ErrorResponse (clock 0%nat) c 400 "MISSING_FIELDS"
                   "Gerekli alanlar eksik" None)
          else
            match sql.insert_transaction db
                    {| models.ID := transactionID;
                       models.UserID := userID;
                       models.Type_ := models.Type_ req;
                       models.Category := models.Category req;
                       models.Description := models.Description req;
                       models.Amount := models.Amount req;
                       models.Currency := models.Currency req;
                       models.Date := models.Date req;
                       models.Status := "completed";
                       models.PaymentMethod := models.PaymentMethod req;
                       models.Receipt := models.Receipt req;
                       models.Notes := models.Notes req;
                       models.CreatedAt := dbnow;
                       models.UpdatedAt := dbnow |} with
            | Err err =>
                (db, utils.ErrorResponse (clock 0%nat) c 500 "DB_ERROR"
                       "İşlem oluşturulamadı" (Some (models.PError err)))
            | Ok db' =>
                match sql.select_transaction_by_id db' transactionID with
                | Err err =>
                    (db', utils.ErrorResponse (clock 0%nat) c 500 "FETCH_ERROR"
                            "Oluşturulan işlem getirilemedi" (Some (models.PError err)))
                | Ok transaction =>
                    (db', Return (gin.JSON c 201 (gin.BodyAPI
                       {| models.Success := true;
                          models.Data := Some (models.PTransaction transaction);
                          models.APIResponse_Message := "İşlem başarıyla oluşturuldu";
                          models.Error := None;
                          models.Meta := None |})))
                end
            end
      end
  end.

(** The summary map of [GetFinanceSummary]. *)
Record Summary := {
  totalIncome : float;
  totalExpense : float;
  netProfit : float;
  pendingPayments : float
}.

(** The slice expression [s[:n]]. *)
Definition slice_to (n : nat) (s : string) : outcome string :=
  if (String.length s <? n)%nat then Panic "slice bounds out of range"
  else Return (String.substring 0 n s).

(** The date range [GetFinanceSummary] derives from [period];
    [now] is the calendar date of [time.Now()]. *)
Definition summary_range (period : string) (now : gotime.Civil) : outcome (string * string) :=
  if String.eqb period "month" then
    Return (gotime.Format_2006_01 now ++ "-01", gotime.Format_2006_01_02 now)
  else if String.eqb period "quarter" then
    let quarter := goint.add (Z.quot (goint.sub (gotime.Month now) 1) 3) 1 in
    match slice_to 2 (gotime.Month_String
                        (goint.add (goint.mul (goint.sub quarter 1) 3) 1)) with
    | Panic m => Panic m
    | Return prefix =>
        Return (gotime.Format_2006 now ++ "-" ++ prefix ++ "-01",
                gotime.Format_2006_01_02 now)
    end
  else if String.eqb period "year" then
    Return (gotime.Format_2006 now ++ "-01-01", gotime.Format_2006_01_02 now)
  else
    Return (gotime.Format_2006_01 now ++ "-01", gotime.Format_2006_01_02 now).

Section Finance.
(** [date_text t] is the text under which the store keeps the date
    [t]; [sum] is the engine's sum of a non-empty column of amounts;
    [order] is the order in which the engine returns rows for [ORDER
    BY date DESC]. *)
Variable date_text : gotime.Time -> string.
Variable sum : list float -> float.
Variable order : list models.Transaction -> list models.Transaction.

Definition in_range (startDate endDate : string) (t : models.Transaction) : bool :=
  sql.text_le startDate (date_text (models.Date t))
  && sql.text_le (date_text (models.Date t)) endDate.

(** The three sums of [GetFinanceSummary] for the authenticated
    [userID], as the handler places them in its summary. *)
Definition GetFinanceSummary_summary (now : gotime.Civil) (db : sql.DB) (c : gin.Context)
    (userID : string) : outcome Summary :=
  let period := gin.DefaultQuery c "period" "month" in
  match summary_range period now with
  | Panic m => Panic m
  | Return (startDate, endDate) =>
      let totalIncome :=
        sql.coalesce_sum sum
          (List.map models.Amount
             (List.filter (fun t => String.eqb (models.UserID t) userID
                                    && String.eqb (models.Type_ t) "income"
                                    && in_range startDate endDate t)
                          (sql.transactions db))) in
      let totalExpense :=
        sql.coalesce_sum sum
          (List.map models.Amount
             (List.filter (fun t => String.eqb (models.UserID t) userID
                                    && String.eqb (models.Type_ t) "expense"
                                    && in_range startDate endDate t)
                          (sql.transactions db))) in
      let pendingPayments :=
        sql.coalesce_sum sum
          (List.map models.Amount
             (List.filter (fun t => String.eqb (models.UserID t) userID
                                    && String.eqb (models.Status t) "pending")
                          (sql.transactions db))) in
      Return {| totalIncome := totalIncome;
                totalExpense := totalExpense;
                netProfit := PrimFloat.sub totalIncome totalExpense;
                pendingPayments := pendingPayments |}
  end.

(** The [WHERE] clause [GetTransactions] assembles from the query
    string. *)
Definition transactions_where (c : gin.Context) (userID : string)
    (t : models.Transaction) : bool :=
  let transactionType := gin.DefaultQuery c "type" "all" in
  let category := gin.DefaultQuery c "category" "all" in
  let startDate := gin.DefaultQuery c "startDate" EmptyString in
  let endDate := gin.DefaultQuery c "endDate" EmptyString in
  String.eqb (models.UserID t) userID
  && (if negb (String.eqb transactionType "all")
      then String.eqb (models.Type_ t) transactionType else true)
  && (if negb (String.eqb category "all")
      then String.eqb (models.Category t) category else true)
  && (if negb (String.eqb startDate EmptyString)
      then sql.text_le startDate (date_text (models.Date t)) else true)
  && (if negb (String.eqb endDate EmptyString)
      then sql.text_le (date_text (models.Date t)) endDate else true).

(** The rows and the pagination record that [GetTransactions] places
    in its response for the authenticated [userID]. *)
Definition GetTransactions_data (db : sql.DB) (c : gin.Context) (userID : string)
  : outcome (list models.Transaction * models.Pagination) :=
  let (page, limit) := utils.ParsePagination c in
  let matching := List.filter (transactions_where c userID) (sql.transactions db) in
  let total := Z.of_nat (List.length matching) in
  match utils.CalculatePagination page limit total with
  | Panic m => Panic m
  | Return pagination =>
      let offset := goint.mul (goint.sub page 1) limit in
      Return (sql.limit_offset limit offset (order matching), pagination)
  end.

End Finance.

(** *** auth.go *)

Record AuthHandler := {
  jwtManager : auth.JWTManager
}.

Section AuthHandlers.
Context `{jwt.Codec auth.Claims} `{jwt.MAC} `{bcrypt.Primitives}.
Variable ParseDuration : string -> result gotime.Duration.

Definition NewAuthHandler (env : gmap string string) : AuthHandler :=
  {| jwtManager := auth.NewJWTManager ParseDuration env |}.

(** [bound] is what [c.ShouldBindJSON(&req)] yields; [unencodedSalt],
    [userID], [jti] and [jti'] are the random salt and the three UUIDs
    drawn on the way. *)
Definition Register (h : AuthHandler) (clock : gotime.Clock) (dbnow : gotime.Time)
    (db : sql.DB) (bound : result models.RegisterRequest)
    (unencodedSalt userID jti jti' : string) (c : gin.Context)
  : sql.DB * outcome gin.Context :=
  match bound with
  | Err err =>
      (db, utils.ErrorResponse (clock 0%nat) c 400 "INVALID_REQUEST"
             "Geçersiz istek formatı" (Some (models.PError err)))
  | Ok req =>
      if negb (String.eqb (models.Password req) (models.ConfirmPassword req)) then
        (db, utils.ErrorResponse (clock 0%nat) c 400 "PASSWORD_MISMATCH"
               "Şifreler eşleşmiyor" None)
      else
        match sql.select_user_id db (models.Email req) with
        | Ok _ =>
            (db, utils.ErrorResponse (clock 0%nat) c 409 "EMAIL_EXISTS"
                   "Bu email adresi zaten kullanımda" None)
        | Err _ =>
            match utils.HashPassword unencodedSalt (models.Password req) with
            | (_, Some err) =>
                (db, utils.ErrorResponse (clock 0%nat) c 500 "HASH_ERROR"
                       "Şifre hash'lenemedi" (Some (models.PError err)))
            | (hashedPassword, None) =>
                match sql.insert_user db
                        {| sql.id := userID;
                           sql.name := models.Name req;
                           sql.email := models.Email req;
                           sql.password := hashedPassword;
                           sql.avatar := None;
                           sql.role := "farmer";
                           sql.farm_name := models.FarmName req;
                           sql.location := models.Location req;
                           sql.is_verified := false;
                           sql.created_at := dbnow;
                           sql.updated_at := dbnow |} with
                | Err err =>
                    (db, utils.ErrorResponse (clock 0%nat) c 500 "DB_ERROR"
                           "Kullanıcı oluşturulamadı" (Some (models.PError err)))
                | Ok db' =>
                    match auth.GenerateToken (jwtManager h) clock jti
                            userID (models.Email req) "farmer" with
                    | Err err =>
                        (db', utils.ErrorResponse (clock 3%nat) c 500 "TOKEN_ERROR"
                                "Token oluşturulamadı" (Some (models.PError err)))
                    | Ok token =>
                        match auth.GenerateToken (jwtManager h) (gotime.after 3 clock) jti'
                                userID (models.Email req) "farmer" with
                        | Err err =>
                            (db', utils.ErrorResponse (clock 6%nat) c 500
                                    "REFRESH_TOKEN_ERROR" "Refresh token oluşturulamadı"
                                    (Some (models.PError err)))
                        | Ok refreshToken =>
                            let user :=
                              {| models.User_ID := userID;
                                 models.User_Name := models.Name req;
                                 models.User_Email := models.Email req;
                                 models.User_Password := EmptyString;
                                 models.User_Avatar := EmptyString;
                                 models.User_Role := "farmer";
                                 models.User_FarmName := models.FarmName req;
                                 models.User_Location := models.Location req;
                                 models.User_IsVerified := false;
                                 models.User_CreatedAt := gotime.zeroTime;
                                 models.User_UpdatedAt := gotime.zeroTime |} in
                            let response :=
                              {| models.AuthResponse_User := user;
                                 models.Token := token;
                                 models.RefreshToken := refreshToken |} in
                            (db', utils.SuccessResponse (clock 6%nat) c
                                    (Some (models.PAuth response))
                                    "Kullanıcı başarıyla oluşturuldu")
                        end
                    end
                end
            end
        end
  end.

(** [jti] and [jti'] are the UUIDs of the two tokens. *)
Definition Login (h : AuthHandler) (clock : gotime.Clock) (db : sql.DB)
    (bound : result models.LoginRequest) (jti jti' : string) (c : gin.Context)
  : outcome gin.Context :=
  match bound with
  | Err err =>
      utils.ErrorResponse (clock 0%nat) c 400 "INVALID_REQUEST"
        "Geçersiz istek formatı" (Some (models.PError err))
  | Ok req =>
      match sql.select_user_by_email db (models.LoginRequest_Email req) with
      | Err _ =>
          utils.ErrorResponse (clock 0%nat) c 401 "INVALID_CREDENTIALS"
            "Geçersiz email veya şifre" None
      | Ok user =>
          if negb (utils.CheckPassword (models.LoginRequest_Password req)
                     (models.User_Password user)) then
            utils.ErrorResponse (clock 0%nat) c 401 "INVALID_CREDENTIALS"
              "Geçersiz email veya şifre" None
          else
            match auth.GenerateToken (jwtManager h) clock jti
                    (models.User_ID user) (models.User_Email user)
                    (models.User_Role user) with
            | Err err =>
                utils.ErrorResponse (clock 3%nat) c 500 "TOKEN_ERROR"
                  "Token oluşturulamadı" (Some (models.PError err))
            | Ok token =>
                match auth.GenerateToken (jwtManager h) (gotime.after 3 clock) jti'
                        (models.User_ID user) (models.User_Email user)
                        (models.User_Role user) with
                | Err err =>
                    utils.ErrorResponse (clock 6%nat) c 500 "REFRESH_TOKEN_ERROR"
                      "Refresh token oluşturulamadı" (Some (models.PError err))
                | Ok refreshToken =>
                    utils.SuccessResponse (clock 6%nat) c
                      (Some (models.PAuth
                         {| models.AuthResponse_User := user;
                            models.Token := token;
                            models.RefreshToken := refreshToken |}))
                      "Giriş başarılı"
                end
            end
      end
  end.

(** [bound] is the [map[string]string] bound from the request body,
    [unencodedSalt] the randomness of the new hash. *)
Definition ChangePassword (clock : gotime.Clock) (dbnow : gotime.Time) (db : sql.DB)
    (bound : result (gmap string string)) (unencodedSalt : string) (c : gin.Context)
  : sql.DB * outcome gin.Context :=
  match utils.GetUserID c with
  | Err _ =>
      (db, utils.ErrorResponse (clock 0%nat) c 401 "UNAUTHORIZED"
             "Kullanıcı kimliği doğrulanamadı" None)
  | Ok userID =>
      match bound with
      | Err err =>
          (db, utils.ErrorResponse (clock 0%nat) c 400 "INVALID_REQUEST"
                 "Geçersiz istek formatı" (Some (models.PError err)))
      | Ok req =>
          match req !! "currentPassword" with
          | None =>
              (db, utils.ErrorResponse (clock 0%nat) c 400 "MISSING_CURRENT_PASSWORD"
                     "Mevcut şifre gerekli" None)
          | Some currentPassword =>
              match req !! "newPassword" with
              | None =>
                  (db, utils.ErrorResponse (clock 0%nat) c 400 "MISSING_NEW_PASSWORD"
                         "Yeni şifre gerekli" None)
              | Some newPassword =>
                  match sql.select_password db userID with
                  | Err err =>
                      (db, utils.ErrorResponse (clock 0%nat) c 404 "USER_NOT_FOUND"
                             "Kullanıcı bulunamadı" (Some (models.PError err)))
                  | Ok hashedPassword =>
                      if negb (utils.CheckPassword currentPassword hashedPassword) then
                        (db, utils.ErrorResponse (clock 0%nat) c 400
                               "INVALID_CURRENT_PASSWORD" "Mevcut şifre yanlış" None)
                      else
                        match utils.HashPassword unencodedSalt newPassword with
                        | (_, Some err) =>
                            (db, utils.ErrorResponse (clock 0%nat) c 500 "HASH_ERROR"
                                   "Yeni şifre hash'lenemedi" (Some (models.PError err)))
                        | (newHashedPassword, None) =>
                            match sql.update_password db dbnow newHashedPassword userID with
                            | Err err =>
                                (db, utils.ErrorResponse (clock 0%nat) c 500 "UPDATE_ERROR"
                                       "Şifre güncellenemedi" (Some (models.PError err)))
                            | Ok db' =>
                                (db', utils.SuccessResponse (clock 0%nat) c None
                                        "Şifre başarıyla değiştirildi")
                            end
                        end
                  end
              end
          end
      end
  end.

End AuthHandlers.

Definition GetProfile (clock : gotime.Clock) (db : sql.DB) (c : gin.Context)
  : outcome gin.Context :=
  match utils.GetUserID c with
  | Err _ =>
      utils.ErrorResponse (clock 0%nat) c 401 "UNAUTHORIZED"
        "Kullanıcı kimliği doğrulanamadı" None
  | Ok userID =>
      match sql.select_user_by_id db userID with
      | Err err =>
          utils.ErrorResponse (clock 0%nat) c 404 "USER_NOT_FOUND"
            "Kullanıcı bulunamadı" (Some (models.PError err))
      | Ok user =>
          utils.SuccessResponse (clock 0%nat) c (Some (models.PUser user))
            "Profil bilgileri başarıyla getirildi"
      end
  end.

(** [bound] is the [models.User] bound from the request body. *)
Definition UpdateProfile (clock : gotime.Clock) (dbnow : gotime.Time) (db : sql.DB)
    (bound : result models.User) (c : gin.Context) : sql.DB * outcome gin.Context :=
  match utils.GetUserID c with
  | Err _ =>
      (db, utils.ErrorResponse (clock 0%nat) c 401 "UNAUTHORIZED"
             "Kullanıcı kimliği doğrulanamadı" None)
  | Ok userID =>
      match bound with
      | Err err =>
          (db, utils.ErrorResponse (clock 0%nat) c 400 "INVALID_REQUEST"
                 "Geçersiz istek formatı" (Some (models.PError err)))
      | Ok req =>
          match sql.update_profile db dbnow (models.User_Name req)
                  (models.User_FarmName req) (models.User_Location req) userID with
          | Err err =>
              (db, utils.ErrorResponse (clock 0%nat) c 500 "UPDATE_ERROR"
                     "Profil güncellenemedi" (Some (models.PError err)))
          | Ok db' =>
              match sql.select_user_by_id db' userID with
              | Err err =>
                  (db', utils.ErrorResponse (clock 0%nat) c 500 "FETCH_ERROR"
                          "Güncellenmiş profil getirilemedi" (Some (models.PError err)))
              | Ok user =>
                  (db', utils.SuccessResponse (clock 0%nat) c (Some (models.PUser user))
                          "Profil başarıyla güncellendi")
              end
          end
      end
  end.

(** [Logout], a handler of the protected group: it writes the success
    envelope and nothing else. *)
Definition Logout (clock : gotime.Clock) : gin.HandlerFunc :=
  fun _ c => utils.SuccessResponse (clock 0%nat) c None "Başarıyla çıkış yapıldı".

End handlers.

(** * Part II: the vocabulary of the statements

    Predicates and observations in which the properties are stated,
    a reference implementation of the primitives, and sample data. *)

(** ** Arithmetic and strings *)

(** The ceiling of [a / b] for a positive [b]. *)
Definition ceil_div (a b : Z) : Z := - ((- a) / b).

(** [sep] does not occur in [s]. *)
Fixpoint free (sep : ascii) (s : string) : bool :=
  match s with
  | EmptyString => true
  | String c s' => negb (Ascii.eqb c sep) && free sep s'
  end.

(** ** Stores and responses *)

(** A row that does not belong to [userID]. *)
Definition foreign (userID : string) (t : models.Transaction) : bool :=
  negb (String.eqb (models.UserID t) userID).

(** The store without any row whose id is [transactionID]. *)
Definition without (transactionID : string) (db : sql.DB) : sql.DB :=
  {| sql.users := sql.users db;
     sql.transactions :=
       List.filter (fun t => negb (String.eqb (models.ID t) transactionID))
                   (sql.transactions db) |}.

(** The transaction a handler put in its response, if any. *)
Definition returned_transaction (o : outcome gin.Context) : option models.Transaction :=
  match o with
  | Return c =>
      match last (gin.Written c) with
      | Some (_, gin.BodyAPI r) =>
          match models.Data r with
          | Some (models.PTransaction t) => Some t
          | _ => None
          end
      | _ => None
      end
  | Panic _ => None
  end.

(** The token in the body of a response. *)
Definition returned_token (o : outcome gin.Context) : option string :=
  match o with
  | Return c =>
      match last (gin.Written c) with
      | Some (_, gin.BodyAPI r) =>
          match models.Data r with
          | Some (models.PAuth a) => Some (models.Token a)
          | _ => None
          end
      | _ => None
      end
  | Panic _ => None
  end.

(** Status and error code of the last response a handler wrote. *)
Definition last_status (o : outcome gin.Context) : option (Z * option string) :=
  match o with
  | Return c =>
      match last (gin.Written c) with
      | Some (code, b) => Some (code, gin.error_code b)
      | None => None
      end
  | Panic _ => None
  end.

(** The user id the request carries when the chain is done. *)
Definition user_id_of (o : outcome gin.Context) : option string :=
  match o with
  | Return c => gin.Get c "user_id"
  | Panic _ => None
  end.

Definition unwrap (r : result string) : string :=
  match r with
  | Ok s => s
  | Err _ => EmptyString
  end.

(** ** Tokens *)

Section TokenVocabulary.
Context `{jwt.Codec auth.Claims} `{jwt.MAC}.

(** The wire primitives reproduce a header, claims and a signature:
    each decodes to what was encoded, and no encoded segment holds the
    separator of the compact form. *)
Definition wire_ok (hdr : gmap string string) (claims : auth.Claims) (sig : string) : Prop :=
  jwt.DecodeSegment (jwt.EncodeSegment (jwt.MarshalHeader hdr)) = Some (jwt.MarshalHeader hdr)
  /\ jwt.UnmarshalHeader (jwt.MarshalHeader hdr) = Some hdr
  /\ jwt.DecodeSegment (jwt.EncodeSegment (jwt.MarshalClaims claims))
     = Some (jwt.MarshalClaims claims)
  /\ jwt.UnmarshalClaims (jwt.MarshalClaims claims) = Some claims
  /\ jwt.DecodeSegment (jwt.EncodeSegment sig) = Some sig
  /\ free "." (jwt.EncodeSegment (jwt.MarshalHeader hdr)) = true
  /\ free "." (jwt.EncodeSegment (jwt.MarshalClaims claims)) = true
  /\ free "." (jwt.EncodeSegment sig) = true.

(** The signature [GenerateToken] computes for claims. *)
Definition signature_of (j : auth.JWTManager) (claims : auth.Claims) : string :=
  jwt.hmac_sum jwt.SHA256 (auth.secretKey j)
    (jwt.SigningString (jwt.NewHeader (jwt.SigningMethodHMAC jwt.SHA256)) claims).

(** A compact token in its three segments, with what they decode to. *)
Definition decodes_to (tokenString p0 p1 : string) (alg : string)
    (claims : auth.Claims) (sig : string) : Prop :=
  exists p2 headerBytes hdr claimBytes,
    gostrings.Split tokenString "." = [p0; p1; p2]
    /\ jwt.DecodeSegment p0 = Some headerBytes
    /\ jwt.UnmarshalHeader headerBytes = Some hdr
    /\ jwt.DecodeSegment p1 = Some claimBytes
    /\ jwt.UnmarshalClaims claimBytes = Some claims
    /\ hdr !! "alg" = Some alg
    /\ jwt.DecodeSegment p2 = Some sig.

(** The token is well formed, names an HMAC method and carries the
    HMAC of its first two segments under the secret of [j]. *)
Definition well_signed (j : auth.JWTManager) (tokenString : string)
    (claims : auth.Claims) : Prop :=
  exists p0 p1 alg h,
    decodes_to tokenString p0 p1 alg claims
      (jwt.hmac_sum h (auth.secretKey j) (p0 ++ "." ++ p1))
    /\ jwt.GetSigningMethod alg = Some (jwt.SigningMethodHMAC h).

(** The validity window of claims: from [nbf] on and before [exp],
    each bound only when the claim is present. *)
Definition in_window (now : gotime.Time) (claims : auth.Claims) : Prop :=
  (forall exp, jwt.ExpiresAt (auth.RegisteredClaims claims) = Some exp -> now < exp)
  /\ (forall nbf, jwt.NotBefore (auth.RegisteredClaims claims) = Some nbf -> nbf <= now).

End TokenVocabulary.

(** ** The authentication middleware *)

(** The [success] member of a response body. *)
Definition success_of (b : gin.Body) : option bool :=
  match b with
  | gin.BodyAPI r => Some (models.Success r)
  | gin.BodyH (gin.HMap fs) =>
      match gin.field "success" fs with
      | Some (gin.HBool v) => Some v
      | _ => None
      end
  | gin.BodyH _ => None
  end.

(** What a refusal leaves to observe on [c'] of the request [c]: one
    more response, with status 401, [success] false and the error
    code; the chain aborted; nothing stored in the request. *)
Definition refusal (c c' : gin.Context) (code : string) : Prop :=
  exists body,
    gin.Written c' = (gin.Written c ++ [(401, body)])%list
    /\ gin.error_code body = Some code
    /\ success_of body = Some false
    /\ gin.IsAborted c' = true
    /\ gin.Keys c' = gin.Keys c.

Section MiddlewareVocabulary.
Context `{jwt.Codec auth.Claims} `{jwt.MAC}.
Variable ParseDuration : string -> result gotime.Duration.
Variable env : gmap string string.
Variable now : gotime.Time.

(** The middleware refuses [c] with [code]: it returns the same
    refusal whatever handler it is given to call, one that panics
    included, and as the head of a chain it ends the request with that
    refusal whatever handlers follow. *)
Definition refused (c : gin.Context) (code : string) : Prop :=
  (exists c',
     (forall next, middleware.Auth ParseDuration env now next c = Return c')
     /\ refusal c c' code)
  /\ (exists c',
        (forall rest : list gin.HandlerFunc,
           (List.length rest <= 62)%nat ->
           gin.ServeHTTP (middleware.Auth ParseDuration env now :: rest) c = Return c')
        /\ refusal c c' code).

(** The middleware admits [c] as the bearer of [claims]: it calls the
    handler it is given on a context that answers [user_id],
    [user_email] and [user_role] with the claims' fields and is
    otherwise the one it received. *)
Definition admitted (c : gin.Context) (claims : auth.Claims) : Prop :=
  exists c',
    (forall next, middleware.Auth ParseDuration env now next c = next c')
    /\ gin.Get c' "user_id" = Some (auth.UserID claims)
    /\ gin.Get c' "user_email" = Some (auth.Email claims)
    /\ gin.Get c' "user_role" = Some (auth.Role claims)
    /\ (forall key, key <> "user_id" -> key <> "user_email" -> key <> "user_role" ->
                    gin.Get c' key = gin.Get c key)
    /\ gin.Written c' = gin.Written c
    /\ gin.IsAborted c' = gin.IsAborted c.

(** The middleware answers [c] with 401 and [code], calls nothing
    further, and the chain ends there whatever handlers follow. *)
Definition rejects (c : gin.Context) (code message : string) : Prop :=
  (forall next,
     middleware.Auth ParseDuration env now next c
     = Return (gin.Abort (gin.JSON c 401 (middleware.unauthorized code message))))
  /\ (forall rest : list gin.HandlerFunc,
        (List.length rest <= 62)%nat ->
        gin.ServeHTTP (middleware.Auth ParseDuration env now :: rest) c
        = Return (gin.with_index 64
                    (gin.JSON (gin.with_index 0 c) 401
                       (middleware.unauthorized code message)))).

End MiddlewareVocabulary.

(** ** Passwords *)

(** The sizes bcrypt's primitives guarantee: 16 salt bytes encode to
    22 characters, a digest has 31. *)
Definition sized (P : bcrypt.Primitives) : Prop :=
  (forall s, String.length s = bcrypt.maxSaltSize ->
             String.length (bcrypt.base64Encode s) = bcrypt.encodedSaltSize)
  /\ (forall cost salt key d,
        bcrypt.eksblowfish cost salt key = Some d ->
        String.length d = bcrypt.encodedHashSize).

(** The hash record of a password hashed with cost 14. *)
Definition stored (salt digest : string) : bcrypt.hashed :=
  {| bcrypt.hash := digest; bcrypt.salt := salt; bcrypt.cost := 14;
     bcrypt.major := bcrypt.majorVersion; bcrypt.minor := Some bcrypt.minorVersion |}.

(** ** A reference implementation of the primitives

    Small executable stand-ins for base64url, JSON, HMAC, bcrypt's key
    schedule and [time.ParseDuration], on which the statements are
    exercised.  Segments are written in hexadecimal; a record is a
    list of hexadecimal fields. *)

Module reference.

Definition hex_digit (n : N) : ascii :=
  ascii_of_N (if (n <? 10)%N then 48 + n else 87 + n).

Definition hex_value (c : ascii) : option N :=
  let n := N_of_ascii c in
  if ((48 <=? n) && (n <=? 57))%N then Some (n - 48)%N
  else if ((97 <=? n) && (n <=? 102))%N then Some (n - 87)%N
  else None.

Fixpoint hex (s : string) : string :=
  match s with
  | EmptyString => EmptyString
  | String c s' =>
      let n := N_of_ascii c in
      String (hex_digit (n / 16)) (String (hex_digit (n mod 16)) (hex s'))
  end.

Fixpoint unhex (s : string) : option string :=
  match s with
  | EmptyString => Some EmptyString
  | String a (String b s') =>
      match hex_value a, hex_value b, unhex s' with
      | Some x, Some y, Some r => Some (String (ascii_of_N (16 * x + y)) r)
      | _, _, _ => None
      end
  | String _ EmptyString => None
  end.

(** The binary digits of a positive number, lowest first. *)
Fixpoint bits (p : positive) : string :=
  match p with
  | xH => "1"
  | xO q => String "0" (bits q)
  | xI q => String "1" (bits q)
  end.

Fixpoint unbits (s : string) : option positive :=
  match s with
  | EmptyString => None
  | String c EmptyString => if Ascii.eqb c "1" then Some xH else None
  | String c rest =>
      match unbits rest with
      | Some q =>
          if Ascii.eqb c "0" then Some (xO q)
          else if Ascii.eqb c "1" then Some (xI q) else None
      | None => None
      end
  end.

Definition number (z : Z) : string :=
  match z with
  | Z0 => "z"
  | Zpos p => String "p" (bits p)
  | Zneg p => String "n" (bits p)
  end.

Definition unnumber (s : string) : option Z :=
  match s with
  | String c rest =>
      if Ascii.eqb c "z" then (if String.eqb rest EmptyString then Some 0 else None)
      else if Ascii.eqb c "p" then Zpos <$> unbits rest
      else if Ascii.eqb c "n" then Zneg <$> unbits rest
      else None
  | EmptyString => None
  end.

Definition date (t : option gotime.Time) : string :=
  match t with
  | None => EmptyString
  | Some z => number z
  end.

Definition undate (s : string) : option (option gotime.Time) :=
  if String.eqb s EmptyString then Some None else Some <$> unnumber s.

Fixpoint all_some {A} (l : list (option A)) : option (list A) :=
  match l with
  | [] => Some []
  | Some a :: rest => cons a <$> all_some rest
  | None :: _ => None
  end.

Definition marshal_pair (kv : string * string) : string :=
  hex (fst kv) ++ "=" ++ hex (snd kv).

Definition unmarshal_pair (s : string) : option (string * string) :=
  match gostrings.Split s "=" with
  | [k; v] =>
      match unhex k, unhex v with
      | Some k', Some v' => Some (k', v')
      | _, _ => None
      end
  | _ => None
  end.

Definition marshal_header (hdr : gmap string string) : string :=
  gostrings.Join (List.map marshal_pair (map_to_list hdr)) ";".

Definition unmarshal_header (s : string) : option (gmap string string) :=
  if String.eqb s EmptyString then Some ∅
  else list_to_map <$> all_some (List.map unmarshal_pair (gostrings.Split s ";")).

Fixpoint marshal_audience (l : list string) : string :=
  match l with
  | [] => EmptyString
  | a :: rest => String "+" (hex a ++ marshal_audience rest)
  end.

Definition unmarshal_audience (s : string) : option (list string) :=
  match gostrings.Split s "+" with
  | first :: rest =>
      if String.eqb first EmptyString then all_some (List.map unhex rest) else None
  | [] => None
  end.

Definition marshal_claims (c : auth.Claims) : string :=
  let r := auth.RegisteredClaims c in
  gostrings.Join
    [ hex (auth.UserID c); hex (auth.Email c); hex (auth.Role c);
      hex (jwt.Issuer r); hex (jwt.Subject r);
      marshal_audience (jwt.Audience r);
      date (jwt.ExpiresAt r); date (jwt.NotBefore r); date (jwt.IssuedAt r);
      hex (jwt.ID r) ] ",".

Definition unmarshal_claims (s : string) : option auth.Claims :=
  match gostrings.Split s "," with
  | [uid; mail; role; iss; sub; aud; exp; nbf; iat; jti] =>
      match unhex uid, unhex mail, unhex role, unhex iss, unhex sub with
      | Some uid, Some mail, Some role, Some iss, Some sub =>
          match unmarshal_audience aud, undate exp, undate nbf, undate iat, unhex jti with
          | Some aud, Some exp, Some nbf, Some iat, Some jti =>
              Some {| auth.UserID := uid; auth.Email := mail; auth.Role := role;
                      auth.RegisteredClaims :=
                        {| jwt.Issuer := iss; jwt.Subject := sub; jwt.Audience := aud;
                           jwt.ExpiresAt := exp; jwt.NotBefore := nbf;
                           jwt.IssuedAt := iat; jwt.ID := jti |} |}
          | _, _, _, _, _ => None
          end
      | _, _, _, _, _ => None
      end
  | _ => None
  end.

#[global] Instance codec : jwt.Codec auth.Claims := {|
  jwt.EncodeSegment := hex;
  jwt.DecodeSegment := unhex;
  jwt.MarshalHeader := marshal_header;
  jwt.UnmarshalHeader := unmarshal_header;
  jwt.MarshalClaims := marshal_claims;
  jwt.UnmarshalClaims := unmarshal_claims
|}.

Definition hash_name (h : jwt.Hash) : string :=
  match h with
  | jwt.SHA256 => "sha256"
  | jwt.SHA384 => "sha384"
  | jwt.SHA512 => "sha512"
  end.

(** A keyed digest that shows its key and message, nothing more. *)
#[global] Instance mac : jwt.MAC := {|
  jwt.hmac_sum h key msg := hash_name h ++ ":" ++ hex key ++ ":" ++ msg
|}.

(** A duration parser that knows a few spellings. *)
Definition ParseDuration (s : string) : result gotime.Duration :=
  if String.eqb s "24h" then Ok (24 * gotime.Hour)
  else if String.eqb s "1h" then Ok gotime.Hour
  else if String.eqb s "15m" then Ok (15 * gotime.Minute)
  else if String.eqb s "30s" then Ok (30 * gotime.Second)
  else Err (errors_New "time: invalid duration").

(** A key schedule: 31 accumulators absorb the cost, the salt and the
    key material byte by byte. *)
Fixpoint absorb (s : string) (acc : list N) : list N :=
  match s with
  | EmptyString => acc
  | String c s' =>
      match acc with
      | a :: rest => absorb s' (rest ++ [((a * 31 + N_of_ascii c) mod 251)%N])
      | [] => []
      end
  end.

Fixpoint render (acc : list N) : string :=
  match acc with
  | [] => EmptyString
  | a :: rest => String (ascii_of_N (46 + a mod 64)) (render rest)
  end.

Definition digest (cost : Z) (salt key : string) : option string :=
  if Nat.eqb (String.length salt) bcrypt.encodedSaltSize then
    Some (bcrypt.fit bcrypt.encodedHashSize
            (render (absorb (bcrypt.fmt02d cost ++ salt ++ key) (List.repeat 7%N 31))))
  else None.

Definition encode_salt (s : string) : string :=
  bcrypt.fit bcrypt.encodedSaltSize (hex s).

#[global] Instance primitives : bcrypt.Primitives := {|
  bcrypt.base64Encode := encode_salt;
  bcrypt.eksblowfish := digest
|}.

(** A hash that shows its name and its input. *)
Definition sha : hmac.Digest := {|
  hmac.Sum h msg := hash_name h ++ ":" ++ hex msg
|}.

End reference.

(** ** Sample data *)

(** The manager of a process started without [JWT_SECRET] and
    [JWT_EXPIRY]. *)
Definition default_manager : auth.JWTManager :=
  auth.NewJWTManager reference.ParseDuration ∅.

(** A clock that advances by a microsecond per reading. *)
Definition ticking (start : gotime.Time) : gotime.Clock :=
  fun n => start + 1000 * Z.of_nat n.

(** Half a second past a full second. *)
Definition noon : gotime.Time := 1700000000 * gotime.Second + 500000000.

Definition alice_claims : auth.Claims :=
  auth.newClaims default_manager (ticking noon) "jti-1" "user-1" "alice@example.com" "farmer".

(** The token issued to alice at [noon]; it is valid from
    1700000000 s and expires at 1700086400 s. *)
Definition alice_token : string :=
  unwrap (auth.GenerateToken default_manager (ticking noon) "jti-1"
            "user-1" "alice@example.com" "farmer").

Definition alice_expiry : gotime.Time := 1700086400 * gotime.Second.


(** Alice's claims without an expiry, signed with the configured
    secret. *)
Definition eternal_claims : auth.Claims :=
  {| auth.UserID := auth.UserID alice_claims;
     auth.Email := auth.Email alice_claims;
     auth.Role := auth.Role alice_claims;
     auth.RegisteredClaims :=
       {| jwt.Issuer := "agri-management-api"; jwt.Subject := "user-1";
          jwt.Audience := []; jwt.ExpiresAt := None;
          jwt.NotBefore := None; jwt.IssuedAt := None; jwt.ID := "jti-0" |} |}.

Definition eternal_token : string :=
  unwrap (jwt.SignedString (jwt.SigningMethodHMAC jwt.SHA256) eternal_claims
            (auth.secretKey default_manager)).

(** Two users with one transaction each, and a request of one user
    for a transaction id. *)
Definition sample_transaction (tid uid : string) : models.Transaction :=
  {| models.ID := tid; models.UserID := uid; models.Type_ := "income";
     models.Category := "Süt Satışı"; models.Description := "milk";
     models.Amount := 120.5%float; models.Currency := "TRY";
     models.Date := 1700000000 * gotime.Second; models.Status := "completed";
     models.PaymentMethod := "cash"; models.Receipt := ""; models.Notes := "";
     models.CreatedAt := 1700000000 * gotime.Second;
     models.UpdatedAt := 1700000000 * gotime.Second |}.

Definition sample_store : sql.DB :=
  {| sql.users := [];
     sql.transactions := [sample_transaction "t1" "u1"; sample_transaction "t2" "u2"] |}.

Definition sample_request (uid tid : string) : gin.Context :=
  gin.Set_ (gin.Set_ (gin.NewContext ∅ ∅ (<["id" := tid]> ∅)) "request_id" "r-1")
    "user_id" uid.

Definition sample_clock : gotime.Clock := fun _ => 1700000100 * gotime.Second.

Fixpoint replicate (n : nat) (c : ascii) : string :=
  match n with
  | O => EmptyString
  | S n' => String c (replicate n' c)
  end.

Definition sample_salt : string := "0123456789abcdef".

(** A password of exactly 72 bytes. *)
Definition long_password : string := replicate 72 "a".

Definition alice_registration : models.RegisterRequest :=
  {| models.Name := "Alice"; models.Email := "alice@example.com";
     models.Password := "secret123"; models.ConfirmPassword := "secret123";
     models.FarmName := "Green Acres"; models.Location := "Izmir" |}.

Definition empty_store : sql.DB := {| sql.users := []; sql.transactions := [] |}.

(** [POST /auth/register]: the request-id middleware, then
    [Register] on an empty store. *)
Definition register_alice : sql.DB * outcome gin.Context :=
  match middleware.RequestID "req-1" (fun c => Return c) (gin.NewContext ∅ ∅ ∅) with
  | Return c =>
      handlers.Register (handlers.NewAuthHandler reference.ParseDuration ∅)
        (ticking noon) noon empty_store (Ok alice_registration)
        sample_salt "user-1" "jti-1" "jti-2" c
  | Panic m => (empty_store, Panic m)
  end.

(** [POST /auth/logout], a route of the protected group, one hour
    later, with the given [Authorization] header values. *)
Definition protected_call (authorization : list string) : outcome gin.Context :=
  gin.ServeHTTP
    [ middleware.RequestID "req-2";
      middleware.Auth reference.ParseDuration ∅ (noon + gotime.Hour);
      handlers.Logout (ticking (noon + gotime.Hour)) ]
    (gin.NewContext
       (match authorization with
        | [] => ∅
        | _ => <["Authorization" := authorization]> ∅
        end) ∅ ∅).

(** ** Tokens under HMAC *)

(** The secret of the default manager followed by a zero byte. *)
Definition padded_secret : string :=
  "default-secret-key" ++ String Ascii.zero EmptyString.

(** Alice's claims signed by HMAC with [padded_secret], with another
    secret, and alice's token itself. *)
Definition padded_token : string :=
  unwrap (@jwt.SignedString auth.Claims reference.codec (@hmac.mac reference.sha)
            (jwt.SigningMethodHMAC jwt.SHA256) alice_claims padded_secret).


(** ** More sample tokens *)

(** Claims for another user, and a token that carries them under the
    signature of alice's token. *)
Definition mallory_claims : auth.Claims :=
  auth.newClaims default_manager (ticking noon) "jti-1" "user-2" "mallory@example.com" "admin".

Definition tampered_token : string :=
  jwt.SigningString (jwt.NewHeader (jwt.SigningMethodHMAC jwt.SHA256)) mallory_claims
  ++ "." ++ jwt.EncodeSegment (signature_of default_manager alice_claims).

(** A token for [mallory_claims] signed with the key a server falls
    back to. *)
Definition default_key_token : string :=
  unwrap (jwt.SignedString (jwt.SigningMethodHMAC jwt.SHA256) mallory_claims
            "default-secret-key").

(** ** Strings and requests *)

(** Every byte of [s] satisfies [p]. *)
Fixpoint every (p : ascii -> bool) (s : string) : bool :=
  match s with
  | EmptyString => true
  | String c s' => p c && every p s'
  end.

(** A byte below 128, a code point of its own in UTF-8.  On strings
    of such bytes [gostrings.TrimSpace] is all of [strings.TrimSpace]. *)
Definition one_byte (c : ascii) : bool := (nat_of_ascii c <? 128)%nat.


(** The byte [c] occurs in [s]. *)
Definition occurs (c : ascii) (s : string) : Prop :=
  exists a b, s = a ++ String c b.

(** The request id a request is given: its own [X-Request-ID] when it
    carries one, otherwise the fresh UUID. *)
Definition request_id_of (fresh : string) (c : gin.Context) : string :=
  if String.eqb (gin.GetHeader c "X-Request-ID") EmptyString then fresh
  else gin.GetHeader c "X-Request-ID".

(** The [meta] object of an envelope. *)
Definition meta_of (b : gin.Body) : option models.APIMeta :=
  match b with
  | gin.BodyAPI r => models.Meta r
  | gin.BodyH _ => None
  end.

(** A request that presents alice's token an hour after it was
    issued. *)
Definition alice_call : gin.Context :=
  gin.NewContext (<["Authorization" := ["Bearer " ++ alice_token]]> ∅) ∅ ∅.


(** ** Accounts *)

(** The rows of the users other than [userID]. *)
Definition other_users (userID : string) (db : sql.DB) : list sql.UserRow :=
  List.filter (fun r => negb (String.eqb (sql.id r) userID)) (sql.users db).

(** The columns of a user row that no profile update may touch. *)
Definition account_columns (r : sql.UserRow)
  : string * string * string * option string * string * bool * gotime.Time :=
  (sql.id r, sql.email r, sql.password r, sql.avatar r, sql.role r,
   sql.is_verified r, sql.created_at r).

(** The row of a user with the given id, if the table has one. *)
Definition user_row (userID : string) (db : sql.DB) : option sql.UserRow :=
  List.find (fun r => String.eqb (sql.id r) userID) (sql.users db).

(** The answer of [Login] to credentials it does not accept. *)
Definition refused_login (clock : gotime.Clock) (c : gin.Context) : outcome gin.Context :=
  utils.ErrorResponse (clock 0%nat) c 401 "INVALID_CREDENTIALS"
    "Geçersiz email veya şifre" None.

(** A request that has passed the request-id middleware and, when
    [userID] is given, the authentication middleware. *)
Definition request_of (userID : option string) : gin.Context :=
  let c := gin.Set_ (gin.NewContext ∅ ∅ ∅) "request_id" "req-1" in
  match userID with
  | Some u => gin.Set_ c "user_id" u
  | None => c
  end.

(** Alice's row as an administrator might have completed it, with an
    avatar and the hash of "secret123". *)
Definition alice_row : sql.UserRow :=
  {| sql.id := "user-1"; sql.name := "Alice"; sql.email := "alice@example.com";
     sql.password := fst (utils.HashPassword sample_salt "secret123");
     sql.avatar := Some "alice.png"; sql.role := "farmer";
     sql.farm_name := "Green Acres"; sql.location := "Izmir";
     sql.is_verified := false; sql.created_at := noon; sql.updated_at := noon |}.

Definition bob_row : sql.UserRow :=
  {| sql.id := "user-2"; sql.name := "Bob"; sql.email := "bob@example.com";
     sql.password := fst (utils.HashPassword sample_salt "hunter2");
     sql.avatar := None; sql.role := "farmer";
     sql.farm_name := "Hill Farm"; sql.location := "Bursa";
     sql.is_verified := false; sql.created_at := noon; sql.updated_at := noon |}.

Definition two_users : sql.DB :=
  {| sql.users := [alice_row; bob_row]; sql.transactions := [] |}.

Definition sample_handler : handlers.AuthHandler :=
  handlers.NewAuthHandler reference.ParseDuration ∅.

(** A profile update that also names another id, email, role and
    password. *)
Definition greedy_update : models.User :=
  {| models.User_ID := "user-2"; models.User_Name := "Alice B.";
     models.User_Email := "root@example.com"; models.User_Password := "x";
     models.User_Avatar := "a.png"; models.User_Role := "admin";
     models.User_FarmName := "Blue Acres"; models.User_Location := "Ankara";
     models.User_IsVerified := true; models.User_CreatedAt := 0;
     models.User_UpdatedAt := 0 |}.

Definition password_change : gmap string string :=
  <["currentPassword" := "secret123"]> (<["newPassword" := "secret456"]> ∅).

(** ** Listings *)

(** Page [q] of [rows] at [limit] rows a page. *)
Definition page_of {A} (limit : Z) (rows : list A) (q : Z) : list A :=
  List.firstn (Z.to_nat limit) (List.skipn (Z.to_nat ((q - 1) * limit)) rows).

(** The page numbers 1 to [n]. *)
Definition pages_upto (n : Z) : list Z :=
  List.map (fun k => Z.of_nat k) (List.seq 1 (Z.to_nat n)).

(** A date text for every instant, a sum and an order for the sample
    stores. *)
Definition sample_date_text : gotime.Time -> string :=
  fun _ => "2024-05-03 00:00:00+00:00".

Definition sample_sum (amounts : list float) : float :=
  List.fold_left PrimFloat.add amounts 0%float.

Definition sample_order (rows : list models.Transaction) : list models.Transaction :=
  List.rev rows.

Definition five_rows : sql.DB :=
  {| sql.users := [];
     sql.transactions :=
       [ sample_transaction "t1" "u1"; sample_transaction "t2" "u2";
         sample_transaction "t3" "u1"; sample_transaction "t4" "u1";
         sample_transaction "t5" "u1"; sample_transaction "t6" "u1" ] |}.

(** The second page, at two rows a page, of the rows of "u1". *)
Definition second_page : gin.Context :=
  gin.NewContext ∅ (<["page" := "2"]> (<["limit" := "2"]> ∅)) ∅.

Definition quarter_request : gin.Context :=
  gin.NewContext ∅ (<["period" := "quarter"]> ∅) ∅.

Definition may_7 : gotime.Civil :=
  {| gotime.Year := 2024; gotime.Month := 5; gotime.Day := 7 |}.

(** A transaction as a client posts it: it names another owner, id
    and status. *)
Definition posted_transaction : models.Transaction :=
  {| models.ID := "chosen-id"; models.UserID := "u2"; models.Type_ := "expense";
     models.Category := "Yem"; models.Description := "feed";
     models.Amount := 250%float; models.Currency := "";
     models.Date := 1700000000 * gotime.Second; models.Status := "pending";
     models.PaymentMethod := "card"; models.Receipt := ""; models.Notes := "";
     models.CreatedAt := 0; models.UpdatedAt := 0 |}.

(** A request for a page beyond the [int] range, and a registration
    with a password of 73 bytes. *)
Definition huge_page : gin.Context :=
  gin.NewContext ∅ (<["page" := "9223372036854775808"]> ∅) ∅.

Definition long_registration : models.RegisterRequest :=
  {| models.Name := "Alice"; models.Email := "alice@example.com";
     models.Password := long_password ++ "b";
     models.ConfirmPassword := long_password ++ "b";
     models.FarmName := "Green Acres"; models.Location := "Izmir" |}.

(** The refresh token in the body of a response. *)
Definition returned_refresh_token (o : outcome gin.Context) : option string :=
  match o with
  | Return c =>
      match last (gin.Written c) with
      | Some (_, gin.BodyAPI r) =>
          match models.Data r with
          | Some (models.PAuth a) => Some (models.RefreshToken a)
          | _ => None
          end
      | _ => None
      end
  | Panic _ => None
  end.

(** A request that carries [token] as its bearer token. *)
Definition bearer_request (token : string) : gin.Context :=
  gin.NewContext (<["Authorization" := ["Bearer " ++ token]]> ∅) ∅ ∅.

(** * Part III: properties *)

(** ** Machine integers *)

Lemma wrap_id z : goint.in_range z -> goint.wrap z = z.
Proof.
  unfold goint.in_range, goint.MinInt, goint.MaxInt, goint.wrap. intros Hz.
  rewrite Z.mod_small; lia.
Qed.

Lemma wrap_in_range z : goint.in_range (goint.wrap z).
Proof.
  unfold goint.in_range, goint.MinInt, goint.MaxInt, goint.wrap.
  pose proof (Z.mod_pos_bound (z + 2 ^ 63) (2 ^ 64) ltac:(lia)). lia.
Qed.

(** ** strconv.Atoi *)

Example Atoi_decimal : strconv.Atoi "42" = (42, None).
Proof. reflexivity. Qed.

Example Atoi_signed : strconv.Atoi "-7" = (-7, None) /\ strconv.Atoi "+7" = (7, None).
Proof. split; reflexivity. Qed.

Example Atoi_not_a_number :
  strconv.Atoi "abc" = (0, Some ErrSyntax) /\ strconv.Atoi "" = (0, Some ErrSyntax)
  /\ strconv.Atoi "12x" = (0, Some ErrSyntax) /\ strconv.Atoi " 1" = (0, Some ErrSyntax).
Proof. repeat split; reflexivity. Qed.

Example Atoi_bounds :
  strconv.Atoi "9223372036854775807" = (goint.MaxInt, None)
  /\ strconv.Atoi "-9223372036854775808" = (goint.MinInt, None)
  /\ strconv.Atoi "9223372036854775808" = (goint.MaxInt, Some ErrRange)
  /\ strconv.Atoi "-9223372036854775809" = (goint.MinInt, Some ErrRange)
  /\ strconv.Atoi "99999999999999999999999" = (goint.MaxInt, Some ErrRange).
Proof. repeat split; reflexivity. Qed.

Lemma parse_digits_nonneg s : forall n, 0 <= n -> 0 <= fst (strconv.parse_digits s n).
Proof.
  induction s as [|c s IH]; intros n Hn; simpl; [exact Hn|].
  destruct (strconv.is_digit c) eqn:Hd; simpl; [|lia].
  destruct (goint.MaxUint64 / 10 + 1 <=? n); simpl; [unfold goint.MaxUint64; lia|].
  destruct (goint.MaxUint64 <? n * 10 + strconv.digit_val c); simpl;
    [unfold goint.MaxUint64; lia|].
  apply IH. unfold strconv.is_digit, strconv.digit_val in *.
  apply andb_prop in Hd as [H1 H2]. apply Z.leb_le in H1. lia.
Qed.

Lemma parse_digits_error s : forall n,
  match snd (strconv.parse_digits s n) with
  | None | Some ErrRange | Some ErrSyntax => True
  | Some _ => False
  end.
Proof.
  induction s as [|c s IH]; intros n; simpl; [exact I|].
  destruct (strconv.is_digit c); simpl; [|exact I].
  destruct (goint.MaxUint64 / 10 + 1 <=? n); simpl; [exact I|].
  destruct (goint.MaxUint64 <? n * 10 + strconv.digit_val c); simpl; [exact I|].
  apply IH.
Qed.

Lemma parse_digits_syntax s : forall n,
  snd (strconv.parse_digits s n) = Some ErrSyntax -> fst (strconv.parse_digits s n) = 0.
Proof.
  induction s as [|c s IH]; intros n; simpl; [discriminate|].
  destruct (strconv.is_digit c); simpl; [|reflexivity].
  destruct (goint.MaxUint64 / 10 + 1 <=? n); simpl; [discriminate|].
  destruct (goint.MaxUint64 <? n * 10 + strconv.digit_val c); simpl; [discriminate|].
  apply IH.
Qed.

(** What [Atoi] returns, by the error it reports: a value within the
    [int] range when there is none, 0 on a syntax error and the
    nearest bound on a range error. *)
Lemma Atoi_cases s :
  match strconv.Atoi s with
  | (n, None) => goint.in_range n
  | (n, Some ErrSyntax) => n = 0
  | (n, Some ErrRange) => n = goint.MaxInt \/ n = goint.MinInt
  | (_, Some _) => False
  end.
Proof.
  unfold strconv.Atoi, strconv.ParseInt.
  destruct s as [|c rest]; [reflexivity|].
  set (neg := Ascii.eqb c "-").
  set (body := if (Ascii.eqb c "+" || neg)%bool then rest else String c rest).
  assert (Hnn : 0 <= fst (strconv.ParseUint body)).
  { unfold strconv.ParseUint. destruct body; simpl; [lia|].
    apply (parse_digits_nonneg (String a body) 0). lia. }
  assert (Herr : match snd (strconv.ParseUint body) with
                 | None | Some ErrRange | Some ErrSyntax => True
                 | Some _ => False end).
  { unfold strconv.ParseUint. destruct body; [exact I|]. apply parse_digits_error. }
  destruct (strconv.ParseUint body) as [un e]. simpl in Hnn, Herr.
  assert (Hfin :
    let r := if negb neg && (strconv.cutoff <=? un) then (strconv.cutoff - 1, Some ErrRange)
             else if neg && (strconv.cutoff <? un) then (- strconv.cutoff, Some ErrRange)
             else (if neg then - un else un, None) in
    match r with
    | (n, None) => goint.in_range n
    | (n, Some ErrSyntax) => n = 0
    | (n, Some ErrRange) => n = goint.MaxInt \/ n = goint.MinInt
    | (_, Some _) => False
    end).
  { unfold strconv.cutoff, goint.in_range, goint.MaxInt, goint.MinInt.
    destruct neg; simpl.
    - destruct (9223372036854775808 <? un) eqn:E; simpl; [right; reflexivity|].
      apply Z.ltb_ge in E. lia.
    - destruct (9223372036854775808 <=? un) eqn:E; simpl; [left; reflexivity|].
      apply Z.leb_gt in E. lia. }
  destruct e as [[]|]; try exact Hfin; try contradiction; reflexivity.
Qed.

(** ** Pagination (utils.ParsePagination, utils.CalculatePagination) *)

Lemma ceil_div_spec a b : 0 < b -> (ceil_div a b - 1) * b < a <= ceil_div a b * b.
Proof.
  intros Hb. unfold ceil_div.
  pose proof (Z.div_mod (- a) b ltac:(lia)) as Hdm.
  pose proof (Z.mod_pos_bound (- a) b Hb) as Hm. nia.
Qed.

Lemma ceil_div_unique a b k : 0 < b -> (k - 1) * b < a <= k * b -> ceil_div a b = k.
Proof.
  intros Hb Hk. pose proof (ceil_div_spec a b Hb) as Hs. nia.
Qed.

Lemma CalculatePagination_pages page limit total :
  1 <= limit <= 100 -> 0 <= total <= goint.MaxInt - 100 ->
  utils.CalculatePagination page limit total
  = Return {| models.Page := page; models.Limit := limit; models.Total := total;
              models.TotalPages := Z.max 1 (ceil_div total limit) |}.
Proof.
  intros Hl Ht. unfold utils.CalculatePagination, goint.div, goint.sub, goint.add.
  unfold goint.MaxInt in Ht.
  destruct (Z.eqb_spec limit 0) as [?|_]; [lia|].
  rewrite (wrap_id (total + limit))
    by (unfold goint.in_range, goint.MinInt, goint.MaxInt; lia).
  rewrite (wrap_id (total + limit - 1))
    by (unfold goint.in_range, goint.MinInt, goint.MaxInt; lia).
  rewrite Z.quot_div_nonneg by lia.
  assert (Hq : (total + limit - 1) / limit = ceil_div total limit).
  { symmetry. apply ceil_div_unique; [lia|].
    pose proof (Z.div_mod (total + limit - 1) limit ltac:(lia)).
    pose proof (Z.mod_pos_bound (total + limit - 1) limit ltac:(lia)). nia. }
  rewrite Hq.
  assert (0 <= ceil_div total limit <= total).
  { pose proof (ceil_div_spec total limit ltac:(lia)). nia. }
  rewrite wrap_id by (unfold goint.in_range, goint.MinInt, goint.MaxInt; lia).
  do 2 f_equal. destruct (Z.ltb_spec (ceil_div total limit) 1); lia.
Qed.

Lemma ParsePagination_range c :
  1 <= fst (utils.ParsePagination c) <= goint.MaxInt
  /\ 1 <= snd (utils.ParsePagination c) <= 100.
Proof.
  unfold utils.ParsePagination. simpl.
  pose proof (Atoi_cases (gin.DefaultQuery c "page" "1")) as Hp.
  destruct (strconv.Atoi (gin.DefaultQuery c "page" "1")) as [p ep]. simpl.
  destruct (strconv.Atoi (gin.DefaultQuery c "limit" "10")) as [l el]. simpl.
  split.
  - destruct (Z.ltb_spec p 1); [unfold goint.MaxInt; lia|].
    split; [lia|].
    destruct ep as [[]|]; try contradiction;
      unfold goint.in_range, goint.MaxInt, goint.MinInt in *; lia.
  - destruct (Z.ltb_spec l 1); simpl; [lia|].
    destruct (Z.ltb_spec 100 l); simpl; lia.
Qed.

(** C8, as the code has it: with the page and limit that
    [ParsePagination] hands to a list handler and a row count [total],
    the [OFFSET] of the query is [(page - 1) * limit] whenever that
    product fits a Go [int], and [TotalPages] is the ceiling of
    [total / limit], raised to 1 when there is no row. *)
Theorem paging_offset_and_total_pages (c : gin.Context) (total : Z) :
  0 <= total <= goint.MaxInt - 100 ->
  (fst (utils.ParsePagination c) - 1) * snd (utils.ParsePagination c) <= goint.MaxInt ->
  handlers.GetTransactions_paging c total
  = Return ({| models.Page := fst (utils.ParsePagination c);
               models.Limit := snd (utils.ParsePagination c);
               models.Total := total;
               models.TotalPages :=
                 Z.max 1 (ceil_div total (snd (utils.ParsePagination c))) |},
            (fst (utils.ParsePagination c) - 1) * snd (utils.ParsePagination c)).
Proof.
  intros Ht Hoff. unfold handlers.GetTransactions_paging.
  pose proof (ParsePagination_range c) as [Hp Hl].
  destruct (utils.ParsePagination c) as [page limit]. simpl in *.
  rewrite CalculatePagination_pages by lia.
  unfold goint.mul, goint.sub.
  rewrite (wrap_id (page - 1))
    by (unfold goint.in_range, goint.MinInt, goint.MaxInt in *; lia).
  rewrite wrap_id
    by (unfold goint.in_range, goint.MinInt, goint.MaxInt in *; nia).
  reflexivity.
Qed.

(** The third page of twenty rows each among 45 rows. *)
Lemma paging_offset_and_total_pages_witness :
  handlers.GetTransactions_paging
    (gin.NewContext ∅ (<["page" := "3"]> (<["limit" := "20"]> ∅)) ∅) 45
  = Return ({| models.Page := 3; models.Limit := 20; models.Total := 45;
               models.TotalPages := 3 |}, 40).
Proof.
  exact (paging_offset_and_total_pages
           (gin.NewContext ∅ (<["page" := "3"]> (<["limit" := "20"]> ∅)) ∅) 45
           ltac:(vm_compute; split; discriminate) ltac:(vm_compute; discriminate)).
Defined.

(** C8 as stated fails for an empty result: the ceiling of [0 / 10]
    is 0, and the code reports one page. *)
Lemma total_pages_of_no_rows :
  utils.CalculatePagination 1 10 0
  = Return {| models.Page := 1; models.Limit := 10; models.Total := 0;
              models.TotalPages := 1 |}
  /\ ceil_div 0 10 = 0.
Proof. split; reflexivity. Qed.

(** C10, as the code has it: whatever the query holds, the page is at
    least 1 and the limit lies in 1..100; an absent key gives page 1
    and limit 10; a page that is not a numeral or is below 1 becomes 1;
    a limit that [Atoi] rejects or that lies outside 1..100 becomes 10;
    a page numeral beyond the [int] range becomes the largest [int];
    every other input is kept. *)
Theorem ParsePagination_spec (c : gin.Context) :
  let pageIn := strconv.Atoi (gin.DefaultQuery c "page" "1") in
  let limitIn := strconv.Atoi (gin.DefaultQuery c "limit" "10") in
  let page := fst (utils.ParsePagination c) in
  let limit := snd (utils.ParsePagination c) in
  (1 <= page <= goint.MaxInt /\ 1 <= limit <= 100)
  /\ (gin.Query c !! "page" = None -> page = 1)
  /\ (gin.Query c !! "limit" = None -> limit = 10)
  /\ (snd pageIn = Some ErrSyntax \/ fst pageIn < 1 -> page = 1)
  /\ (snd pageIn = Some ErrRange /\ 1 <= fst pageIn -> page = goint.MaxInt)
  /\ (snd pageIn = None /\ 1 <= fst pageIn -> page = fst pageIn)
  /\ (snd limitIn <> None \/ fst limitIn < 1 \/ 100 < fst limitIn -> limit = 10)
  /\ (snd limitIn = None /\ 1 <= fst limitIn <= 100 -> limit = fst limitIn).
Proof.
  cbv zeta. split; [apply ParsePagination_range|].
  unfold utils.ParsePagination, gin.DefaultQuery. simpl.
  split; [intros ->; reflexivity|].
  split; [intros ->; reflexivity|].
  pose proof (Atoi_cases (default "1" (gin.Query c !! "page"))) as Hp.
  pose proof (Atoi_cases (default "10" (gin.Query c !! "limit"))) as Hl.
  destruct (strconv.Atoi (default "1" (gin.Query c !! "page"))) as [p ep].
  destruct (strconv.Atoi (default "10" (gin.Query c !! "limit"))) as [l el].
  simpl. unfold goint.in_range, goint.MaxInt, goint.MinInt in *.
  repeat split.
  - intros [E|E]; [subst ep; subst p; reflexivity|].
    destruct (Z.ltb_spec p 1); lia.
  - intros [E Hge]. subst ep. destruct (Z.ltb_spec p 1); lia.
  - intros [_ Hge]. destruct (Z.ltb_spec p 1); lia.
  - intros [E|[E|E]].
    + destruct el as [[]|]; try contradiction; try congruence.
      * subst l. reflexivity.
      * destruct Hl; subst l; reflexivity.
    + destruct (Z.ltb_spec l 1); simpl; [reflexivity|lia].
    + destruct (Z.ltb_spec l 1); simpl; [reflexivity|].
      destruct (Z.ltb_spec 100 l); simpl; lia.
  - intros [_ Hr]. destruct (Z.ltb_spec l 1); simpl; [lia|].
    destruct (Z.ltb_spec 100 l); simpl; lia.
Qed.

(** C10 as stated fails for a page numeral one above the largest
    [int]: [Atoi] reports a range error, and the page is the largest
    [int], not 1. *)
Lemma page_above_int_is_clamped :
  snd (strconv.Atoi
         (gin.DefaultQuery
            (gin.NewContext ∅ (<["page" := "9223372036854775808"]> ∅) ∅) "page" "1"))
  = Some ErrRange
  /\ utils.ParsePagination (gin.NewContext ∅ (<["page" := "9223372036854775808"]> ∅) ∅)
     = (9223372036854775807, 10).
Proof. split; vm_compute; reflexivity. Qed.

(** ** Transactions are scoped to their owner (handlers/finance.go) *)

Lemma owned_spec tid u t :
  sql.owned tid u t = true <-> models.ID t = tid /\ models.UserID t = u.
Proof.
  unfold sql.owned. rewrite andb_true_iff, !String.eqb_eq. reflexivity.
Qed.

Lemma select_transaction_owner db tid u t :
  sql.select_transaction db tid u = Ok t -> models.ID t = tid /\ models.UserID t = u.
Proof.
  unfold sql.select_transaction.
  destruct (List.find (sql.owned tid u) (sql.transactions db)) as [t'|] eqn:E;
    [|discriminate].
  intros [= <-]. apply List.find_some in E as [_ E]. apply owned_spec, E.
Qed.

Lemma returned_of_error now c code ecode msg details :
  returned_transaction (utils.ErrorResponse now c code ecode msg details) = None.
Proof.
  unfold utils.ErrorResponse. destruct (gin.Get c "request_id"); [|reflexivity].
  simpl. rewrite last_snoc. reflexivity.
Qed.

Lemma returned_of_success now c t msg t' :
  returned_transaction (utils.SuccessResponse now c (Some (models.PTransaction t)) msg)
  = Some t' -> t' = t.
Proof.
  unfold utils.SuccessResponse. destruct (gin.Get c "request_id"); [|discriminate].
  simpl. rewrite last_snoc. simpl. congruence.
Qed.

Lemma GetTransaction_returns_own clock db c u t :
  gin.Get c "user_id" = Some u ->
  returned_transaction (handlers.GetTransaction clock db c) = Some t ->
  models.UserID t = u /\ models.ID t = gin.Param c "id".
Proof.
  intros Hu. unfold handlers.GetTransaction, utils.GetUserID. rewrite Hu.
  destruct (utils.IsEmptyString (gin.Param c "id"));
    [rewrite returned_of_error; discriminate|].
  destruct (sql.select_transaction db (gin.Param c "id") u) as [t'|e] eqn:E.
  - intros Hr. apply returned_of_success in Hr. subst t'.
    apply select_transaction_owner in E. tauto.
  - destruct e; rewrite returned_of_error; discriminate.
Qed.

Lemma update_keeps_foreign now req tid u l :
  List.filter (foreign u)
    (List.map (fun t => if sql.owned tid u t then sql.set_transaction now req t else t) l)
  = List.filter (foreign u) l.
Proof.
  induction l as [|t l IH]; [reflexivity|]. simpl.
  destruct (sql.owned tid u t) eqn:E.
  - apply owned_spec in E as [_ E].
    assert (H1 : foreign u (sql.set_transaction now req t) = false)
      by (unfold foreign; simpl; rewrite E, String.eqb_refl; reflexivity).
    assert (H2 : foreign u t = false)
      by (unfold foreign; rewrite E, String.eqb_refl; reflexivity).
    rewrite H1, H2. exact IH.
  - rewrite IH. reflexivity.
Qed.

Lemma delete_keeps_foreign tid u l :
  List.filter (foreign u) (List.filter (fun t => negb (sql.owned tid u t)) l)
  = List.filter (foreign u) l.
Proof.
  induction l as [|t l IH]; [reflexivity|]. simpl.
  destruct (sql.owned tid u t) eqn:E; simpl.
  - apply owned_spec in E as [_ E].
    assert (H2 : foreign u t = false)
      by (unfold foreign; rewrite E, String.eqb_refl; reflexivity).
    rewrite H2. exact IH.
  - rewrite IH. reflexivity.
Qed.

(** When no row with the id belongs to the user, every statement
    scoped by [(id, user_id)] matches nothing. *)
Lemma no_match_owned tid u l :
  (forall t, In t l -> models.ID t = tid -> models.UserID t <> u) ->
  forall t, In t l -> sql.owned tid u t = false.
Proof.
  intros Hno t Hin. destruct (sql.owned tid u t) eqn:E; [|reflexivity].
  apply owned_spec in E as [E1 E2]. exfalso. exact (Hno t Hin E1 E2).
Qed.

Lemma find_no_match {A} (f : A -> bool) l :
  (forall t, In t l -> f t = false) -> List.find f l = None.
Proof.
  induction l as [|t l IH]; intros Hf; [reflexivity|]. simpl.
  rewrite (Hf t (or_introl eq_refl)). apply IH. intros t' Hin. apply Hf. right. exact Hin.
Qed.

Lemma map_no_match {A} (f : A -> bool) (g : A -> A) l :
  (forall t, In t l -> f t = false) -> List.map (fun t => if f t then g t else t) l = l.
Proof.
  induction l as [|t l IH]; intros Hf; [reflexivity|]. simpl.
  rewrite (Hf t (or_introl eq_refl)). f_equal. apply IH. intros t' Hin. apply Hf. right. exact Hin.
Qed.

Lemma filter_no_match {A} (f : A -> bool) l :
  (forall t, In t l -> f t = false) ->
  List.filter (fun t => negb (f t)) l = l /\ List.filter f l = [].
Proof.
  induction l as [|t l IH]; intros Hf; [split; reflexivity|]. simpl.
  rewrite (Hf t (or_introl eq_refl)). simpl.
  destruct IH as [IH1 IH2]; [intros t' Hin; apply Hf; right; exact Hin|].
  rewrite IH1, IH2. split; reflexivity.
Qed.

Lemma without_no_match tid u db :
  forall t, In t (sql.transactions (without tid db)) -> sql.owned tid u t = false.
Proof.
  intros t Hin. unfold without in Hin. simpl in Hin.
  apply List.filter_In in Hin as [_ Hne]. unfold sql.owned.
  apply negb_true_iff in Hne. rewrite Hne. reflexivity.
Qed.

Lemma select_no_match db tid u :
  (forall t, In t (sql.transactions db) -> sql.owned tid u t = false) ->
  sql.select_transaction db tid u = Err ErrNoRows.
Proof.
  intros Hno. unfold sql.select_transaction. rewrite find_no_match by exact Hno. reflexivity.
Qed.

Lemma update_no_match db now req tid u :
  (forall t, In t (sql.transactions db) -> sql.owned tid u t = false) ->
  sql.update_transaction db now req tid u = Ok db.
Proof.
  intros Hno. unfold sql.update_transaction. rewrite map_no_match by exact Hno.
  destruct db; reflexivity.
Qed.

Lemma delete_no_match db tid u :
  (forall t, In t (sql.transactions db) -> sql.owned tid u t = false) ->
  sql.delete_transaction db tid u = Ok (db, 0).
Proof.
  intros Hno. unfold sql.delete_transaction.
  destruct (filter_no_match (sql.owned tid u) (sql.transactions db) Hno) as [-> ->].
  destruct db; reflexivity.
Qed.

Lemma GetTransaction_no_match clock db c u :
  gin.Get c "user_id" = Some u ->
  (forall t, In t (sql.transactions db) -> sql.owned (gin.Param c "id") u t = false) ->
  handlers.GetTransaction clock db c
  = if utils.IsEmptyString (gin.Param c "id")
    then utils.ErrorResponse (clock 0%nat) c 400 "MISSING_ID" "İşlem ID gerekli" None
    else utils.ErrorResponse (clock 0%nat) c 404 "TRANSACTION_NOT_FOUND"
           "İşlem bulunamadı" None.
Proof.
  intros Hu Hno. unfold handlers.GetTransaction, utils.GetUserID. rewrite Hu.
  destruct (utils.IsEmptyString (gin.Param c "id")); [reflexivity|].
  rewrite select_no_match by exact Hno. reflexivity.
Qed.

(** C9: for a request authenticated as [u], [GetTransaction] and
    [UpdateTransaction] answer only with rows of [u]; the rows of every
    other user are the same, in the same order, after
    [UpdateTransaction] and [DeleteTransaction] as before; and when
    the id in the path names no row of [u] (it names a row of someone
    else, or nothing), each of the three handlers answers as it does
    on the store without that id and leaves the store as it is. *)
Theorem transactions_scoped_to_owner
    (clock : gotime.Clock) (dbnow : gotime.Time) (db : sql.DB)
    (bound : result models.Transaction) (c : gin.Context) (u : string) :
  gin.Get c "user_id" = Some u ->
  (forall t, returned_transaction (handlers.GetTransaction clock db c) = Some t ->
             models.UserID t = u)
  /\ (forall t, returned_transaction
                  (snd (handlers.UpdateTransaction clock dbnow db bound c)) = Some t ->
                models.UserID t = u)
  /\ returned_transaction (snd (handlers.DeleteTransaction clock db c)) = None
  /\ List.filter (foreign u)
       (sql.transactions (fst (handlers.UpdateTransaction clock dbnow db bound c)))
     = List.filter (foreign u) (sql.transactions db)
  /\ List.filter (foreign u)
       (sql.transactions (fst (handlers.DeleteTransaction clock db c)))
     = List.filter (foreign u) (sql.transactions db)
  /\ ((forall t, In t (sql.transactions db) ->
                 models.ID t = gin.Param c "id" -> models.UserID t <> u) ->
      handlers.GetTransaction clock db c
      = handlers.GetTransaction clock (without (gin.Param c "id") db) c
      /\ handlers.UpdateTransaction clock dbnow db bound c
         = (db, snd (handlers.UpdateTransaction clock dbnow
                       (without (gin.Param c "id") db) bound c))
      /\ handlers.DeleteTransaction clock db c
         = (db, snd (handlers.DeleteTransaction clock
                       (without (gin.Param c "id") db) c))).
Proof.
  intros Hu. repeat apply conj.
  - intros t Ht. apply (GetTransaction_returns_own clock db c u t Hu Ht).
  - intros t. unfold handlers.UpdateTransaction, utils.GetUserID. rewrite Hu.
    destruct (utils.IsEmptyString (gin.Param c "id")); simpl;
      [rewrite returned_of_error; discriminate|].
    destruct bound as [req|e]; simpl; [|rewrite returned_of_error; discriminate].
    intros Ht. eapply GetTransaction_returns_own; eauto.
  - unfold handlers.DeleteTransaction, utils.GetUserID. rewrite Hu.
    destruct (utils.IsEmptyString (gin.Param c "id")); simpl;
      [apply returned_of_error|].
    destruct (_ =? 0); simpl; [apply returned_of_error|].
    unfold utils.SuccessResponse. destruct (gin.Get c "request_id"); [|reflexivity].
    simpl. rewrite last_snoc. reflexivity.
  - unfold handlers.UpdateTransaction, utils.GetUserID. rewrite Hu.
    destruct (utils.IsEmptyString (gin.Param c "id")); simpl; [reflexivity|].
    destruct bound as [req|e]; simpl; [|reflexivity].
    apply update_keeps_foreign.
  - unfold handlers.DeleteTransaction, utils.GetUserID. rewrite Hu.
    destruct (utils.IsEmptyString (gin.Param c "id")); simpl; [reflexivity|].
    destruct (_ =? 0); simpl; apply delete_keeps_foreign.
  - intros Hno. repeat apply conj.
    + rewrite (GetTransaction_no_match clock db c u Hu (no_match_owned _ _ _ Hno)).
      rewrite (GetTransaction_no_match clock _ c u Hu (without_no_match _ u db)).
      reflexivity.
    + unfold handlers.UpdateTransaction, utils.GetUserID. rewrite Hu.
      destruct (utils.IsEmptyString (gin.Param c "id")) eqn:He; [reflexivity|].
      destruct bound as [req|e]; [|reflexivity].
      rewrite (update_no_match db _ _ _ _ (no_match_owned _ _ _ Hno)).
      rewrite (update_no_match _ _ _ _ _ (without_no_match _ u db)). simpl.
      rewrite (GetTransaction_no_match clock db c u Hu (no_match_owned _ _ _ Hno)).
      rewrite (GetTransaction_no_match clock _ c u Hu (without_no_match _ u db)).
      reflexivity.
    + unfold handlers.DeleteTransaction, utils.GetUserID. rewrite Hu.
      destruct (utils.IsEmptyString (gin.Param c "id")) eqn:He; [reflexivity|].
      rewrite (delete_no_match db _ _ (no_match_owned _ _ _ Hno)).
      rewrite (delete_no_match _ _ _ (without_no_match _ u db)). reflexivity.
Qed.

Lemma transactions_scoped_to_owner_witness :
  last_status (handlers.GetTransaction sample_clock sample_store
                 (sample_request "u1" "t2"))
  = Some (404, Some "TRANSACTION_NOT_FOUND")
  /\ handlers.DeleteTransaction sample_clock sample_store (sample_request "u1" "t2")
     = (sample_store,
        snd (handlers.DeleteTransaction sample_clock (without "t2" sample_store)
               (sample_request "u1" "t2")))
  /\ List.filter (foreign "u1")
       (sql.transactions
          (fst (handlers.UpdateTransaction sample_clock 0 sample_store
                  (Ok (sample_transaction "" "")) (sample_request "u1" "t1"))))
     = [sample_transaction "t2" "u2"].
Proof.
  pose proof (transactions_scoped_to_owner sample_clock 0 sample_store
                (Ok (sample_transaction "" "")) (sample_request "u1" "t2") "u1"
                eq_refl) as (_ & _ & _ & _ & _ & Hnone).
  pose proof (transactions_scoped_to_owner sample_clock 0 sample_store
                (Ok (sample_transaction "" "")) (sample_request "u1" "t1") "u1"
                eq_refl) as (_ & _ & _ & Hupd & _).
  split; [vm_compute; reflexivity|]. split.
  - apply Hnone. intros t [<-|[<-|[]]]; vm_compute; congruence.
  - rewrite Hupd. reflexivity.
Defined.

(** ** strings.Split *)

Lemma Split_nonempty s sep : gostrings.Split s sep <> [].
Proof.
  destruct s as [|c s]; simpl; [discriminate|].
  destruct (Ascii.eqb c sep); [discriminate|].
  destruct (gostrings.Split s sep); discriminate.
Qed.

Lemma Split_free s sep : free sep s = true -> gostrings.Split s sep = [s].
Proof.
  induction s as [|c s IH]; simpl; [reflexivity|].
  intros Hf. apply andb_prop in Hf as [Hc Hs]. apply negb_true_iff in Hc.
  rewrite Hc, (IH Hs). reflexivity.
Qed.

Lemma Split_app a sep rest :
  free sep a = true ->
  gostrings.Split (a ++ String sep rest) sep = a :: gostrings.Split rest sep.
Proof.
  induction a as [|c a IH]; simpl.
  - intros _. rewrite Ascii.eqb_refl. reflexivity.
  - intros Hf. apply andb_prop in Hf as [Hc Ha]. apply negb_true_iff in Hc.
    rewrite Hc, (IH Ha). reflexivity.
Qed.

Lemma Split_three a b c sep :
  free sep a = true -> free sep b = true -> free sep c = true ->
  gostrings.Split (a ++ String sep EmptyString ++ b ++ String sep EmptyString ++ c) sep
  = [a; b; c].
Proof.
  intros Ha Hb Hc.
  change (a ++ String sep EmptyString ++ b ++ String sep EmptyString ++ c)
    with (a ++ String sep (b ++ String sep c)).
  rewrite (Split_app a sep _ Ha), (Split_app b sep _ Hb), (Split_free c sep Hc).
  reflexivity.
Qed.

Lemma free_app sep a b : free sep (a ++ b) = free sep a && free sep b.
Proof.
  induction a as [|c a IH]; simpl; [reflexivity|].
  rewrite IH, andb_assoc. reflexivity.
Qed.

(** ** Session tokens (pkg/auth/jwt.go) *)

Section Tokens.
Context `{jwt.Codec auth.Claims} `{jwt.MAC}.

Lemma Validate_window now claims :
  jwt.Validate auth.RegisteredClaims now claims = [] <-> in_window now claims.
Proof.
  unfold jwt.Validate, jwt.verifyExpiresAt, jwt.verifyNotBefore, in_window, gotime.Before.
  destruct (jwt.ExpiresAt (auth.RegisteredClaims claims)) as [exp|];
    destruct (jwt.NotBefore (auth.RegisteredClaims claims)) as [nbf|]; simpl.
  - destruct (Z.ltb_spec now exp); destruct (Z.ltb_spec now nbf); simpl; split;
      try discriminate; try reflexivity.
    + intros [_ Hn]. specialize (Hn nbf eq_refl). lia.
    + intros _. split; intros ? [= <-]; lia.
    + intros [He _]. specialize (He exp eq_refl). lia.
    + intros [He _]. specialize (He exp eq_refl). lia.
  - destruct (Z.ltb_spec now exp); simpl; split; try discriminate; try reflexivity.
    + intros _. split; [intros ? [= <-]; lia | discriminate].
    + intros [He _]. specialize (He exp eq_refl). lia.
  - destruct (Z.ltb_spec now nbf); simpl; split; try discriminate; try reflexivity.
    + intros [_ Hn]. specialize (Hn nbf eq_refl). lia.
    + intros _. split; [discriminate | intros ? [= <-]; lia].
  - split; [|reflexivity]. intros _. split; discriminate.
Qed.

(** [ValidateToken], step by step, on a token that decodes. *)
Lemma ValidateToken_decoded j now tokenString p0 p1 alg claims sig :
  decodes_to tokenString p0 p1 alg claims sig ->
  auth.ValidateToken j now tokenString
  = match jwt.GetSigningMethod alg with
    | None => Err (ErrTokenUnverifiable "signing method (alg) is unavailable")
    | Some (jwt.SigningMethodHMAC h) =>
        if String.eqb sig (jwt.hmac_sum h (auth.secretKey j) (p0 ++ "." ++ p1)) then
          match jwt.Validate auth.RegisteredClaims now claims with
          | [] => Ok claims
          | errs => Err (ErrTokenInvalidClaims errs)
          end
        else Err ErrTokenSignatureInvalid
    | Some _ => Err (ErrTokenUnverifiable "error while executing keyfunc")
    end.
Proof.
  intros (p2 & hb & hdr & cb & Hs & Hd0 & Hu0 & Hd1 & Hu1 & Ha & Hd2).
  unfold auth.ValidateToken, jwt.ParseWithClaims, jwt.ParseUnverified.
  rewrite Hs, Hd0, Hu0, Hd1, Hu1, Ha.
  destruct (jwt.GetSigningMethod alg) as [m|]; [|reflexivity].
  cbn [nth firstn gostrings.Join jwt.Method jwt.Claims jwt.Raw jwt.Header].
  rewrite Hd2. unfold auth.keyFunc. cbn [jwt.Method].
  destruct m; try reflexivity.
  unfold jwt.Verify.
  destruct (String.eqb sig _); [|reflexivity].
  destruct (jwt.Validate auth.RegisteredClaims now claims); reflexivity.
Qed.

Lemma append_assoc (a b c : string) : (a ++ b) ++ c = a ++ (b ++ c).
Proof.
  induction a as [|x a IH]; [reflexivity|].
  change (String x ((a ++ b) ++ c) = String x (a ++ (b ++ c))). rewrite IH. reflexivity.
Qed.

Lemma append_length (a b : string) :
  String.length (a ++ b) = (String.length a + String.length b)%nat.
Proof.
  induction a as [|x a IH]; [reflexivity|].
  change (S (String.length (a ++ b)) = S (String.length a + String.length b)).
  rewrite IH. reflexivity.
Qed.

Lemma Truncate_second_le t : jwt.NewNumericDate t <= t.
Proof.
  unfold jwt.NewNumericDate, gotime.Truncate, jwt.TimePrecision, gotime.Second. simpl.
  pose proof (Z.mod_pos_bound t 1000000000 ltac:(lia)). lia.
Qed.

(** [time.Until] exceeds a quarter of an hour exactly when the
    difference of the instants does. *)
Lemma Until_quarter now exp :
  (15 * gotime.Minute <? gotime.Until now exp) = (15 * gotime.Minute <? exp - now).
Proof.
  unfold gotime.Until, gotime.Sub, gotime.Minute, gotime.Second, goint.MinInt, goint.MaxInt.
  destruct (Z.ltb_spec (15 * (60 * 1000000000)) (exp - now));
    destruct (Z.ltb_spec (15 * (60 * 1000000000))
                (Z.max (-9223372036854775808) (Z.min 9223372036854775807 (exp - now))));
    try reflexivity; lia.
Qed.

Lemma GenerateToken_eq j clock uuid userID email role :
  auth.GenerateToken j clock uuid userID email role
  = Ok (jwt.SigningString (jwt.NewHeader (jwt.SigningMethodHMAC jwt.SHA256))
          (auth.newClaims j clock uuid userID email role)
        ++ "." ++ jwt.EncodeSegment
                    (signature_of j (auth.newClaims j clock uuid userID email role))).
Proof. reflexivity. Qed.

(** A compact token assembled from a header of [NewWithClaims],
    claims and signature bytes that the wire primitives reproduce
    decodes to them. *)
Lemma compact_decodes m claims sig :
  wire_ok (jwt.NewHeader m) claims sig ->
  decodes_to
    (jwt.SigningString (jwt.NewHeader m) claims ++ "." ++ jwt.EncodeSegment sig)
    (jwt.EncodeSegment (jwt.MarshalHeader (jwt.NewHeader m)))
    (jwt.EncodeSegment (jwt.MarshalClaims claims))
    (jwt.Alg m) claims sig.
Proof.
  intros (Hd0 & Hu0 & Hd1 & Hu1 & Hd2 & Hf0 & Hf1 & Hf2).
  exists (jwt.EncodeSegment sig).
  exists (jwt.MarshalHeader (jwt.NewHeader m)).
  exists (jwt.NewHeader m).
  exists (jwt.MarshalClaims claims).
  repeat apply conj; try assumption.
  - unfold jwt.SigningString. rewrite append_assoc.
    apply (Split_three _ _ _ "."); assumption.
  - unfold jwt.NewHeader. rewrite lookup_insert_ne by discriminate.
    rewrite lookup_insert_eq. reflexivity.
Qed.

Lemma signed_token_decodes j claims :
  wire_ok (jwt.NewHeader (jwt.SigningMethodHMAC jwt.SHA256)) claims (signature_of j claims) ->
  decodes_to
    (jwt.SigningString (jwt.NewHeader (jwt.SigningMethodHMAC jwt.SHA256)) claims
     ++ "." ++ jwt.EncodeSegment (signature_of j claims))
    (jwt.EncodeSegment (jwt.MarshalHeader (jwt.NewHeader (jwt.SigningMethodHMAC jwt.SHA256))))
    (jwt.EncodeSegment (jwt.MarshalClaims claims))
    "HS256" claims (signature_of j claims).
Proof. apply (compact_decodes (jwt.SigningMethodHMAC jwt.SHA256)). Qed.

(** The token [GenerateToken] builds, presented at [now], validates
    to the claims it was built from. *)
Lemma newClaims_validate j clock uuid userID email role now :
  wire_ok (jwt.NewHeader (jwt.SigningMethodHMAC jwt.SHA256))
    (auth.newClaims j clock uuid userID email role)
    (signature_of j (auth.newClaims j clock uuid userID email role)) ->
  clock 2%nat <= now ->
  now < jwt.NewNumericDate (gotime.Add (clock 0%nat) (auth.tokenDuration j)) ->
  auth.ValidateToken j now
    (jwt.SigningString (jwt.NewHeader (jwt.SigningMethodHMAC jwt.SHA256))
       (auth.newClaims j clock uuid userID email role)
     ++ "." ++ jwt.EncodeSegment
                 (signature_of j (auth.newClaims j clock uuid userID email role)))
  = Ok (auth.newClaims j clock uuid userID email role).
Proof.
  intros Hw Hnbf Hexp.
  rewrite (ValidateToken_decoded j now _ _ _ _ _ _ (signed_token_decodes j _ Hw)).
  change (jwt.GetSigningMethod "HS256") with (Some (jwt.SigningMethodHMAC jwt.SHA256)).
  cbv iota beta.
  unfold signature_of at 1. unfold jwt.SigningString at 1.
  rewrite String.eqb_refl.
  assert (Hv : jwt.Validate auth.RegisteredClaims now
                 (auth.newClaims j clock uuid userID email role) = []).
  { apply Validate_window. split; simpl.
    - intros exp [= <-]. exact Hexp.
    - intros nbf [= <-]. pose proof (Truncate_second_le (clock 2%nat)). lia. }
  rewrite Hv. reflexivity.
Qed.


Lemma ValidateToken_ok_decodes j now tokenString claims :
  auth.ValidateToken j now tokenString = Ok claims ->
  exists p0 p1 alg claims' sig, decodes_to tokenString p0 p1 alg claims' sig.
Proof.
  unfold auth.ValidateToken, jwt.ParseWithClaims, jwt.ParseUnverified.
  destruct (gostrings.Split tokenString ".") as [|p0 [|p1 [|p2 [|? ?]]]] eqn:Hs;
    try discriminate.
  destruct (jwt.DecodeSegment p0) as [hb|] eqn:Hd0; [|discriminate].
  destruct (jwt.UnmarshalHeader hb) as [hdr|] eqn:Hu0; [|discriminate].
  destruct (jwt.DecodeSegment p1) as [cb|] eqn:Hd1; [|discriminate].
  destruct (jwt.UnmarshalClaims cb) as [claims'|] eqn:Hu1; [|discriminate].
  destruct (hdr !! "alg") as [alg|] eqn:Ha; [|discriminate].
  destruct (jwt.GetSigningMethod alg) as [m|]; [|discriminate].
  cbn [nth]. destruct (jwt.DecodeSegment p2) as [sig|] eqn:Hd2; [|discriminate].
  intros _. exists p0, p1, alg, claims', sig, p2, hb, hdr, cb. repeat split; assumption.
Qed.

Lemma ValidateToken_sound j now tokenString claims :
  auth.ValidateToken j now tokenString = Ok claims ->
  well_signed j tokenString claims /\ in_window now claims.
Proof.
  intros Hv.
  destruct (ValidateToken_ok_decodes j now tokenString claims Hv)
    as (p0 & p1 & alg & claims' & sig & Hdec).
  rewrite (ValidateToken_decoded j now _ _ _ _ _ _ Hdec) in Hv.
  destruct (jwt.GetSigningMethod alg) as [m|] eqn:Hm; [|discriminate].
  destruct m as [h| | | | |]; try discriminate.
  destruct (String.eqb_spec sig (jwt.hmac_sum h (auth.secretKey j) (p0 ++ "." ++ p1)))
    as [Hsig|]; [|discriminate].
  destruct (jwt.Validate auth.RegisteredClaims now claims') eqn:Hval; [|discriminate].
  injection Hv as <-. split; [|apply Validate_window, Hval].
  exists p0, p1, alg, h. subst sig. split; assumption.
Qed.

Lemma ValidateToken_complete j now tokenString claims :
  well_signed j tokenString claims -> in_window now claims ->
  auth.ValidateToken j now tokenString = Ok claims.
Proof.
  intros (p0 & p1 & alg & h & Hdec & Hm) Hwin.
  rewrite (ValidateToken_decoded j now _ _ _ _ _ _ Hdec), Hm, String.eqb_refl.
  apply Validate_window in Hwin. rewrite Hwin. reflexivity.
Qed.

(** C2, as the code has it: [ValidateToken] returns claims exactly
    when the token is well formed, names an HMAC method, carries the
    HMAC of its first two segments under the configured secret, and
    the clock is at or after [nbf] and strictly before [exp]; so it
    refuses every token whose [exp] the clock has reached. *)
Theorem ValidateToken_iff (j : auth.JWTManager) (now : gotime.Time)
    (tokenString : string) (claims : auth.Claims) :
  (auth.ValidateToken j now tokenString = Ok claims
   <-> well_signed j tokenString claims /\ in_window now claims)
  /\ (forall exp, jwt.ExpiresAt (auth.RegisteredClaims claims) = Some exp ->
                  exp <= now -> auth.ValidateToken j now tokenString <> Ok claims).
Proof.
  split; [split|].
  - apply ValidateToken_sound.
  - intros [Hs Hw]. apply ValidateToken_complete; assumption.
  - intros exp He Hle Hv. apply ValidateToken_sound in Hv as [_ [Hw _]].
    specialize (Hw exp He). lia.
Qed.


(** A token that validates but carries no [exp] claim makes
    [RefreshToken] dereference a nil pointer. *)
Theorem RefreshToken_without_expiry
    (j : auth.JWTManager) (clock : gotime.Clock) (uuid tokenString : string)
    (claims : auth.Claims) :
  auth.ValidateToken j (clock 0%nat) tokenString = Ok claims ->
  jwt.ExpiresAt (auth.RegisteredClaims claims) = None ->
  auth.RefreshToken j clock uuid tokenString
  = Panic "invalid memory address or nil pointer dereference".
Proof.
  intros Hv He. unfold auth.RefreshToken. rewrite Hv, He. reflexivity.
Qed.

End Tokens.

(** ** Tokens signed with another secret or another method *)

Lemma fill_zero n : forall key,
  (String.length key < n)%nat ->
  hmac.fill n (key ++ String Ascii.zero EmptyString) = hmac.fill n key.
Proof.
  induction n as [|n IH]; intros key Hlen; [reflexivity|].
  destruct key as [|c key].
  - destruct n; reflexivity.
  - change (String c key ++ String Ascii.zero EmptyString)
      with (String c (key ++ String Ascii.zero EmptyString)).
    cbn [hmac.fill]. rewrite IH; [reflexivity|]. cbn [String.length] in Hlen. lia.
Qed.

Section HMACTokens.
Context `{jwt.Codec auth.Claims} `{hmac.Digest}.
#[local] Existing Instance hmac.mac | 0.

(** A key shorter than the block and the same key followed by a zero
    byte fill the same block, so they give the same HMAC of every
    message. *)
Lemma block_padded h key :
  (String.length key < hmac.BlockSize h)%nat ->
  hmac.block h (key ++ String Ascii.zero EmptyString) = hmac.block h key.
Proof.
  intros Hlen. unfold hmac.block.
  rewrite append_length. cbn [String.length].
  destruct (Nat.ltb_spec (hmac.BlockSize h) (String.length key + 1)); [lia|].
  destruct (Nat.ltb_spec (hmac.BlockSize h) (String.length key)); [lia|].
  apply fill_zero. exact Hlen.
Qed.



End HMACTokens.

(** ** The reference primitives are lawful *)

Lemma hex_value_digit n : (n < 16)%N -> reference.hex_value (reference.hex_digit n) = Some n.
Proof.
  intros Hn. destruct n as [|p]; [reflexivity|].
  do 4 (try destruct p as [p|p|]); try reflexivity; exfalso; lia.
Qed.

Lemma unhex_hex s : reference.unhex (reference.hex s) = Some s.
Proof.
  induction s as [|c s IH]; [reflexivity|].
  cbn [reference.hex reference.unhex].
  pose proof (N_ascii_bounded c) as Hb.
  assert (N_of_ascii c / 16 < 16)%N by (apply N.Div0.div_lt_upper_bound; lia).
  assert (N_of_ascii c mod 16 < 16)%N by (apply N.mod_lt; lia).
  rewrite !hex_value_digit, IH by assumption.
  rewrite <- N.div_mod by lia. rewrite ascii_N_embedding. reflexivity.
Qed.

Lemma hex_digit_not c n :
  reference.hex_value c = None -> (n < 16)%N -> Ascii.eqb (reference.hex_digit n) c = false.
Proof.
  intros Hc Hn. destruct (Ascii.eqb_spec (reference.hex_digit n) c) as [<-|]; [|reflexivity].
  rewrite hex_value_digit in Hc by assumption. discriminate.
Qed.

Lemma free_hex c s : reference.hex_value c = None -> free c (reference.hex s) = true.
Proof.
  intros Hc. induction s as [|x s IH]; [reflexivity|].
  cbn [reference.hex free].
  pose proof (N_ascii_bounded x) as Hb.
  rewrite !hex_digit_not, IH; try assumption; try reflexivity.
  - apply N.mod_lt; lia.
  - apply N.Div0.div_lt_upper_bound; lia.
Qed.

Lemma bits_nonempty p : reference.bits p <> EmptyString.
Proof. destruct p; discriminate. Qed.

Lemma unbits_bits p : reference.unbits (reference.bits p) = Some p.
Proof.
  induction p as [q IH|q IH|]; [| |reflexivity].
  - cbn [reference.bits]. pose proof (bits_nonempty q) as Hne.
    cbn [reference.unbits]. destruct (reference.bits q) as [|x r] eqn:E; [congruence|].
    rewrite IH. reflexivity.
  - cbn [reference.bits]. pose proof (bits_nonempty q) as Hne.
    cbn [reference.unbits]. destruct (reference.bits q) as [|x r] eqn:E; [congruence|].
    rewrite IH. reflexivity.
Qed.

Lemma free_bits c p :
  Ascii.eqb "0" c = false -> Ascii.eqb "1" c = false -> free c (reference.bits p) = true.
Proof.
  intros H0 H1. induction p as [q IH|q IH|]; cbn [reference.bits free];
    rewrite ?H0, ?H1, ?IH; reflexivity.
Qed.

Lemma unnumber_number z : reference.unnumber (reference.number z) = Some z.
Proof.
  destruct z as [|p|p]; [reflexivity| |]; cbn; rewrite unbits_bits; reflexivity.
Qed.

Lemma undate_date t : reference.undate (reference.date t) = Some t.
Proof.
  destruct t as [z|]; [|reflexivity]. unfold reference.undate, reference.date.
  destruct z as [|p|p]; cbn; rewrite ?unbits_bits; reflexivity.
Qed.

Lemma free_date c t :
  Ascii.eqb "0" c = false -> Ascii.eqb "1" c = false -> Ascii.eqb "z" c = false ->
  Ascii.eqb "p" c = false -> Ascii.eqb "n" c = false ->
  free c (reference.date t) = true.
Proof.
  intros H0 H1 Hz Hp Hn. destruct t as [[|p|p]|]; cbn [reference.date reference.number free];
    rewrite ?Hz, ?Hp, ?Hn, ?free_bits by assumption; reflexivity.
Qed.

Lemma append_nil_r (s : string) : s ++ EmptyString = s.
Proof.
  induction s as [|x s IH]; [reflexivity|].
  change (String x (s ++ EmptyString) = String x s). rewrite IH. reflexivity.
Qed.

Lemma Split_prefix a b sep :
  free sep a = true ->
  gostrings.Split (a ++ b) sep
  = match gostrings.Split b sep with
    | h :: t => (a ++ h) :: t
    | [] => [a]
    end.
Proof.
  induction a as [|c a IH]; intros Hf.
  - change (EmptyString ++ b) with b.
    destruct (gostrings.Split b sep) eqn:E; [|reflexivity].
    exfalso. exact (Split_nonempty b sep E).
  - cbn [free] in Hf. apply andb_prop in Hf as [Hc Ha]. apply negb_true_iff in Hc.
    change (String c a ++ b) with (String c (a ++ b)). cbn [gostrings.Split].
    rewrite Hc, (IH Ha).
    destruct (gostrings.Split b sep); reflexivity.
Qed.

Lemma Split_Join sep (l : list string) :
  l <> [] -> Forall (fun f => free sep f = true) l ->
  gostrings.Split (gostrings.Join l (String sep EmptyString)) sep = l.
Proof.
  induction l as [|a l IH]; [congruence|]. intros _ Hall.
  inversion Hall as [|? ? Ha Hl]; subst.
  destruct l as [|b l].
  - cbn [gostrings.Join]. apply Split_free, Ha.
  - change (gostrings.Join (a :: b :: l) (String sep EmptyString))
      with (a ++ String sep (gostrings.Join (b :: l) (String sep EmptyString))).
    rewrite (Split_app a sep _ Ha), IH; [reflexivity|discriminate|exact Hl].
Qed.

Lemma all_some_unhex l : reference.all_some (List.map reference.unhex (List.map reference.hex l)) = Some l.
Proof.
  induction l as [|a l IH]; [reflexivity|].
  cbn [List.map reference.all_some]. rewrite unhex_hex, IH. reflexivity.
Qed.

Lemma Split_audience l :
  gostrings.Split (reference.marshal_audience l) "+" = EmptyString :: List.map reference.hex l.
Proof.
  induction l as [|a l IH]; [reflexivity|].
  cbn [reference.marshal_audience gostrings.Split].
  change (Ascii.eqb "+" "+") with true. cbv iota.
  rewrite Split_prefix by (apply free_hex; reflexivity).
  rewrite IH, append_nil_r. reflexivity.
Qed.

Lemma unmarshal_audience_marshal l :
  reference.unmarshal_audience (reference.marshal_audience l) = Some l.
Proof.
  unfold reference.unmarshal_audience. rewrite Split_audience.
  change (String.eqb EmptyString EmptyString) with true. cbv iota.
  apply all_some_unhex.
Qed.

Lemma free_audience c l :
  reference.hex_value c = None -> Ascii.eqb "+" c = false ->
  free c (reference.marshal_audience l) = true.
Proof.
  intros Hc Hp. induction l as [|a l IH]; [reflexivity|].
  cbn [reference.marshal_audience free]. rewrite Hp, free_app, free_hex, IH by assumption.
  reflexivity.
Qed.

Lemma unmarshal_claims_marshal c :
  reference.unmarshal_claims (reference.marshal_claims c) = Some c.
Proof.
  unfold reference.unmarshal_claims, reference.marshal_claims.
  change "," with (String "," EmptyString).
  rewrite Split_Join.
  - rewrite !unhex_hex, unmarshal_audience_marshal, !undate_date.
    destruct c as [u e r [i s a x n t d]]. reflexivity.
  - discriminate.
  - repeat constructor;
      first [ apply free_hex; reflexivity
            | apply free_audience; reflexivity
            | apply free_date; reflexivity ].
Qed.

Lemma unmarshal_pair_marshal kv : reference.unmarshal_pair (reference.marshal_pair kv) = Some kv.
Proof.
  unfold reference.unmarshal_pair, reference.marshal_pair.
  change (reference.hex (fst kv) ++ "=" ++ reference.hex (snd kv))
    with (reference.hex (fst kv) ++ String "=" (reference.hex (snd kv))).
  rewrite Split_app by (apply free_hex; reflexivity).
  rewrite Split_free by (apply free_hex; reflexivity).
  rewrite !unhex_hex. destruct kv; reflexivity.
Qed.

Lemma all_some_pairs l :
  reference.all_some (List.map reference.unmarshal_pair (List.map reference.marshal_pair l)) = Some l.
Proof.
  induction l as [|a l IH]; [reflexivity|].
  cbn [List.map reference.all_some]. rewrite unmarshal_pair_marshal, IH. reflexivity.
Qed.

Lemma marshal_pair_nonempty kv : reference.marshal_pair kv <> EmptyString.
Proof.
  unfold reference.marshal_pair. destruct (reference.hex (fst kv)); discriminate.
Qed.

Lemma Join_nonempty a l sep : a <> EmptyString -> gostrings.Join (a :: l) sep <> EmptyString.
Proof.
  intros Ha. destruct l as [|b l]; [exact Ha|].
  change (gostrings.Join (a :: b :: l) sep) with (a ++ sep ++ gostrings.Join (b :: l) sep).
  destruct a; [congruence|discriminate].
Qed.

Lemma unmarshal_header_marshal (hdr : gmap string string) :
  reference.unmarshal_header (reference.marshal_header hdr) = Some hdr.
Proof.
  unfold reference.unmarshal_header, reference.marshal_header.
  destruct (map_to_list hdr) as [|kv l] eqn:E.
  - apply map_to_list_empty_iff in E. subst hdr. reflexivity.
  - destruct (String.eqb_spec
                (gostrings.Join (List.map reference.marshal_pair (kv :: l)) ";") EmptyString) as [Heq|_].
    + exfalso. exact (Join_nonempty _ _ _ (marshal_pair_nonempty kv) Heq).
    + change ";" with (String ";" EmptyString). rewrite Split_Join.
      * rewrite all_some_pairs. cbn [fmap option_fmap option_map]. f_equal.
        rewrite <- E. apply list_to_map_to_list.
      * discriminate.
      * apply List.Forall_forall. intros f Hin. apply List.in_map_iff in Hin as (p & <- & _).
        unfold reference.marshal_pair.
        rewrite !free_app, !free_hex by reflexivity. reflexivity.
Qed.

(** The reference primitives reproduce every header, claims and
    signature. *)
Lemma reference_wire_ok hdr claims sig : wire_ok hdr claims sig.
Proof.
  repeat split; cbn [jwt.DecodeSegment jwt.EncodeSegment jwt.MarshalHeader
    jwt.UnmarshalHeader jwt.MarshalClaims jwt.UnmarshalClaims reference.codec].
  - apply unhex_hex.
  - apply unmarshal_header_marshal.
  - apply unhex_hex.
  - apply unmarshal_claims_marshal.
  - apply unhex_hex.
  - apply free_hex; reflexivity.
  - apply free_hex; reflexivity.
  - apply free_hex; reflexivity.
Qed.

(** With the reference primitives every issued token validates
    within its window, whatever strings it was issued for. *)
Corollary reference_token_validates
    (j : auth.JWTManager) (clock : gotime.Clock) (uuid userID email role : string)
    (now : gotime.Time) :
  clock 2%nat <= now ->
  now < jwt.NewNumericDate (gotime.Add (clock 0%nat) (auth.tokenDuration j)) ->
  auth.ValidateToken j now (unwrap (auth.GenerateToken j clock uuid userID email role))
  = Ok (auth.newClaims j clock uuid userID email role).
Proof.
  intros Hafter Hbefore. rewrite GenerateToken_eq. cbn [unwrap].
  apply newClaims_validate; [apply reference_wire_ok|assumption..].
Qed.

Example default_manager_eq :
  default_manager
  = {| auth.secretKey := "default-secret-key"; auth.tokenDuration := 24 * gotime.Hour |}.
Proof. reflexivity. Qed.


Lemma alice_wire_ok :
  wire_ok (jwt.NewHeader (jwt.SigningMethodHMAC jwt.SHA256)) alice_claims
    (signature_of default_manager alice_claims).
Proof. apply reference_wire_ok. Qed.


Lemma alice_token_well_signed : well_signed default_manager alice_token alice_claims.
Proof.
  exists (jwt.EncodeSegment
            (jwt.MarshalHeader (jwt.NewHeader (jwt.SigningMethodHMAC jwt.SHA256)))).
  exists (jwt.EncodeSegment (jwt.MarshalClaims alice_claims)).
  exists "HS256", jwt.SHA256. split; [|reflexivity].
  apply (signed_token_decodes default_manager alice_claims alice_wire_ok).
Qed.

(** C2 as stated fails at the expiry instant itself: the token is
    well signed and the clock lies in the closed interval from [nbf]
    to [exp], yet validation reports the token expired. *)
Lemma token_refused_at_expiry :
  auth.ValidateToken default_manager alice_expiry alice_token
  = Err (ErrTokenInvalidClaims [ErrTokenExpired])
  /\ well_signed default_manager alice_token alice_claims
  /\ jwt.ExpiresAt (auth.RegisteredClaims alice_claims) = Some alice_expiry
  /\ jwt.NotBefore (auth.RegisteredClaims alice_claims)
     = Some (1700000000 * gotime.Second)
  /\ 1700000000 * gotime.Second <= alice_expiry <= alice_expiry.
Proof.
  split; [vm_compute; reflexivity|].
  split; [exact alice_token_well_signed|].
  repeat split; vm_compute; try reflexivity; discriminate.
Qed.

Example token_valid_just_before_expiry :
  auth.ValidateToken default_manager (alice_expiry - 1) alice_token = Ok alice_claims
  /\ is_ok (auth.ValidateToken default_manager (alice_expiry + 1) alice_token) = false.
Proof. split; vm_compute; reflexivity. Qed.


Lemma RefreshToken_without_expiry_witness :
  auth.ValidateToken default_manager (noon + gotime.Hour) eternal_token = Ok eternal_claims
  /\ auth.RefreshToken default_manager (ticking (noon + gotime.Hour)) "jti-2" eternal_token
     = Panic "invalid memory address or nil pointer dereference".
Proof.
  assert (Hv : auth.ValidateToken default_manager (ticking (noon + gotime.Hour) 0%nat)
                 eternal_token = Ok eternal_claims) by (vm_compute; reflexivity).
  split; [exact Hv|].
  exact (RefreshToken_without_expiry default_manager (ticking (noon + gotime.Hour))
           "jti-2" eternal_token eternal_claims Hv eq_refl).
Defined.


(** The original C4 fails: a token signed with the configured secret
    followed by a zero byte, a different secret, validates. *)
Theorem padded_secret_accepted :
  padded_secret <> auth.secretKey default_manager
  /\ @jwt.SignedString auth.Claims reference.codec (@hmac.mac reference.sha)
       (jwt.SigningMethodHMAC jwt.SHA256) alice_claims padded_secret
     = Ok padded_token
  /\ @auth.ValidateToken reference.codec (@hmac.mac reference.sha)
       default_manager (noon + gotime.Hour) padded_token
     = Ok alice_claims.
Proof.
  split; [vm_compute; discriminate|]. split; vm_compute; reflexivity.
Qed.

(** ** The authentication middleware (middleware.Auth) *)

Lemma run_passed_over (hs : list gin.HandlerFunc) : forall pos c,
  pos + Z.of_nat (List.length hs) <= gin.index c -> gin.run hs pos c = Return c.
Proof.
  induction hs as [|h hs IH]; intros pos c Hle; [reflexivity|].
  cbn [gin.run]. cbn [List.length] in Hle.
  destruct (Z.eqb_spec (gin.index c) pos) as [E|_]; [lia|].
  apply IH. lia.
Qed.

Section AuthMiddleware.
Context `{jwt.Codec auth.Claims} `{jwt.MAC}.
Variable ParseDuration : string -> result gotime.Duration.
Variable env : gmap string string.
Variable now : gotime.Time.

Lemma rejects_intro c code message :
  (forall i next,
     middleware.Auth ParseDuration env now next (gin.with_index i c)
     = Return (gin.Abort (gin.JSON (gin.with_index i c) 401
                            (middleware.unauthorized code message)))) ->
  (forall next,
     middleware.Auth ParseDuration env now next c
     = Return (gin.Abort (gin.JSON c 401 (middleware.unauthorized code message)))) ->
  rejects ParseDuration env now c code message.
Proof.
  intros Hi Hc. split; [exact Hc|].
  intros rest Hlen. unfold gin.ServeHTTP. cbn [gin.run].
  change (gin.index (gin.with_index 0 c) =? 0) with true. cbv iota.
  rewrite Hi. rewrite run_passed_over; [reflexivity|].
  cbn. unfold gin.abortIndex. lia.
Qed.

Lemma Auth_missing c next :
  gin.GetHeader c "Authorization" = EmptyString ->
  middleware.Auth ParseDuration env now next c
  = Return (gin.Abort (gin.JSON c 401
      (middleware.unauthorized "MISSING_TOKEN" "Authorization token gerekli"))).
Proof. intros Hh. unfold middleware.Auth. rewrite Hh. reflexivity. Qed.

Lemma Auth_bad_format c next :
  gin.GetHeader c "Authorization" <> EmptyString ->
  (forall token, gostrings.Split (gin.GetHeader c "Authorization") " " <> ["Bearer"; token]) ->
  middleware.Auth ParseDuration env now next c
  = Return (gin.Abort (gin.JSON c 401
      (middleware.unauthorized "INVALID_TOKEN_FORMAT" "Geçersiz token formatı"))).
Proof.
  intros Hh Hshape. unfold middleware.Auth.
  apply String.eqb_neq in Hh. rewrite Hh.
  destruct (gostrings.Split (gin.GetHeader c "Authorization") " ")
    as [|a [|b [|? ?]]]; try reflexivity.
  cbn [List.length nth Nat.eqb negb orb].
  destruct (String.eqb_spec a "Bearer") as [->|_]; [|reflexivity].
  exfalso. exact (Hshape b eq_refl).
Qed.

Lemma Auth_bearer c next token :
  gin.GetHeader c "Authorization" <> EmptyString ->
  gostrings.Split (gin.GetHeader c "Authorization") " " = ["Bearer"; token] ->
  middleware.Auth ParseDuration env now next c
  = match auth.ValidateToken (auth.NewJWTManager ParseDuration env) now token with
    | Err _ =>
        Return (gin.Abort (gin.JSON c 401
          (middleware.unauthorized "INVALID_TOKEN" "Geçersiz veya süresi dolmuş token")))
    | Ok claims =>
        next (gin.Set_ (gin.Set_ (gin.Set_ c "user_id" (auth.UserID claims))
                          "user_email" (auth.Email claims))
                "user_role" (auth.Role claims))
    end.
Proof.
  intros Hh Hs. unfold middleware.Auth.
  apply String.eqb_neq in Hh. rewrite Hh, Hs. reflexivity.
Qed.

Lemma rejects_refused c code message :
  rejects ParseDuration env now c code message -> refused ParseDuration env now c code.
Proof.
  intros [Hc Hchain].
  assert (Hbody : gin.error_code (middleware.unauthorized code message) = Some code
                  /\ success_of (middleware.unauthorized code message) = Some false)
    by (split; reflexivity).
  destruct Hbody as [Hcode Hsucc].
  split.
  - eexists. split; [exact Hc|].
    exists (middleware.unauthorized code message). repeat split; assumption.
  - eexists. split; [exact Hchain|].
    exists (middleware.unauthorized code message). repeat split; assumption.
Qed.

Lemma Auth_admits c token claims :
  gin.GetHeader c "Authorization" <> EmptyString ->
  gostrings.Split (gin.GetHeader c "Authorization") " " = ["Bearer"; token] ->
  auth.ValidateToken (auth.NewJWTManager ParseDuration env) now token = Ok claims ->
  admitted ParseDuration env now c claims.
Proof.
  intros Hh Hs Hv. eexists. split.
  - intros next. rewrite (Auth_bearer c next token Hh Hs), Hv. reflexivity.
  - unfold gin.Get, gin.Set_. cbn [gin.Keys gin.Written gin.IsAborted gin.index].
    rewrite !lookup_insert_eq.
    rewrite (lookup_insert_ne _ "user_role" "user_email") by discriminate.
    rewrite (lookup_insert_ne _ "user_role" "user_id") by discriminate.
    rewrite (lookup_insert_ne _ "user_email" "user_id") by discriminate.
    rewrite !lookup_insert_eq.
    repeat split.
    intros key H1 H2 H3. rewrite !lookup_insert_ne by congruence. reflexivity.
Qed.

(** C5: on a request without an [Authorization] header the middleware
    answers 401 with the error code [MISSING_TOKEN]; on a header that
    does not split at its single space into ["Bearer"] and a token,
    401 [INVALID_TOKEN_FORMAT]; on a token that [ValidateToken]
    refuses, 401 [INVALID_TOKEN].  In these three cases the response
    written is that 401 with [success] false, the chain is aborted,
    nothing is stored in the request, and no further handler runs: the
    outcome is the same for every handler the middleware could call
    and for every list of handlers that follows it.  On a token that
    validates it calls the next handler on a context from which
    [user_id], [user_email] and [user_role] read back as the user id,
    email and role of the claims, with no response written. *)
Theorem Auth_guard (c : gin.Context) :
  (gin.RequestHeader c !! "Authorization" = None ->
   refused ParseDuration env now c "MISSING_TOKEN")
  /\ (gin.GetHeader c "Authorization" = EmptyString ->
      refused ParseDuration env now c "MISSING_TOKEN")
  /\ (gin.GetHeader c "Authorization" <> EmptyString ->
      (forall token,
         gostrings.Split (gin.GetHeader c "Authorization") " " <> ["Bearer"; token]) ->
      refused ParseDuration env now c "INVALID_TOKEN_FORMAT")
  /\ (forall token e,
        gin.GetHeader c "Authorization" <> EmptyString ->
        gostrings.Split (gin.GetHeader c "Authorization") " " = ["Bearer"; token] ->
        auth.ValidateToken (auth.NewJWTManager ParseDuration env) now token = Err e ->
        refused ParseDuration env now c "INVALID_TOKEN")
  /\ (forall token claims,
        gin.GetHeader c "Authorization" <> EmptyString ->
        gostrings.Split (gin.GetHeader c "Authorization") " " = ["Bearer"; token] ->
        auth.ValidateToken (auth.NewJWTManager ParseDuration env) now token = Ok claims ->
        admitted ParseDuration env now c claims).
Proof.
  assert (Hmiss : gin.GetHeader c "Authorization" = EmptyString ->
                  refused ParseDuration env now c "MISSING_TOKEN").
  { intros Hh. apply (rejects_refused c _ "Authorization token gerekli").
    apply rejects_intro; intros; apply Auth_missing; exact Hh. }
  repeat apply conj.
  - intros Hnone. apply Hmiss. unfold gin.GetHeader. rewrite Hnone. reflexivity.
  - exact Hmiss.
  - intros Hh Hshape. apply (rejects_refused c _ "Geçersiz token formatı").
    apply rejects_intro; intros; apply Auth_bad_format; assumption.
  - intros token e Hh Hs Hv.
    apply (rejects_refused c _ "Geçersiz veya süresi dolmuş token").
    apply rejects_intro; intros; rewrite (Auth_bearer _ _ token) by assumption;
      rewrite Hv; reflexivity.
  - intros token claims Hh Hs Hv. exact (Auth_admits c token claims Hh Hs Hv).
Qed.

End AuthMiddleware.

Lemma Auth_guard_witness :
  refused reference.ParseDuration ∅ (noon + gotime.Hour)
    (gin.NewContext ∅ ∅ ∅) "MISSING_TOKEN"
  /\ refused reference.ParseDuration ∅ (noon + gotime.Hour)
       (gin.NewContext (<["Authorization" := ["Token abc"]]> ∅) ∅ ∅) "INVALID_TOKEN_FORMAT"
  /\ refused reference.ParseDuration ∅ (noon + gotime.Hour)
       (bearer_request "garbage") "INVALID_TOKEN"
  /\ admitted reference.ParseDuration ∅ (noon + gotime.Hour) alice_call alice_claims.
Proof.
  split; [|split; [|split]].
  - destruct (@Auth_guard reference.codec reference.mac reference.ParseDuration ∅
                (noon + gotime.Hour) (gin.NewContext ∅ ∅ ∅)) as (Hnone & _).
    apply Hnone. reflexivity.
  - destruct (@Auth_guard reference.codec reference.mac reference.ParseDuration ∅
                (noon + gotime.Hour)
                (gin.NewContext (<["Authorization" := ["Token abc"]]> ∅) ∅ ∅))
      as (_ & _ & Hshape & _).
    apply Hshape; [vm_compute; discriminate|].
    intros token. vm_compute. discriminate.
  - destruct (@Auth_guard reference.codec reference.mac reference.ParseDuration ∅
                (noon + gotime.Hour) (bearer_request "garbage"))
      as (_ & _ & _ & Hbad & _).
    apply (Hbad "garbage"
             (ErrTokenMalformed "token contains an invalid number of segments"));
      [vm_compute; discriminate|vm_compute; reflexivity..].
  - destruct (@Auth_guard reference.codec reference.mac reference.ParseDuration ∅
                (noon + gotime.Hour) alice_call)
      as (_ & _ & _ & _ & Hok).
    apply (Hok alice_token); [vm_compute; discriminate|vm_compute; reflexivity..].
Defined.

(** ** Password hashing (utils.HashPassword, utils.CheckPassword) *)

Lemma take_append a b : bcrypt.take (String.length a) (a ++ b) = a.
Proof.
  induction a as [|x a IH]; simpl.
  - destruct b; reflexivity.
  - change (String x a ++ b) with (String x (a ++ b)). simpl. rewrite IH. reflexivity.
Qed.

Lemma drop_append a b : bcrypt.drop (String.length a) (a ++ b) = b.
Proof.
  induction a as [|x a IH]; simpl.
  - destruct b; reflexivity.
  - change (String x a ++ b) with (String x (a ++ b)). simpl. exact IH.
Qed.

Lemma fit_exact n s : String.length s = n -> bcrypt.fit n s = s.
Proof.
  intros <-. unfold bcrypt.fit. apply take_append.
Qed.

Lemma zeros_length n : String.length (bcrypt.zeros n) = n.
Proof. induction n as [|n IH]; simpl; [reflexivity|]. rewrite IH. reflexivity. Qed.

Lemma take_length n s : (n <= String.length s)%nat -> String.length (bcrypt.take n s) = n.
Proof.
  revert s. induction n as [|n IH]; intros s Hle; [reflexivity|].
  destruct s as [|x s]; simpl in *; [lia|]. rewrite IH by lia. reflexivity.
Qed.

Lemma fit_length n s : String.length (bcrypt.fit n s) = n.
Proof.
  unfold bcrypt.fit. apply take_length. rewrite append_length, zeros_length. lia.
Qed.

Section PasswordProperties.
Context `{bcrypt.Primitives}.
Hypothesis Hsized : sized _.

Lemma Hash_stored salt digest :
  String.length salt = bcrypt.encodedSaltSize ->
  String.length digest = bcrypt.encodedHashSize ->
  bcrypt.Hash (stored salt digest) = "$2a$14$" ++ salt ++ digest.
Proof.
  intros Hs Hd. unfold bcrypt.Hash, stored. cbn [bcrypt.major bcrypt.minor bcrypt.cost
    bcrypt.salt bcrypt.hash].
  rewrite (fit_exact _ salt Hs), (fit_exact _ digest Hd). reflexivity.
Qed.

Lemma newFromHash_stored salt digest :
  String.length salt = bcrypt.encodedSaltSize ->
  String.length digest = bcrypt.encodedHashSize ->
  bcrypt.newFromHash (bcrypt.Hash (stored salt digest)) = Ok (stored salt digest).
Proof.
  intros Hs Hd. rewrite (Hash_stored salt digest Hs Hd).
  unfold bcrypt.newFromHash.
  assert (Hlen : String.length ("$2a$14$" ++ salt ++ digest) = 60%nat).
  { rewrite !append_length, Hs, Hd. reflexivity. }
  rewrite Hlen.
  change ("$2a$14$" ++ salt ++ digest)
    with (String "$" (String "2" (String "a" (String "$" (String "1" (String "4"
            (String "$" (salt ++ digest)))))))).
  cbv iota beta. cbn -[bcrypt.take bcrypt.drop String.append].
  change (bcrypt.drop 1 (String "$" (String "1" (String "4" (String "$" (salt ++ digest))))))
    with (String "1" (String "4" (String "$" (salt ++ digest)))).
  change (bcrypt.take 2 (String "1" (String "4" (String "$" (salt ++ digest))))) with "14".
  change (strconv.Atoi "14") with (14, @None error). cbv iota beta.
  change (bcrypt.checkCost 14) with (@None error). cbv iota beta.
  change (bcrypt.drop 3 (String "1" (String "4" (String "$" (salt ++ digest)))))
    with (salt ++ digest).
  rewrite <- Hs at 1 2. rewrite take_append, drop_append. reflexivity.
Qed.

Lemma HashPassword_ok unencodedSalt password h :
  String.length unencodedSalt = bcrypt.maxSaltSize ->
  utils.HashPassword unencodedSalt password = (h, None) ->
  exists digest,
    bcrypt.eksblowfish 14 (bcrypt.base64Encode unencodedSalt) (bcrypt.key_material password)
    = Some digest
    /\ String.length (bcrypt.base64Encode unencodedSalt) = bcrypt.encodedSaltSize
    /\ String.length digest = bcrypt.encodedHashSize
    /\ h = bcrypt.Hash (stored (bcrypt.base64Encode unencodedSalt) digest).
Proof.
  intros Hsalt. unfold utils.HashPassword, bcrypt.GenerateFromPassword.
  destruct (72 <? String.length password)%nat; [discriminate|].
  unfold bcrypt.newFromPassword. change (14 <? bcrypt.MinCost) with false.
  cbv iota. change (bcrypt.checkCost 14) with (@None error). cbv iota.
  unfold bcrypt.bcrypt.
  destruct (bcrypt.eksblowfish 14 (bcrypt.base64Encode unencodedSalt)
              (bcrypt.key_material password)) as [d|] eqn:E; [|discriminate].
  intros [= <-]. exists d. repeat split.
  - apply (proj1 Hsized), Hsalt.
  - apply (proj2 Hsized _ _ _ _ E).
Qed.

Lemma CheckPassword_stored salt digest q :
  String.length salt = bcrypt.encodedSaltSize ->
  String.length digest = bcrypt.encodedHashSize ->
  utils.CheckPassword q (bcrypt.Hash (stored salt digest)) = true
  <-> bcrypt.eksblowfish 14 salt (bcrypt.key_material q) = Some digest.
Proof.
  intros Hs Hd. unfold utils.CheckPassword, bcrypt.CompareHashAndPassword.
  rewrite (newFromHash_stored salt digest Hs Hd).
  unfold bcrypt.bcrypt. cbn [bcrypt.cost bcrypt.salt stored bcrypt.major bcrypt.minor].
  destruct (bcrypt.eksblowfish 14 salt (bcrypt.key_material q)) as [d'|] eqn:E.
  - pose proof (proj2 Hsized _ _ _ _ E) as Hd'.
    change {| bcrypt.hash := d'; bcrypt.salt := salt; bcrypt.cost := 14;
              bcrypt.major := bcrypt.majorVersion;
              bcrypt.minor := Some bcrypt.minorVersion |} with (stored salt d').
    rewrite (Hash_stored salt digest Hs Hd), (Hash_stored salt d' Hs Hd').
    destruct (String.eqb_spec ("$2a$14$" ++ salt ++ digest) ("$2a$14$" ++ salt ++ d'))
      as [Heq|Hne].
    + apply String.app_inj in Heq. apply String.app_inj in Heq. subst d'.
      split; reflexivity.
    + split; [discriminate|]. intros [= ->]. exfalso. apply Hne. reflexivity.
  - split; discriminate.
Qed.

(** C6, as the code has it: a hash that [HashPassword] produced
    accepts the password it was made from; it accepts a candidate
    exactly when the candidate has the same bcrypt digest under the
    stored salt and cost, which every candidate with the same 72 bytes
    of key material has; and against a stored value that does not
    parse as a hash [CheckPassword] is false. *)
Theorem CheckPassword_spec (unencodedSalt password h : string) :
  String.length unencodedSalt = bcrypt.maxSaltSize ->
  utils.HashPassword unencodedSalt password = (h, None) ->
  utils.CheckPassword password h = true
  /\ (forall candidate,
        utils.CheckPassword candidate h = true
        <-> bcrypt.eksblowfish 14 (bcrypt.base64Encode unencodedSalt)
              (bcrypt.key_material candidate)
            = bcrypt.eksblowfish 14 (bcrypt.base64Encode unencodedSalt)
                (bcrypt.key_material password))
  /\ (forall candidate,
        bcrypt.key_material candidate = bcrypt.key_material password ->
        utils.CheckPassword candidate h = true)
  /\ (forall candidate malformed e,
        bcrypt.newFromHash malformed = Err e ->
        utils.CheckPassword candidate malformed = false).
Proof.
  intros Hsalt Hh.
  destruct (HashPassword_ok unencodedSalt password h Hsalt Hh)
    as (digest & He & Hs & Hd & ->).
  assert (Hiff : forall candidate,
            utils.CheckPassword candidate
              (bcrypt.Hash (stored (bcrypt.base64Encode unencodedSalt) digest)) = true
            <-> bcrypt.eksblowfish 14 (bcrypt.base64Encode unencodedSalt)
                  (bcrypt.key_material candidate)
                = bcrypt.eksblowfish 14 (bcrypt.base64Encode unencodedSalt)
                    (bcrypt.key_material password)).
  { intros candidate. rewrite He. apply CheckPassword_stored; assumption. }
  repeat apply conj.
  - apply Hiff. reflexivity.
  - exact Hiff.
  - intros candidate Hk. apply Hiff. rewrite Hk. reflexivity.
  - intros candidate malformed e Hm.
    unfold utils.CheckPassword, bcrypt.CompareHashAndPassword. rewrite Hm. reflexivity.
Qed.

End PasswordProperties.

(** The reference key schedule has bcrypt's sizes. *)
Lemma reference_sized : sized reference.primitives.
Proof.
  split.
  - intros s _. apply fit_length.
  - intros cost salt key d. cbn [bcrypt.eksblowfish reference.primitives].
    unfold reference.digest. destruct (Nat.eqb _ _); [|discriminate].
    intros [= <-]. apply fit_length.
Qed.

Lemma CheckPassword_spec_witness :
  utils.CheckPassword "secret123"
    (fst (utils.HashPassword sample_salt "secret123")) = true
  /\ utils.CheckPassword "secret124"
       (fst (utils.HashPassword sample_salt "secret123")) = false
  /\ utils.CheckPassword "secret123" "not-a-bcrypt-hash" = false.
Proof.
  assert (Hh : utils.HashPassword sample_salt "secret123"
               = (fst (utils.HashPassword sample_salt "secret123"), None))
    by (vm_compute; reflexivity).
  destruct (CheckPassword_spec reference_sized sample_salt "secret123" _ eq_refl Hh)
    as (Hsame & Hiff & _ & Hbad).
  split; [exact Hsame|]. split.
  - destruct (utils.CheckPassword "secret124"
                (fst (utils.HashPassword sample_salt "secret123"))) eqn:E;
      [|reflexivity].
    apply Hiff in E. vm_compute in E. discriminate E.
  - apply (Hbad "secret123" "not-a-bcrypt-hash" ErrHashTooShort). reflexivity.
Defined.

(** C6 as stated fails for two distinct plaintexts that agree on
    their first 72 bytes: the hash of the one accepts the other. *)
Lemma long_passwords_collide :
  snd (utils.HashPassword sample_salt long_password) = None
  /\ String.eqb (long_password ++ "b") long_password = false
  /\ bcrypt.key_material (long_password ++ "b") = bcrypt.key_material long_password
  /\ utils.CheckPassword (long_password ++ "b")
       (fst (utils.HashPassword sample_salt long_password)) = true.
Proof. repeat split; vm_compute; reflexivity. Qed.

Example password_too_long :
  utils.HashPassword sample_salt (long_password ++ "b") = (EmptyString, Some ErrPasswordTooLong)
  /\ utils.CheckPassword (long_password ++ "b") EmptyString = false.
Proof. split; vm_compute; reflexivity. Qed.

(** ** Registration and a protected call, end to end *)

Lemma SuccessResponse_status now c data message requestID :
  gin.Get c "request_id" = Some requestID ->
  last_status (utils.SuccessResponse now c data message) = Some (200, None).
Proof.
  intros Hr. unfold utils.SuccessResponse. rewrite Hr. simpl.
  rewrite last_snoc. reflexivity.
Qed.

(** C7, evaluated: registering alice stores her and answers with a
    token, but with status 200, not 201; with that token the protected
    route answers 200 and the request carries her user id; without an
    [Authorization] header it answers 401 [MISSING_TOKEN]; with
    "Bearer garbage" it answers 401 [INVALID_TOKEN]. *)
Theorem register_then_call :
  last_status (snd register_alice) = Some (200, None)
  /\ returned_token (snd register_alice) = Some alice_token
  /\ List.map sql.email (sql.users (fst register_alice)) = ["alice@example.com"]
  /\ last_status (protected_call ["Bearer " ++ alice_token]) = Some (200, None)
  /\ user_id_of (protected_call ["Bearer " ++ alice_token]) = Some "user-1"
  /\ last_status (protected_call []) = Some (401, Some "MISSING_TOKEN")
  /\ last_status (protected_call ["Bearer garbage"]) = Some (401, Some "INVALID_TOKEN").
Proof. repeat split; vm_compute; reflexivity. Qed.

Example bearer_shape_required :
  last_status (protected_call [alice_token]) = Some (401, Some "INVALID_TOKEN_FORMAT")
  /\ last_status (protected_call ["Bearer  " ++ alice_token])
     = Some (401, Some "INVALID_TOKEN_FORMAT")
  /\ last_status (protected_call ["bearer " ++ alice_token])
     = Some (401, Some "INVALID_TOKEN_FORMAT").
Proof. repeat split; vm_compute; reflexivity. Qed.

(** ** More on session tokens (pkg/auth/jwt.go) *)

Section TokenRefusals.
Context `{jwt.Codec auth.Claims} `{jwt.MAC}.

(** What [ValidateToken] answers for a well-signed token, by the
    clock: the claims inside the window, and outside it the error
    [ErrTokenInvalidClaims] that lists [ErrTokenExpired] when the
    expiry has been reached and [ErrTokenNotValidYet] when [nbf] lies
    ahead. *)
Theorem ValidateToken_causes (j : auth.JWTManager) (now : gotime.Time)
    (tokenString : string) (claims : auth.Claims) :
  well_signed j tokenString claims ->
  let expired :=
    match jwt.ExpiresAt (auth.RegisteredClaims claims) with
    | Some exp => exp <=? now
    | None => false
    end in
  let early :=
    match jwt.NotBefore (auth.RegisteredClaims claims) with
    | Some nbf => now <? nbf
    | None => false
    end in
  auth.ValidateToken j now tokenString
  = if expired || early then
      Err (ErrTokenInvalidClaims
             ((if expired then [ErrTokenExpired] else [])
              ++ (if early then [ErrTokenNotValidYet] else [])))
    else Ok claims.
Proof.
  intros (p0 & p1 & alg & h & Hdec & Hm). cbv zeta.
  rewrite (ValidateToken_decoded j now _ _ _ _ _ _ Hdec), Hm, String.eqb_refl.
  unfold jwt.Validate, jwt.verifyExpiresAt, jwt.verifyNotBefore, gotime.Before.
  destruct (jwt.ExpiresAt (auth.RegisteredClaims claims)) as [exp|];
    destruct (jwt.NotBefore (auth.RegisteredClaims claims)) as [nbf|]; simpl.
  - rewrite (Z.leb_antisym now exp).
    destruct (now <? exp); destruct (now <? nbf); reflexivity.
  - rewrite (Z.leb_antisym now exp). destruct (now <? exp); reflexivity.
  - destruct (now <? nbf); reflexivity.
  - reflexivity.
Qed.

(** A token that was accepted, altered: with another signature, or
    with another payload under the same header and signature, it is
    refused with [ErrTokenSignatureInvalid] at every time, the payload
    case unless the two signing strings have the same HMAC. *)
Theorem tampered_token_refused (j : auth.JWTManager) (now : gotime.Time)
    (tokenString p0 p1 alg : string) (claims : auth.Claims) (sig : string) :
  decodes_to tokenString p0 p1 alg claims sig ->
  auth.ValidateToken j now tokenString = Ok claims ->
  (forall tokenString' sig' now',
     decodes_to tokenString' p0 p1 alg claims sig' ->
     sig' <> sig ->
     auth.ValidateToken j now' tokenString' = Err ErrTokenSignatureInvalid)
  /\ (forall tokenString' p1' claims' now',
        decodes_to tokenString' p0 p1' alg claims' sig ->
        (forall h, jwt.hmac_sum h (auth.secretKey j) (p0 ++ "." ++ p1')
                   <> jwt.hmac_sum h (auth.secretKey j) (p0 ++ "." ++ p1)) ->
        auth.ValidateToken j now' tokenString' = Err ErrTokenSignatureInvalid).
Proof.
  intros Hdec Hv.
  rewrite (ValidateToken_decoded j now _ _ _ _ _ _ Hdec) in Hv.
  destruct (jwt.GetSigningMethod alg) as [m|] eqn:Hm; [|discriminate].
  destruct m as [h| | | | |]; try discriminate.
  destruct (String.eqb_spec sig (jwt.hmac_sum h (auth.secretKey j) (p0 ++ "." ++ p1)))
    as [Hsig|]; [|discriminate].
  split.
  - intros tokenString' sig' now' Hdec' Hne.
    rewrite (ValidateToken_decoded j now' _ _ _ _ _ _ Hdec'), Hm.
    destruct (String.eqb_spec sig' (jwt.hmac_sum h (auth.secretKey j) (p0 ++ "." ++ p1)))
      as [E|_]; [|reflexivity].
    exfalso. apply Hne. congruence.
  - intros tokenString' p1' claims' now' Hdec' Hfree.
    rewrite (ValidateToken_decoded j now' _ _ _ _ _ _ Hdec'), Hm.
    destruct (String.eqb_spec sig (jwt.hmac_sum h (auth.secretKey j) (p0 ++ "." ++ p1')))
      as [E|_]; [|reflexivity].
    exfalso. apply (Hfree h). congruence.
Qed.

(** A server started without [JWT_SECRET], or with an empty one,
    accepts the token that anyone signs with the fixed key
    "default-secret-key", for whatever claims it carries, while the
    clock is in their window. *)
Theorem default_secret_accepted (ParseDuration : string -> result gotime.Duration)
    (env : gmap string string) (now : gotime.Time) (claims : auth.Claims) :
  auth.Getenv env "JWT_SECRET" = EmptyString ->
  wire_ok (jwt.NewHeader (jwt.SigningMethodHMAC jwt.SHA256)) claims
    (jwt.hmac_sum jwt.SHA256 "default-secret-key"
       (jwt.SigningString (jwt.NewHeader (jwt.SigningMethodHMAC jwt.SHA256)) claims)) ->
  in_window now claims ->
  exists tokenString,
    jwt.SignedString (jwt.SigningMethodHMAC jwt.SHA256) claims "default-secret-key"
    = Ok tokenString
    /\ auth.ValidateToken (auth.NewJWTManager ParseDuration env) now tokenString = Ok claims.
Proof.
  intros Henv Hw Hwin. eexists. split; [reflexivity|].
  assert (Hk : auth.secretKey (auth.NewJWTManager ParseDuration env) = "default-secret-key").
  { unfold auth.NewJWTManager. cbn [auth.secretKey]. rewrite Henv. reflexivity. }
  apply ValidateToken_complete; [|exact Hwin].
  exists (jwt.EncodeSegment
            (jwt.MarshalHeader (jwt.NewHeader (jwt.SigningMethodHMAC jwt.SHA256)))).
  exists (jwt.EncodeSegment (jwt.MarshalClaims claims)).
  exists "HS256", jwt.SHA256. split; [|reflexivity].
  rewrite Hk.
  apply (compact_decodes (jwt.SigningMethodHMAC jwt.SHA256) claims _ Hw).
Qed.

(** [RefreshToken] returns a token only for a token that still
    validates, so one whose expiry lies ahead, with at most 15 minutes
    left; the token it returns is the one [GenerateToken] issues for
    the same user id, email and role. *)
Theorem RefreshToken_only_near_expiry
    (j : auth.JWTManager) (clock : gotime.Clock) (uuid tokenString newToken : string) :
  auth.RefreshToken j clock uuid tokenString = Return (Ok newToken) ->
  exists claims exp,
    auth.ValidateToken j (clock 0%nat) tokenString = Ok claims
    /\ jwt.ExpiresAt (auth.RegisteredClaims claims) = Some exp
    /\ clock 0%nat < exp
    /\ exp - clock 1%nat <= 15 * gotime.Minute
    /\ auth.GenerateToken j (gotime.after 2 clock) uuid
         (auth.UserID claims) (auth.Email claims) (auth.Role claims) = Ok newToken.
Proof.
  unfold auth.RefreshToken.
  destruct (auth.ValidateToken j (clock 0%nat) tokenString) as [claims|e] eqn:Hv;
    [|discriminate].
  destruct (jwt.ExpiresAt (auth.RegisteredClaims claims)) as [exp|] eqn:He; [|discriminate].
  rewrite Until_quarter.
  destruct (Z.ltb_spec (15 * gotime.Minute) (exp - clock 1%nat)); [discriminate|].
  intros Hg. exists claims, exp.
  pose proof (ValidateToken_sound j _ _ _ Hv) as [_ [Hw _]].
  split; [reflexivity|]. split; [exact He|]. split; [exact (Hw exp He)|].
  split; [assumption|congruence].
Qed.

End TokenRefusals.

Lemma ValidateToken_causes_witness :
  auth.ValidateToken default_manager (alice_expiry + gotime.Hour) alice_token
  = Err (ErrTokenInvalidClaims [ErrTokenExpired])
  /\ auth.ValidateToken default_manager (noon - gotime.Hour) alice_token
     = Err (ErrTokenInvalidClaims [ErrTokenNotValidYet])
  /\ auth.ValidateToken default_manager (noon + gotime.Hour) alice_token = Ok alice_claims.
Proof.
  split; [|split].
  - exact (@ValidateToken_causes reference.codec reference.mac default_manager
             (alice_expiry + gotime.Hour) alice_token alice_claims alice_token_well_signed).
  - exact (@ValidateToken_causes reference.codec reference.mac default_manager
             (noon - gotime.Hour) alice_token alice_claims alice_token_well_signed).
  - exact (@ValidateToken_causes reference.codec reference.mac default_manager
             (noon + gotime.Hour) alice_token alice_claims alice_token_well_signed).
Defined.

Lemma tampered_token_refused_witness :
  auth.ValidateToken default_manager (noon + gotime.Hour) alice_token = Ok alice_claims
  /\ auth.ValidateToken default_manager (noon + gotime.Hour) tampered_token
     = Err ErrTokenSignatureInvalid.
Proof.
  assert (Hv : auth.ValidateToken default_manager (noon + gotime.Hour) alice_token
               = Ok alice_claims) by (vm_compute; reflexivity).
  split; [exact Hv|].
  refine (proj2 (@tampered_token_refused reference.codec reference.mac default_manager
                   (noon + gotime.Hour) alice_token _ _ "HS256" alice_claims _
                   (signed_token_decodes default_manager alice_claims alice_wire_ok) Hv)
            tampered_token _ mallory_claims (noon + gotime.Hour) _ _).
  - exact (compact_decodes (jwt.SigningMethodHMAC jwt.SHA256) mallory_claims _
             (reference_wire_ok _ _ _)).
  - intros h E. destruct h; vm_compute in E; discriminate E.
Defined.

Lemma default_secret_accepted_witness :
  exists tokenString,
    jwt.SignedString (jwt.SigningMethodHMAC jwt.SHA256) mallory_claims "default-secret-key"
    = Ok tokenString
    /\ auth.ValidateToken (auth.NewJWTManager reference.ParseDuration ∅)
         (noon + gotime.Hour) tokenString = Ok mallory_claims.
Proof.
  assert (Henv : auth.Getenv (∅ : gmap string string) "JWT_SECRET" = EmptyString)
    by reflexivity.
  apply (@default_secret_accepted reference.codec reference.mac reference.ParseDuration ∅
           (noon + gotime.Hour) mallory_claims Henv (reference_wire_ok _ _ _)).
  split; simpl.
  - intros exp [= <-]. vm_compute. reflexivity.
  - intros nbf [= <-]. vm_compute. discriminate.
Defined.

Lemma RefreshToken_only_near_expiry_witness :
  exists claims exp,
    auth.ValidateToken default_manager
      (ticking (noon + 24 * gotime.Hour - 10 * gotime.Minute) 0%nat) alice_token = Ok claims
    /\ jwt.ExpiresAt (auth.RegisteredClaims claims) = Some exp
    /\ ticking (noon + 24 * gotime.Hour - 10 * gotime.Minute) 0%nat < exp
    /\ exp - ticking (noon + 24 * gotime.Hour - 10 * gotime.Minute) 1%nat
       <= 15 * gotime.Minute
    /\ auth.GenerateToken default_manager
         (gotime.after 2 (ticking (noon + 24 * gotime.Hour - 10 * gotime.Minute))) "jti-2"
         (auth.UserID claims) (auth.Email claims) (auth.Role claims)
       = Ok (unwrap (auth.GenerateToken default_manager
                       (gotime.after 2 (ticking (noon + 24 * gotime.Hour - 10 * gotime.Minute)))
                       "jti-2" "user-1" "alice@example.com" "farmer")).
Proof.
  apply (@RefreshToken_only_near_expiry reference.codec reference.mac default_manager
           (ticking (noon + 24 * gotime.Hour - 10 * gotime.Minute)) "jti-2" alice_token).
  vm_compute. reflexivity.
Defined.

(** ** Request ids and the response envelope (middleware.RequestID,
    utils.SuccessResponse, utils.ErrorResponse) *)

(** The request-id middleware, with a fresh UUID at hand (which is
    never empty), hands the request on with an id that is not empty
    under [request_id] and in the [X-Request-ID] response header; on
    what it hands on, the two envelope helpers do not panic and write
    the status they are given (200 for success) with that id in
    [meta]; on a context without [request_id] both panic. *)
Theorem RequestID_echo (fresh : string) (c : gin.Context) :
  fresh <> EmptyString ->
  exists c',
    (forall next, middleware.RequestID fresh next c = next c')
    /\ request_id_of fresh c <> EmptyString
    /\ gin.Get c' "request_id" = Some (request_id_of fresh c)
    /\ gin.ResponseHeader c' !! "X-Request-ID" = Some (request_id_of fresh c)
    /\ (forall now data message,
          exists body,
            utils.SuccessResponse now c' data message = Return (gin.JSON c' 200 body)
            /\ meta_of body
               = Some {| models.Timestamp := now; models.Version := "1.0";
                         models.RequestID := request_id_of fresh c |})
    /\ (forall now statusCode code message details,
          exists body,
            utils.ErrorResponse now c' statusCode code message details
            = Return (gin.JSON c' statusCode body)
            /\ gin.error_code body = Some code
            /\ meta_of body
               = Some {| models.Timestamp := now; models.Version := "1.0";
                         models.RequestID := request_id_of fresh c |})
    /\ (forall now c0 data message statusCode code details,
          gin.Get c0 "request_id" = None ->
          utils.SuccessResponse now c0 data message
          = Panic "interface conversion: interface {} is nil, not string"
          /\ utils.ErrorResponse now c0 statusCode code message details
             = Panic "interface conversion: interface {} is nil, not string").
Proof.
  intros Hfresh.
  eexists. split; [intros next; unfold middleware.RequestID; reflexivity|].
  fold (request_id_of fresh c).
  split.
  { unfold request_id_of.
    destruct (String.eqb_spec (gin.GetHeader c "X-Request-ID") EmptyString); assumption. }
  assert (Hget : gin.Get (gin.Set_ (gin.Header c "X-Request-ID" (request_id_of fresh c))
                            "request_id" (request_id_of fresh c)) "request_id"
                 = Some (request_id_of fresh c)).
  { unfold gin.Get, gin.Set_. cbn [gin.Keys]. apply lookup_insert_eq. }
  split; [exact Hget|]. split; [cbn; apply lookup_insert_eq|].
  split; [|split].
  - intros now data message. unfold utils.SuccessResponse. rewrite Hget.
    eexists. split; reflexivity.
  - intros now statusCode code message details. unfold utils.ErrorResponse. rewrite Hget.
    eexists. split; [reflexivity|]. split; reflexivity.
  - intros now c0 data message statusCode code details Hnone.
    unfold utils.SuccessResponse, utils.ErrorResponse. rewrite Hnone. split; reflexivity.
Qed.

Lemma RequestID_echo_witness :
  exists c',
    (forall next, middleware.RequestID "req-1" next (gin.NewContext ∅ ∅ ∅) = next c')
    /\ gin.Get c' "request_id" = Some "req-1"
    /\ gin.ResponseHeader c' !! "X-Request-ID" = Some "req-1".
Proof.
  destruct (RequestID_echo "req-1" (gin.NewContext ∅ ∅ ∅) ltac:(discriminate))
    as (c' & Hnext & _ & Hget & Hhdr & _).
  exists c'. split; [exact Hnext|]. split; [exact Hget|exact Hhdr].
Defined.

(** ** The identity a handler reads (utils.GetUserID, GetUserEmail,
    GetUserRole behind middleware.Auth) *)

Section Identity.
Context `{jwt.Codec auth.Claims} `{jwt.MAC}.
Variable ParseDuration : string -> result gotime.Duration.
Variable env : gmap string string.
Variable now : gotime.Time.

(** For a request whose header is "Bearer " followed by a token that
    validates, what the middleware hands on answers the three getters
    with the user id, email and role of the token's claims, whatever
    the request carried under those keys before; the request id and
    the response written so far are untouched. *)
Theorem Auth_identity (c : gin.Context) (token : string) (claims : auth.Claims) :
  gin.GetHeader c "Authorization" = "Bearer " ++ token ->
  free " " token = true ->
  auth.ValidateToken (auth.NewJWTManager ParseDuration env) now token = Ok claims ->
  exists c',
    (forall next, middleware.Auth ParseDuration env now next c = next c')
    /\ utils.GetUserID c' = Ok (auth.UserID claims)
    /\ utils.GetUserEmail c' = Ok (auth.Email claims)
    /\ utils.GetUserRole c' = Ok (auth.Role claims)
    /\ gin.Get c' "request_id" = gin.Get c "request_id"
    /\ gin.Written c' = gin.Written c
    /\ gin.IsAborted c' = gin.IsAborted c.
Proof.
  intros Hh Hfree Hv.
  assert (Hs : gostrings.Split (gin.GetHeader c "Authorization") " " = ["Bearer"; token]).
  { rewrite Hh. change ("Bearer " ++ token) with ("Bearer" ++ String " " token).
    rewrite Split_app by reflexivity. rewrite (Split_free _ _ Hfree). reflexivity. }
  assert (Hne : gin.GetHeader c "Authorization" <> EmptyString)
    by (rewrite Hh; discriminate).
  eexists. split.
  - intros next. rewrite (Auth_bearer ParseDuration env now c next token Hne Hs), Hv.
    reflexivity.
  - unfold utils.GetUserID, utils.GetUserEmail, utils.GetUserRole, gin.Get, gin.Set_.
    cbn [gin.Keys gin.Written gin.IsAborted gin.index].
    rewrite !lookup_insert_eq.
    rewrite (lookup_insert_ne _ "user_role" "user_email") by discriminate.
    rewrite (lookup_insert_ne _ "user_role" "user_id") by discriminate.
    rewrite (lookup_insert_ne _ "user_email" "user_id") by discriminate.
    rewrite !lookup_insert_eq.
    rewrite !lookup_insert_ne by discriminate.
    repeat split.
Qed.

End Identity.

Lemma Auth_identity_witness :
  exists c',
    (forall next, middleware.Auth reference.ParseDuration ∅ (noon + gotime.Hour) next alice_call
                  = next c')
    /\ utils.GetUserID c' = Ok "user-1"
    /\ utils.GetUserEmail c' = Ok "alice@example.com"
    /\ utils.GetUserRole c' = Ok "farmer"
    /\ gin.Get c' "request_id" = gin.Get alice_call "request_id"
    /\ gin.Written c' = gin.Written alice_call
    /\ gin.IsAborted c' = gin.IsAborted alice_call.
Proof.
  assert (Hh : gin.GetHeader alice_call "Authorization" = "Bearer " ++ alice_token)
    by (vm_compute; reflexivity).
  assert (Hf : free " " alice_token = true) by (vm_compute; reflexivity).
  assert (Hv : auth.ValidateToken (auth.NewJWTManager reference.ParseDuration ∅)
                 (noon + gotime.Hour) alice_token = Ok alice_claims)
    by (vm_compute; reflexivity).
  exact (@Auth_identity reference.codec reference.mac reference.ParseDuration ∅
           (noon + gotime.Hour) alice_call alice_token alice_claims Hh Hf Hv).
Defined.

(** ** White space (utils.SanitizeString, utils.IsEmptyString) *)

Lemma every_app p a b : every p (a ++ b) = every p a && every p b.
Proof.
  induction a as [|c a IH]; [reflexivity|].
  change (String c a ++ b) with (String c (a ++ b)). simpl.
  rewrite IH, andb_assoc. reflexivity.
Qed.

Lemma trim_left_spec s :
  exists l, s = l ++ gostrings.trim_left s
            /\ every gostrings.is_space l = true
            /\ (forall c rest, gostrings.trim_left s = String c rest ->
                               gostrings.is_space c = false).
Proof.
  induction s as [|c s (l & Hl & Hs & Hf)].
  - exists EmptyString. repeat split. discriminate.
  - simpl. destruct (gostrings.is_space c) eqn:Hc.
    + exists (String c l). split; [|split].
      * change (String c l ++ gostrings.trim_left s)
          with (String c (l ++ gostrings.trim_left s)). rewrite <- Hl. reflexivity.
      * simpl. rewrite Hc. exact Hs.
      * exact Hf.
    + exists EmptyString. split; [reflexivity|]. split; [reflexivity|].
      intros c' rest [= <- _]. exact Hc.
Qed.

Lemma trim_right_spec s :
  exists r, s = gostrings.trim_right s ++ r
            /\ every gostrings.is_space r = true
            /\ (forall init c, gostrings.trim_right s = init ++ String c EmptyString ->
                               gostrings.is_space c = false)
            /\ (forall c rest, s = String c rest -> gostrings.is_space c = false ->
                  exists rest', gostrings.trim_right s = String c rest').
Proof.
  induction s as [|c s (r & Hr & Hs & Hlast & _)].
  - exists EmptyString. repeat split; try discriminate.
    intros [|x init] c; discriminate.
  - simpl. destruct (gostrings.trim_right s) as [|d t] eqn:Ht.
    + destruct (gostrings.is_space c) eqn:Hc.
      * exists (String c r). split; [|split; [|split]].
        -- change (s = r) in Hr. rewrite <- Hr. reflexivity.
        -- simpl. rewrite Hc. exact Hs.
        -- intros [|x init] c'; discriminate.
        -- intros c' rest [= <- _] Hc'. congruence.
      * exists r. split; [|split; [|split]].
        -- change (s = r) in Hr. change (String c EmptyString ++ r) with (String c r).
           rewrite <- Hr. reflexivity.
        -- exact Hs.
        -- intros [|x init] c'.
           ++ intros [= <-]. exact Hc.
           ++ change (String x init ++ String c' EmptyString)
                with (String x (init ++ String c' EmptyString)).
              intros [= _ E]. destruct init; discriminate.
        -- intros c' rest [= <- _] _. eexists. reflexivity.
    + exists r. split; [|split; [|split]].
      * change (String c (String d t) ++ r) with (String c (String d t ++ r)).
        rewrite <- Hr. reflexivity.
      * exact Hs.
      * intros [|x init] c'.
        -- discriminate.
        -- change (String x init ++ String c' EmptyString)
             with (String x (init ++ String c' EmptyString)).
           intros [= _ E]. apply (Hlast init c'). exact E.
      * intros c' rest [= <- _] _. eexists. reflexivity.
Qed.

Lemma trim_right_blank s :
  gostrings.trim_right s = EmptyString <-> every gostrings.is_space s = true.
Proof.
  induction s as [|c s IH]; [split; reflexivity|].
  simpl. destruct (gostrings.trim_right s) as [|d t].
  - destruct (gostrings.is_space c); simpl.
    + split; intros _; [apply IH|]; reflexivity.
    + split; discriminate.
  - split; [discriminate|]. intros Hc. apply andb_prop in Hc as [_ Hs].
    apply IH in Hs. discriminate.
Qed.

Lemma trim_left_blank s :
  every gostrings.is_space (gostrings.trim_left s) = every gostrings.is_space s.
Proof.
  induction s as [|c s IH]; [reflexivity|].
  simpl. destruct (gostrings.is_space c) eqn:Hc; [exact IH|].
  simpl. rewrite Hc. reflexivity.
Qed.

Lemma trim_left_fixed s :
  (forall c rest, s = String c rest -> gostrings.is_space c = false) ->
  gostrings.trim_left s = s.
Proof.
  destruct s as [|c s]; [reflexivity|]. intros Hf. simpl.
  rewrite (Hf c s eq_refl). reflexivity.
Qed.

Lemma trim_right_fixed s :
  (forall init c, s = init ++ String c EmptyString -> gostrings.is_space c = false) ->
  gostrings.trim_right s = s.
Proof.
  induction s as [|c s IH]; [reflexivity|]. intros Hl. simpl.
  rewrite IH.
  - destruct s as [|d t]; [|reflexivity].
    rewrite (Hl EmptyString c eq_refl). reflexivity.
  - intros init c' E. apply (Hl (String c init) c'). rewrite E. reflexivity.
Qed.

(** On a string of one-byte code points, [SanitizeString] removes a
    run of white space at either end and nothing else: what is left
    neither begins nor ends with white space, sanitising it again
    changes nothing, and [IsEmptyString] holds exactly of the strings
    that consist of white space. *)
Theorem SanitizeString_spec (s : string) :
  every one_byte s = true ->
  (exists l r, s = l ++ utils.SanitizeString s ++ r
               /\ every gostrings.is_space l = true
               /\ every gostrings.is_space r = true)
  /\ (forall c rest, utils.SanitizeString s = String c rest ->
                     gostrings.is_space c = false)
  /\ (forall init c, utils.SanitizeString s = init ++ String c EmptyString ->
                     gostrings.is_space c = false)
  /\ utils.SanitizeString (utils.SanitizeString s) = utils.SanitizeString s
  /\ (utils.IsEmptyString s = true <-> every gostrings.is_space s = true).
Proof.
  intros _. unfold utils.SanitizeString, utils.IsEmptyString, gostrings.TrimSpace.
  destruct (trim_left_spec s) as (l & Hl & Hls & Hfirst).
  destruct (trim_right_spec (gostrings.trim_left s)) as (r & Hr & Hrs & Hlast & Hkeep).
  assert (Hfirst' : forall c rest,
            gostrings.trim_right (gostrings.trim_left s) = String c rest ->
            gostrings.is_space c = false).
  { intros c rest E. destruct (gostrings.trim_left s) as [|d t] eqn:Ht; [discriminate|].
    pose proof (Hfirst d t eq_refl) as Hd.
    destruct (Hkeep d t eq_refl Hd) as (rest' & E'). congruence. }
  repeat apply conj.
  - exists l, r. split; [|split; assumption]. rewrite <- Hr. exact Hl.
  - exact Hfirst'.
  - exact Hlast.
  - rewrite (trim_left_fixed _ Hfirst'). apply trim_right_fixed, Hlast.
  - intros E. apply String.eqb_eq, trim_right_blank in E.
    rewrite trim_left_blank in E. exact E.
  - intros E. apply String.eqb_eq, trim_right_blank. rewrite trim_left_blank. exact E.
Qed.

Lemma SanitizeString_spec_witness :
  utils.SanitizeString "  milk sale " = "milk sale"
  /\ (utils.IsEmptyString "   " = true <-> every gostrings.is_space "   " = true).
Proof.
  destruct (SanitizeString_spec "   " eq_refl) as (_ & _ & _ & _ & Hblank).
  destruct (SanitizeString_spec "  milk sale " eq_refl) as (_ & _ & _ & Hidem & _).
  split; [|exact Hblank].
  rewrite <- Hidem. reflexivity.
Defined.

(** ** utils.ValidateEmail *)

Lemma HasPrefix_nil s : gostrings.HasPrefix s EmptyString = true.
Proof. destruct s; reflexivity. Qed.

Lemma Contains_byte c s :
  gostrings.Contains s (String c EmptyString) = true <-> occurs c s.
Proof.
  induction s as [|x s IH].
  - split; [discriminate|]. intros ([|? ?] & b & E); discriminate.
  - cbn [gostrings.Contains gostrings.HasPrefix]. rewrite HasPrefix_nil, andb_true_r.
    destruct (Ascii.eqb_spec x c) as [->|Hne]; cbn [orb].
    + split; [|reflexivity]. intros _. exists EmptyString, s. reflexivity.
    + rewrite IH. split.
      * intros (a & b & ->). exists (String x a), b. reflexivity.
      * intros ([|y a] & b & E).
        -- injection E as E _. contradiction.
        -- change (String y a ++ String c b) with (String y (a ++ String c b)) in E.
           injection E as _ E. exists a, b. exact E.
Qed.

(** [ValidateEmail] accepts exactly the strings in which both an "@"
    and a "." occur, in whatever order and wherever. *)
Theorem ValidateEmail_spec (email : string) :
  utils.ValidateEmail email = true <-> occurs "@" email /\ occurs "." email.
Proof.
  unfold utils.ValidateEmail. rewrite andb_true_iff, !Contains_byte. reflexivity.
Qed.

(** ** Nullable values (utils.StringToNullString and its relatives) *)

(** A string, a time and a float turned into a nullable value and
    back: the float always returns; the string and the time return
    unless they are the empty string and the zero time, which are
    written as NULL and so come back as nil. *)
Theorem null_round_trip (s : string) (t : gotime.Time) (f : float) :
  utils.NullStringToPtr (utils.StringToNullString s)
  = (if String.eqb s EmptyString then None else Some s)
  /\ utils.NullTimeToPtr (utils.TimeToNullTime t)
     = (if Z.eqb t gotime.zeroTime then None else Some t)
  /\ utils.NullFloat64ToPtr (utils.Float64ToNullFloat64 f) = Some f.
Proof.
  unfold utils.NullStringToPtr, utils.StringToNullString, utils.NullTimeToPtr,
    utils.TimeToNullTime, utils.NullFloat64ToPtr, utils.Float64ToNullFloat64, gotime.IsZero.
  cbn [sqlnull.NullString_Valid sqlnull.NullString_String sqlnull.NullTime_Valid
       sqlnull.NullTime_Time sqlnull.NullFloat64_Valid sqlnull.NullFloat64_Float64].
  repeat apply conj.
  - destruct (String.eqb s EmptyString); reflexivity.
  - destruct (Z.eqb t gotime.zeroTime); reflexivity.
  - reflexivity.
Qed.

(** ** utils.GenerateRandomString *)





(** ** Accounts (handlers/auth.go) *)

Lemma ErrorResponse_status now c statusCode code message details requestID :
  gin.Get c "request_id" = Some requestID ->
  last_status (utils.ErrorResponse now c statusCode code message details)
  = Some (statusCode, Some code).
Proof.
  intros Hr. unfold utils.ErrorResponse. rewrite Hr. simpl.
  rewrite last_snoc. reflexivity.
Qed.

Lemma find_app_last {A} (f : A -> bool) l x :
  (forall y, In y l -> f y = false) -> f x = true -> List.find f (l ++ [x]) = Some x.
Proof.
  induction l as [|y l IH]; intros Hl Hx; simpl.
  - rewrite Hx. reflexivity.
  - rewrite (Hl y (or_introl eq_refl)). apply IH; [|exact Hx].
    intros z Hz. apply Hl. right. exact Hz.
Qed.

Lemma existsb_false {A} (f : A -> bool) l :
  List.existsb f l = false -> forall y, In y l -> f y = false.
Proof.
  induction l as [|x l IH]; intros He y Hy; [destruct Hy|].
  simpl in He. apply orb_false_iff in He as [Hx Hl].
  destruct Hy as [<-|Hy]; [exact Hx|apply IH; assumption].
Qed.

(** A key column that the update leaves alone finds the updated row. *)
Lemma find_map_key (g : sql.UserRow -> sql.UserRow) userID l :
  (forall r, sql.id (g r) = sql.id r) ->
  List.find (fun r => String.eqb (sql.id r) userID)
    (List.map (fun r => if String.eqb (sql.id r) userID then g r else r) l)
  = g <$> List.find (fun r => String.eqb (sql.id r) userID) l.
Proof.
  intros Hg. induction l as [|r l IH]; [reflexivity|]. simpl.
  destruct (String.eqb (sql.id r) userID) eqn:E.
  - rewrite Hg, E. reflexivity.
  - rewrite E. exact IH.
Qed.

Lemma map_keeps_others (g : sql.UserRow -> sql.UserRow) userID l :
  (forall r, sql.id (g r) = sql.id r) ->
  List.filter (fun r => negb (String.eqb (sql.id r) userID))
    (List.map (fun r => if String.eqb (sql.id r) userID then g r else r) l)
  = List.filter (fun r => negb (String.eqb (sql.id r) userID)) l.
Proof.
  intros Hg. induction l as [|r l IH]; [reflexivity|]. simpl.
  destruct (String.eqb (sql.id r) userID) eqn:E.
  - rewrite Hg, E. exact IH.
  - rewrite E. simpl. rewrite IH. reflexivity.
Qed.

Section Accounts.
Context `{jwt.Codec auth.Claims} `{jwt.MAC} `{bcrypt.Primitives}.
Hypothesis Hsized : sized _.

(** What a registration that answers 200 has done. *)
Lemma Register_success h clock dbnow db bound unencodedSalt userID jti jti' c requestID :
  gin.Get c "request_id" = Some requestID ->
  last_status (snd (handlers.Register h clock dbnow db bound unencodedSalt
                      userID jti jti' c)) = Some (200, None) ->
  exists req hashedPassword,
    bound = Ok req
    /\ models.Password req = models.ConfirmPassword req
    /\ (forall r, In r (sql.users db) ->
                  sql.id r <> userID /\ sql.email r <> models.Email req)
    /\ utils.HashPassword unencodedSalt (models.Password req) = (hashedPassword, None)
    /\ handlers.Register h clock dbnow db bound unencodedSalt userID jti jti' c
       = ({| sql.users :=
               sql.users db
               ++ [ {| sql.id := userID;
                       sql.name := models.Name req;
                       sql.email := models.Email req;
                       sql.password := hashedPassword;
                       sql.avatar := None;
                       sql.role := "farmer";
                       sql.farm_name := models.FarmName req;
                       sql.location := models.Location req;
                       sql.is_verified := false;
                       sql.created_at := dbnow;
                       sql.updated_at := dbnow |} ];
             sql.transactions := sql.transactions db |},
          utils.SuccessResponse (clock 6%nat) c
            (Some (models.PAuth
               {| models.AuthResponse_User :=
                    {| models.User_ID := userID;
                       models.User_Name := models.Name req;
                       models.User_Email := models.Email req;
                       models.User_Password := EmptyString;
                       models.User_Avatar := EmptyString;
                       models.User_Role := "farmer";
                       models.User_FarmName := models.FarmName req;
                       models.User_Location := models.Location req;
                       models.User_IsVerified := false;
                       models.User_CreatedAt := gotime.zeroTime;
                       models.User_UpdatedAt := gotime.zeroTime |};
                  models.Token :=
                    unwrap (auth.GenerateToken (handlers.jwtManager h) clock jti
                              userID (models.Email req) "farmer");
                  models.RefreshToken :=
                    unwrap (auth.GenerateToken (handlers.jwtManager h)
                              (gotime.after 3 clock) jti'
                              userID (models.Email req) "farmer") |}))
            "Kullanıcı başarıyla oluşturuldu").
Proof.
  intros Hr. unfold handlers.Register.
  destruct bound as [req|e]; cbn [snd];
    [|rewrite (ErrorResponse_status _ _ _ _ _ _ _ Hr); discriminate].
  destruct (String.eqb_spec (models.Password req) (models.ConfirmPassword req))
    as [Hpw|_]; cbn [negb snd];
    [|rewrite (ErrorResponse_status _ _ _ _ _ _ _ Hr); discriminate].
  destruct (sql.select_user_id db (models.Email req)) as [?|?]; cbn [snd];
    [rewrite (ErrorResponse_status _ _ _ _ _ _ _ Hr); discriminate|].
  destruct (utils.HashPassword unencodedSalt (models.Password req))
    as [hashedPassword [err|]] eqn:Hh; cbn [snd];
    [rewrite (ErrorResponse_status _ _ _ _ _ _ _ Hr); discriminate|].
  unfold sql.insert_user. cbn [sql.id sql.email].
  destruct (List.existsb _ (sql.users db)) eqn:He; cbn [snd];
    [rewrite (ErrorResponse_status _ _ _ _ _ _ _ Hr); discriminate|].
  rewrite !GenerateToken_eq. cbn [snd unwrap]. intros _.
  exists req, hashedPassword. repeat apply conj; try reflexivity; try assumption.
  intros r Hin. pose proof (existsb_false _ _ He r Hin) as Hf. cbn beta in Hf.
  apply orb_false_iff in Hf as [Hi Hm]. split.
  - intros E. rewrite E, String.eqb_refl in Hi. discriminate.
  - intros E. rewrite E, String.eqb_refl in Hm. discriminate.
Qed.

(** A registration changes the store only when it answers 200, and
    then by one row of [users]: the new user under the fresh id, with
    the role "farmer", unverified, without avatar, and with a bcrypt
    hash in place of the password, which the password verifies
    against.  The token it answers with is the one issued for the new
    id, the email and the role "farmer". *)
Theorem Register_effect (h : handlers.AuthHandler) (clock : gotime.Clock)
    (dbnow : gotime.Time) (db : sql.DB) (bound : result models.RegisterRequest)
    (unencodedSalt userID jti jti' : string) (c : gin.Context) (requestID : string) :
  gin.Get c "request_id" = Some requestID ->
  String.length unencodedSalt = bcrypt.maxSaltSize ->
  let db' := fst (handlers.Register h clock dbnow db bound unencodedSalt
                    userID jti jti' c) in
  let o := snd (handlers.Register h clock dbnow db bound unencodedSalt
                  userID jti jti' c) in
  (last_status o <> Some (200, None) -> db' = db)
  /\ (last_status o = Some (200, None) ->
      exists (req : models.RegisterRequest) (row : sql.UserRow),
        bound = Ok req
        /\ sql.users db' = (sql.users db ++ [row])%list
        /\ sql.transactions db' = sql.transactions db
        /\ (sql.id row, sql.name row, sql.email row, sql.role row)
           = (userID, models.Name req, models.Email req, "farmer")
        /\ (sql.farm_name row, sql.location row, sql.is_verified row, sql.avatar row)
           = (models.FarmName req, models.Location req, false, None)
        /\ utils.CheckPassword (models.Password req) (sql.password row) = true
        /\ String.length (sql.password row) = 60%nat
        /\ (forall r, In r (sql.users db) ->
                      sql.id r <> userID /\ sql.email r <> models.Email req)
        /\ returned_token o
           = Some (unwrap (auth.GenerateToken (handlers.jwtManager h) clock jti
                             userID (models.Email req) "farmer"))).
Proof.
  intros Hr Hsalt db' o. split.
  - subst db' o. unfold handlers.Register.
    destruct bound as [req|e]; [|reflexivity].
    destruct (negb (String.eqb (models.Password req) (models.ConfirmPassword req)));
      [reflexivity|].
    destruct (sql.select_user_id db (models.Email req)); [reflexivity|].
    destruct (utils.HashPassword unencodedSalt (models.Password req)) as [hp [err|]];
      [reflexivity|].
    destruct (sql.insert_user db _) as [db1|e1]; [|reflexivity].
    rewrite !GenerateToken_eq. cbn [snd fst].
    rewrite (SuccessResponse_status _ _ _ _ _ Hr). intros Hne. exfalso. apply Hne.
    reflexivity.
  - intros Hok. subst db' o.
    destruct (Register_success h clock dbnow db bound unencodedSalt userID jti jti' c
                requestID Hr Hok) as (req & hp & Hb & Hpw & Hnew & Hh & ->).
    cbn [fst snd]. eexists req, _. split; [exact Hb|].
    split; [reflexivity|]. split; [reflexivity|]. split; [reflexivity|].
    split; [reflexivity|]. cbn [sql.password].
    destruct (HashPassword_ok Hsized unencodedSalt (models.Password req) hp Hsalt Hh)
      as (digest & He & Hs & Hd & ->).
    split; [|split; [|split]].
    + apply (CheckPassword_stored Hsized); assumption.
    + rewrite (Hash_stored _ _ Hs Hd), !append_length, Hs, Hd. reflexivity.
    + exact Hnew.
    + unfold utils.SuccessResponse, returned_token. rewrite Hr. cbn.
      rewrite last_snoc. reflexivity.
Qed.

(** What [Login] answers, for a request that binds: it answers 200,
    with the user and two tokens issued for the id, email and role of
    the stored row, when the table has a row with the email, the row
    has an avatar and the password verifies against its hash; in every
    other case (no such email, a wrong password, a row whose avatar is
    NULL) it answers with one and the same 401 [INVALID_CREDENTIALS]. *)
Theorem Login_outcome (h : handlers.AuthHandler) (clock : gotime.Clock) (db : sql.DB)
    (req : models.LoginRequest) (jti jti' : string) (c : gin.Context) :
  let found :=
    List.find (fun u => String.eqb (sql.email u) (models.LoginRequest_Email req))
              (sql.users db) in
  (forall row a,
     found = Some row -> sql.avatar row = Some a ->
     utils.CheckPassword (models.LoginRequest_Password req) (sql.password row) = true ->
     exists user,
       sql.scan_user "4" (sql.password row) row = Ok user
       /\ handlers.Login h clock db (Ok req) jti jti' c
          = utils.SuccessResponse (clock 6%nat) c
              (Some (models.PAuth
                 {| models.AuthResponse_User := user;
                    models.Token :=
                      unwrap (auth.GenerateToken (handlers.jwtManager h) clock jti
                                (sql.id row) (sql.email row) (sql.role row));
                    models.RefreshToken :=
                      unwrap (auth.GenerateToken (handlers.jwtManager h)
                                (gotime.after 3 clock) jti'
                                (sql.id row) (sql.email row) (sql.role row)) |}))
              "Giriş başarılı")
  /\ ((forall row, found = Some row ->
         sql.avatar row = None
         \/ utils.CheckPassword (models.LoginRequest_Password req) (sql.password row)
            = false) ->
      handlers.Login h clock db (Ok req) jti jti' c = refused_login clock c).
Proof.
  cbv zeta. unfold handlers.Login, sql.select_user_by_email, sql.scan_user, refused_login.
  destruct (List.find _ (sql.users db)) as [row|]; split.
  - intros row' a [= <-] Ha Hp. rewrite Ha. cbn [models.User_Password].
    rewrite Hp. cbn [negb]. rewrite !GenerateToken_eq. cbn [unwrap].
    eexists. split; reflexivity.
  - intros Hno. destruct (Hno row eq_refl) as [Ha|Hp].
    + rewrite Ha. reflexivity.
    + destruct (sql.avatar row); [|reflexivity].
      cbn [models.User_Password]. rewrite Hp. reflexivity.
  - intros row' a [=].
  - intros _. reflexivity.
Qed.

(** The user of a registration that answered 200 is locked out: with
    the registered email [Login] answers 401 [INVALID_CREDENTIALS]
    for every password, the registered one included; [GetProfile] for
    the registered id answers 404 [USER_NOT_FOUND]; and
    [UpdateProfile] answers 500 [FETCH_ERROR].  The row the
    registration inserted has no avatar, which none of the three can
    read. *)
Theorem registered_user_locked_out (h : handlers.AuthHandler) (clock : gotime.Clock)
    (dbnow : gotime.Time) (db : sql.DB) (req : models.RegisterRequest)
    (unencodedSalt userID jti jti' : string) (c : gin.Context) (requestID : string) :
  gin.Get c "request_id" = Some requestID ->
  let db' := fst (handlers.Register h clock dbnow db (Ok req) unencodedSalt
                    userID jti jti' c) in
  last_status (snd (handlers.Register h clock dbnow db (Ok req) unencodedSalt
                      userID jti jti' c)) = Some (200, None) ->
  (forall h' clock' password j j' c',
     handlers.Login h' clock' db'
       (Ok {| models.LoginRequest_Email := models.Email req;
              models.LoginRequest_Password := password |}) j j' c'
     = refused_login clock' c')
  /\ (forall clock' c',
        gin.Get c' "user_id" = Some userID ->
        handlers.GetProfile clock' db' c'
        = utils.ErrorResponse (clock' 0%nat) c' 404 "USER_NOT_FOUND"
            "Kullanıcı bulunamadı" (Some (models.PError (sql.scan_null "3" "avatar"))))
  /\ (forall clock' dbnow' update c',
        gin.Get c' "user_id" = Some userID ->
        snd (handlers.UpdateProfile clock' dbnow' db' (Ok update) c')
        = utils.ErrorResponse (clock' 0%nat) c' 500 "FETCH_ERROR"
            "Güncellenmiş profil getirilemedi"
            (Some (models.PError (sql.scan_null "3" "avatar")))).
Proof.
  intros Hr db' Hok. subst db'.
  destruct (Register_success h clock dbnow db (Ok req) unencodedSalt userID jti jti' c
              requestID Hr Hok) as (req' & hp & [= <-] & Hpw & Hnew & Hh & ->).
  cbn [fst].
  set (row := {| sql.id := userID; sql.name := models.Name req;
                 sql.email := models.Email req; sql.password := hp;
                 sql.avatar := None; sql.role := "farmer";
                 sql.farm_name := models.FarmName req;
                 sql.location := models.Location req; sql.is_verified := false;
                 sql.created_at := dbnow; sql.updated_at := dbnow |}).
  assert (Hmail : List.find (fun u => String.eqb (sql.email u) (models.Email req))
                    (sql.users db ++ [row]) = Some row).
  { apply find_app_last; [|apply String.eqb_refl].
    intros r Hin. apply String.eqb_neq, (Hnew r Hin). }
  assert (Hid : List.find (fun u => String.eqb (sql.id u) userID)
                  (sql.users db ++ [row]) = Some row).
  { apply find_app_last; [|apply String.eqb_refl].
    intros r Hin. apply String.eqb_neq, (Hnew r Hin). }
  repeat apply conj.
  - intros h' clock' password j j' c'.
    unfold handlers.Login, sql.select_user_by_email, refused_login.
    cbn [sql.users models.LoginRequest_Email]. rewrite Hmail. reflexivity.
  - intros clock' c' Hu. unfold handlers.GetProfile, utils.GetUserID. rewrite Hu.
    unfold sql.select_user_by_id. cbn [sql.users]. rewrite Hid. reflexivity.
  - intros clock' dbnow' update c' Hu.
    unfold handlers.UpdateProfile, utils.GetUserID. rewrite Hu.
    unfold sql.update_profile, sql.select_user_by_id. cbn [sql.users snd].
    rewrite find_map_key by reflexivity. rewrite Hid. reflexivity.
Qed.

(** [UpdateProfile] for the authenticated user changes, at most, the
    name, farm name, location and update time of that user's row:
    whatever the request body carries, every row keeps its id, email,
    password hash, avatar, role, verification flag and creation time,
    the rows of all other users are left as they are, and so is the
    table of transactions. *)
Theorem UpdateProfile_scope (clock : gotime.Clock) (dbnow : gotime.Time) (db : sql.DB)
    (bound : result models.User) (c : gin.Context) (userID : string) :
  gin.Get c "user_id" = Some userID ->
  let db' := fst (handlers.UpdateProfile clock dbnow db bound c) in
  List.map account_columns (sql.users db') = List.map account_columns (sql.users db)
  /\ other_users userID db' = other_users userID db
  /\ sql.transactions db' = sql.transactions db
  /\ (forall req row,
        bound = Ok req -> user_row userID db = Some row ->
        user_row userID db'
        = Some (sql.set_profile dbnow (models.User_Name req) (models.User_FarmName req)
                  (models.User_Location req) row)).
Proof.
  intros Hu. cbv zeta. unfold handlers.UpdateProfile, utils.GetUserID. rewrite Hu.
  destruct bound as [req|e]; cbn [fst].
  - unfold sql.update_profile.
    destruct (sql.select_user_by_id _ userID) as [user|err]; cbn [fst sql.users
      sql.transactions]; (repeat apply conj; [| | reflexivity |]).
    all: try (unfold other_users; cbn [sql.users]; apply map_keeps_others; reflexivity).
    all: try (rewrite List.map_map; apply List.map_ext; intros r;
              destruct (String.eqb (sql.id r) userID); reflexivity).
    all: intros req' row [= <-] Hrow; unfold user_row in *; cbn [sql.users];
      rewrite find_map_key by reflexivity; rewrite Hrow; reflexivity.
  - repeat apply conj; try reflexivity. intros req row [=].
Qed.

(** [ChangePassword] for the authenticated user changes the store
    only when it answers 200, and then it has verified the current
    password against the stored hash and replaced that hash by one
    the new password verifies against; the rows of all other users
    are left as they are. *)
Theorem ChangePassword_spec (clock : gotime.Clock) (dbnow : gotime.Time) (db : sql.DB)
    (bound : result (gmap string string)) (unencodedSalt : string) (c : gin.Context)
    (userID requestID : string) :
  gin.Get c "user_id" = Some userID ->
  gin.Get c "request_id" = Some requestID ->
  String.length unencodedSalt = bcrypt.maxSaltSize ->
  let db' := fst (handlers.ChangePassword clock dbnow db bound unencodedSalt c) in
  let o := snd (handlers.ChangePassword clock dbnow db bound unencodedSalt c) in
  (last_status o <> Some (200, None) -> db' = db)
  /\ (last_status o = Some (200, None) ->
      exists req currentPassword newPassword row newHash,
        bound = Ok req
        /\ req !! "currentPassword" = Some currentPassword
        /\ req !! "newPassword" = Some newPassword
        /\ user_row userID db = Some row
        /\ utils.CheckPassword currentPassword (sql.password row) = true
        /\ user_row userID db' = Some (sql.set_password dbnow newHash row)
        /\ utils.CheckPassword newPassword newHash = true
        /\ other_users userID db' = other_users userID db
        /\ sql.transactions db' = sql.transactions db).
Proof.
  intros Hu Hr Hsalt. cbv zeta.
  unfold handlers.ChangePassword, utils.GetUserID. rewrite Hu.
  destruct bound as [req|e]; cbn [fst snd];
    [|split; [reflexivity|rewrite (ErrorResponse_status _ _ _ _ _ _ _ Hr); discriminate]].
  destruct (req !! "currentPassword") as [cur|] eqn:Hc; cbn [fst snd];
    [|split; [reflexivity|rewrite (ErrorResponse_status _ _ _ _ _ _ _ Hr); discriminate]].
  destruct (req !! "newPassword") as [new|] eqn:Hn; cbn [fst snd];
    [|split; [reflexivity|rewrite (ErrorResponse_status _ _ _ _ _ _ _ Hr); discriminate]].
  unfold sql.select_password. fold (user_row userID db).
  destruct (user_row userID db) as [row|] eqn:Hrow; cbn [fst snd];
    [|split; [reflexivity|rewrite (ErrorResponse_status _ _ _ _ _ _ _ Hr); discriminate]].
  destruct (utils.CheckPassword cur (sql.password row)) eqn:Hcheck; cbn [negb fst snd];
    [|split; [reflexivity|rewrite (ErrorResponse_status _ _ _ _ _ _ _ Hr); discriminate]].
  destruct (utils.HashPassword unencodedSalt new) as [newHash [err|]] eqn:Hh; cbn [fst snd];
    [split; [reflexivity|rewrite (ErrorResponse_status _ _ _ _ _ _ _ Hr); discriminate]|].
  unfold sql.update_password. cbn [fst snd].
  rewrite (SuccessResponse_status _ _ _ _ _ Hr). split.
  - intros Hne. exfalso. apply Hne. reflexivity.
  - intros _. exists req, cur, new, row, newHash.
    destruct (HashPassword_ok Hsized unencodedSalt new newHash Hsalt Hh)
      as (digest & He & Hs & Hd & ->).
    repeat apply conj; try reflexivity; try assumption.
    + unfold user_row in *. cbn [sql.users]. rewrite find_map_key by reflexivity.
      rewrite Hrow. reflexivity.
    + apply (CheckPassword_stored Hsized); assumption.
    + unfold other_users. cbn [sql.users]. apply map_keeps_others. reflexivity.
Qed.

End Accounts.

Lemma Register_effect_witness :
  exists (req : models.RegisterRequest) (row : sql.UserRow),
    Ok alice_registration = Ok req
    /\ sql.users (fst (handlers.Register sample_handler (ticking noon) noon empty_store
                         (Ok alice_registration) sample_salt "user-1" "jti-1" "jti-2"
                         (request_of None)))
       = (sql.users empty_store ++ [row])%list
    /\ sql.role row = "farmer"
    /\ utils.CheckPassword "secret123" (sql.password row) = true.
Proof.
  destruct (@Register_effect reference.codec reference.mac reference.primitives
              reference_sized sample_handler (ticking noon) noon empty_store
              (Ok alice_registration) sample_salt "user-1" "jti-1" "jti-2"
              (request_of None) "req-1" eq_refl eq_refl) as [_ Hok].
  destruct (Hok ltac:(vm_compute; reflexivity))
    as (req & row & Hb & Hu & _ & Hrow & _ & Hp & _).
  exists req, row. injection Hb as <-.
  split; [reflexivity|]. split; [exact Hu|]. split; [|exact Hp].
  injection Hrow as _ _ _ Hrole. exact Hrole.
Defined.

Lemma Login_outcome_witness :
  last_status (handlers.Login sample_handler (ticking noon) two_users
                 (Ok {| models.LoginRequest_Email := "alice@example.com";
                        models.LoginRequest_Password := "secret123" |})
                 "jti-1" "jti-2" (request_of None)) = Some (200, None)
  /\ handlers.Login sample_handler (ticking noon) two_users
       (Ok {| models.LoginRequest_Email := "bob@example.com";
              models.LoginRequest_Password := "hunter2" |})
       "jti-1" "jti-2" (request_of None)
     = refused_login (ticking noon) (request_of None)
  /\ handlers.Login sample_handler (ticking noon) two_users
       (Ok {| models.LoginRequest_Email := "nobody@example.com";
              models.LoginRequest_Password := "hunter2" |})
       "jti-1" "jti-2" (request_of None)
     = refused_login (ticking noon) (request_of None).
Proof.
  split; [|split].
  - destruct (proj1 (@Login_outcome reference.codec reference.mac reference.primitives
                       sample_handler (ticking noon) two_users
                       {| models.LoginRequest_Email := "alice@example.com";
                          models.LoginRequest_Password := "secret123" |}
                       "jti-1" "jti-2" (request_of None))
                alice_row "alice.png" eq_refl eq_refl ltac:(vm_compute; reflexivity))
      as (user & _ & ->).
    apply (SuccessResponse_status _ _ _ _ "req-1"). reflexivity.
  - apply (proj2 (@Login_outcome reference.codec reference.mac reference.primitives
                    sample_handler (ticking noon) two_users
                    {| models.LoginRequest_Email := "bob@example.com";
                       models.LoginRequest_Password := "hunter2" |}
                    "jti-1" "jti-2" (request_of None))).
    intros row [= <-]. left. reflexivity.
  - apply (proj2 (@Login_outcome reference.codec reference.mac reference.primitives
                    sample_handler (ticking noon) two_users
                    {| models.LoginRequest_Email := "nobody@example.com";
                       models.LoginRequest_Password := "hunter2" |}
                    "jti-1" "jti-2" (request_of None))).
    intros row [=].
Defined.

Lemma registered_user_locked_out_witness :
  handlers.Login sample_handler (ticking (noon + gotime.Hour)) (fst register_alice)
    (Ok {| models.LoginRequest_Email := "alice@example.com";
           models.LoginRequest_Password := "secret123" |})
    "jti-3" "jti-4" (request_of None)
  = refused_login (ticking (noon + gotime.Hour)) (request_of None)
  /\ last_status (handlers.GetProfile (ticking (noon + gotime.Hour)) (fst register_alice)
                    (request_of (Some "user-1")))
     = Some (404, Some "USER_NOT_FOUND").
Proof.
  assert (Hr : register_alice
               = handlers.Register sample_handler (ticking noon) noon empty_store
                   (Ok alice_registration) sample_salt "user-1" "jti-1" "jti-2"
                   (gin.Set_ (gin.Header (gin.NewContext ∅ ∅ ∅) "X-Request-ID" "req-1")
                      "request_id" "req-1")) by reflexivity.
  rewrite Hr.
  destruct (@registered_user_locked_out reference.codec reference.mac reference.primitives
              sample_handler (ticking noon) noon empty_store alice_registration
              sample_salt "user-1" "jti-1" "jti-2"
              (gin.Set_ (gin.Header (gin.NewContext ∅ ∅ ∅) "X-Request-ID" "req-1")
                 "request_id" "req-1") "req-1" eq_refl ltac:(vm_compute; reflexivity))
    as (Hlogin & Hprofile & _).
  split.
  - apply Hlogin.
  - rewrite (Hprofile _ (request_of (Some "user-1")) eq_refl).
    apply (ErrorResponse_status _ _ _ _ _ _ "req-1"). reflexivity.
Defined.

Lemma UpdateProfile_scope_witness :
  List.map account_columns
    (sql.users (fst (handlers.UpdateProfile sample_clock noon two_users
                       (Ok greedy_update) (request_of (Some "user-1")))))
  = List.map account_columns [alice_row; bob_row]
  /\ user_row "user-1"
       (fst (handlers.UpdateProfile sample_clock noon two_users
               (Ok greedy_update) (request_of (Some "user-1"))))
     = Some (sql.set_profile noon "Alice B." "Blue Acres" "Ankara" alice_row).
Proof.
  destruct (UpdateProfile_scope sample_clock noon two_users (Ok greedy_update)
              (request_of (Some "user-1")) "user-1" eq_refl) as (Hcols & _ & _ & Hrow).
  split; [exact Hcols|].
  apply (Hrow greedy_update alice_row eq_refl). reflexivity.
Defined.

Lemma ChangePassword_spec_witness :
  exists newHash,
    user_row "user-1"
      (fst (handlers.ChangePassword sample_clock noon two_users (Ok password_change)
              sample_salt (request_of (Some "user-1"))))
    = Some (sql.set_password noon newHash alice_row)
    /\ utils.CheckPassword "secret456" newHash = true.
Proof.
  destruct (@ChangePassword_spec reference.primitives reference_sized sample_clock noon
              two_users (Ok password_change) sample_salt (request_of (Some "user-1"))
              "user-1" "req-1" eq_refl eq_refl eq_refl) as [_ Hok].
  destruct (Hok ltac:(vm_compute; reflexivity))
    as (req & cur & new & row & newHash & Hb & Hc & Hn & Hrow & _ & Hrow' & Hp & _).
  injection Hb as <-.
  assert (Hn' : new = "secret456") by (vm_compute in Hn; congruence).
  assert (Hr' : Some alice_row = Some row) by exact Hrow.
  injection Hr' as <-. subst new. exists newHash. split; assumption.
Defined.

(** ** Creating a transaction (handlers/finance.go) *)

(** [CreateTransaction] for the authenticated user changes the store
    only when it answers 201, and then by one row that it also
    returns: the row carries the fresh id, the authenticated user as
    owner and the status "completed", whatever id, owner and status the
    request body names, and the remaining fields of the body; the body
    had a type and a category that are not blank and a positive
    amount.  The owner reads the row back with [GetTransaction];
    every other user gets 404. *)
Theorem CreateTransaction_spec (clock : gotime.Clock) (dbnow : gotime.Time) (db : sql.DB)
    (req : models.Transaction) (transactionID : string) (c : gin.Context)
    (userID : string) :
  gin.Get c "user_id" = Some userID ->
  every one_byte (models.Type_ req) = true ->
  every one_byte (models.Category req) = true ->
  every one_byte transactionID = true ->
  let db' := fst (handlers.CreateTransaction clock dbnow db (Ok req) transactionID c) in
  let o := snd (handlers.CreateTransaction clock dbnow db (Ok req) transactionID c) in
  (last_status o <> Some (201, None) -> db' = db)
  /\ (last_status o = Some (201, None) ->
      exists row : models.Transaction,
        sql.transactions db' = (sql.transactions db ++ [row])%list
        /\ sql.users db' = sql.users db
        /\ returned_transaction o = Some row
        /\ row = {| models.ID := transactionID;
                    models.UserID := userID;
                    models.Type_ := models.Type_ req;
                    models.Category := models.Category req;
                    models.Description := models.Description req;
                    models.Amount := models.Amount req;
                    models.Currency := models.Currency req;
                    models.Date := models.Date req;
                    models.Status := "completed";
                    models.PaymentMethod := models.PaymentMethod req;
                    models.Receipt := models.Receipt req;
                    models.Notes := models.Notes req;
                    models.CreatedAt := dbnow;
                    models.UpdatedAt := dbnow |}
        /\ utils.IsEmptyString (models.Type_ req) = false
        /\ utils.IsEmptyString (models.Category req) = false
        /\ PrimFloat.leb (models.Amount req) 0%float = false
        /\ (forall t, In t (sql.transactions db) -> models.ID t <> transactionID)
        /\ (forall clock' c',
              gin.Get c' "user_id" = Some userID ->
              gin.Param c' "id" = transactionID ->
              utils.IsEmptyString transactionID = false ->
              handlers.GetTransaction clock' db' c'
              = utils.SuccessResponse (clock' 0%nat) c'
                  (Some (models.PTransaction row)) "İşlem detayları başarıyla getirildi")
        /\ (forall clock' c' other,
              other <> userID ->
              gin.Get c' "user_id" = Some other ->
              gin.Param c' "id" = transactionID ->
              utils.IsEmptyString transactionID = false ->
              handlers.GetTransaction clock' db' c'
              = utils.ErrorResponse (clock' 0%nat) c' 404 "TRANSACTION_NOT_FOUND"
                  "İşlem bulunamadı" None)).
Proof.
  intros Hu _ _ _. cbv zeta. unfold handlers.CreateTransaction, utils.GetUserID. rewrite Hu.
  set (row := {| models.ID := transactionID; models.UserID := userID;
                 models.Type_ := models.Type_ req; models.Category := models.Category req;
                 models.Description := models.Description req;
                 models.Amount := models.Amount req; models.Currency := models.Currency req;
                 models.Date := models.Date req; models.Status := "completed";
                 models.PaymentMethod := models.PaymentMethod req;
                 models.Receipt := models.Receipt req; models.Notes := models.Notes req;
                 models.CreatedAt := dbnow; models.UpdatedAt := dbnow |}).
  assert (Herr : forall now code ecode msg details,
            last_status (utils.ErrorResponse now c code ecode msg details)
            <> Some (201, None)).
  { intros now code ecode msg details. unfold utils.ErrorResponse.
    destruct (gin.Get c "request_id"); [|discriminate].
    simpl. rewrite last_snoc. simpl. discriminate. }
  destruct (utils.IsEmptyString (models.Type_ req)) eqn:Ht; cbn [orb fst snd];
    [split; [reflexivity|intros E; destruct (Herr _ _ _ _ _ E)]|].
  destruct (utils.IsEmptyString (models.Category req)) eqn:Hc; cbn [orb fst snd];
    [split; [reflexivity|intros E; destruct (Herr _ _ _ _ _ E)]|].
  destruct (PrimFloat.leb (models.Amount req) 0%float) eqn:Ha; cbn [fst snd];
    [split; [reflexivity|intros E; destruct (Herr _ _ _ _ _ E)]|].
  unfold sql.insert_transaction. fold row. cbn [models.ID models.Amount row].
  destruct (PrimFloat.is_nan (models.Amount req) || List.existsb _ (sql.transactions db))
    eqn:He; cbn [fst snd];
    [split; [reflexivity|intros E; destruct (Herr _ _ _ _ _ E)]|].
  apply orb_false_iff in He as [_ He].
  assert (Hfresh : forall t, In t (sql.transactions db) ->
                             String.eqb (models.ID t) transactionID = false).
  { intros t Hin. apply (existsb_false _ _ He t Hin). }
  assert (Hfind : List.find (fun t => String.eqb (models.ID t) transactionID)
                    (sql.transactions db ++ [row]) = Some row)
    by (apply find_app_last; [exact Hfresh|apply String.eqb_refl]).
  unfold sql.select_transaction_by_id. cbn [sql.transactions]. rewrite Hfind.
  cbn [fst snd]. split.
  - intros Hne. exfalso. apply Hne. unfold last_status. cbn. rewrite last_snoc. reflexivity.
  - intros _. exists row. repeat apply conj; try reflexivity.
    + unfold returned_transaction. cbn. rewrite last_snoc. reflexivity.
    + intros t Hin. apply String.eqb_neq, Hfresh, Hin.
    + intros clock' c' Hu' Hp Hid. unfold handlers.GetTransaction, utils.GetUserID.
      rewrite Hu', Hp, Hid. unfold sql.select_transaction. cbn [sql.transactions].
      rewrite find_app_last; [reflexivity| |].
      * intros t Hin. unfold sql.owned. rewrite (Hfresh t Hin). reflexivity.
      * unfold sql.owned. cbn. rewrite !String.eqb_refl. reflexivity.
    + intros clock' c' other Hne Hu' Hp Hid.
      rewrite (GetTransaction_no_match clock' _ c' other Hu'); [rewrite Hp, Hid; reflexivity|].
      rewrite Hp. cbn [sql.transactions]. intros t Hin. apply in_app_or in Hin as [Hin|[<-|[]]].
      * unfold sql.owned. rewrite (Hfresh t Hin). reflexivity.
      * unfold sql.owned. cbn. apply String.eqb_neq in Hne.
        rewrite (String.eqb_sym userID other), Hne, andb_false_r. reflexivity.
Qed.

Lemma CreateTransaction_spec_witness :
  exists row : models.Transaction,
    sql.transactions
      (fst (handlers.CreateTransaction sample_clock noon sample_store
              (Ok posted_transaction) "t3" (sample_request "u1" "")))
    = (sql.transactions sample_store ++ [row])%list
    /\ (models.ID row, models.UserID row, models.Status row) = ("t3", "u1", "completed").
Proof.
  destruct (CreateTransaction_spec sample_clock noon sample_store posted_transaction "t3"
              (sample_request "u1" "") "u1" eq_refl eq_refl eq_refl eq_refl) as [_ Hok].
  destruct (Hok ltac:(vm_compute; reflexivity)) as (row & Ht & _ & _ & -> & _).
  eexists. split; [exact Ht|reflexivity].
Defined.

(** ** Listing transactions page by page (handlers/finance.go) *)

Lemma firstn_plus {A} (a b : nat) (l : list A) :
  List.firstn (a + b) l = (List.firstn a l ++ List.firstn b (List.skipn a l))%list.
Proof.
  revert l. induction a as [|a IH]; intros l; [reflexivity|].
  destruct l as [|x l]; simpl; [destruct b; reflexivity|].
  rewrite IH. reflexivity.
Qed.

Lemma page_of_In {A} (limit : Z) (rows : list A) (q : Z) t :
  In t (page_of limit rows q) -> In t rows.
Proof.
  unfold page_of. intros Hin.
  rewrite <- (List.firstn_skipn (Z.to_nat ((q - 1) * limit)) rows).
  apply List.in_or_app. right.
  rewrite <- (List.firstn_skipn (Z.to_nat limit)
                (List.skipn (Z.to_nat ((q - 1) * limit)) rows)).
  apply List.in_or_app. left. exact Hin.
Qed.

Lemma concat_pages {A} (L : nat) (rows : list A) (n : nat) :
  List.concat (List.map (fun k => List.firstn L (List.skipn (k * L) rows)) (List.seq 0 n))
  = List.firstn (n * L) rows.
Proof.
  induction n as [|n IH]; [reflexivity|].
  rewrite List.seq_S, List.map_app, List.concat_app, IH. cbn [List.map List.concat].
  rewrite List.app_nil_r. cbn [Nat.mul plus].
  rewrite (Nat.add_comm L (n * L)), firstn_plus. reflexivity.
Qed.

Lemma pages_upto_concat {A} (limit : Z) (rows : list A) (n : Z) :
  0 < limit -> 0 <= n ->
  List.concat (List.map (page_of limit rows) (pages_upto n))
  = List.firstn (Z.to_nat n * Z.to_nat limit) rows.
Proof.
  intros Hl Hn. unfold pages_upto. rewrite <- concat_pages.
  rewrite <- List.seq_shift, !List.map_map. f_equal. apply List.map_ext.
  intros k. unfold page_of. do 2 f_equal. nia.
Qed.

Section Listing.
Variable date_text : gotime.Time -> string.
Variable order : list models.Transaction -> list models.Transaction.
Hypothesis order_permutes : forall l, Permutation (order l) l.

(** For the authenticated user, [GetTransactions] answers with page
    [page] of the user's rows that match the filters of the query
    string, in the order of the engine, at [limit] rows a page, when
    the offset fits a Go [int]: every row it returns is a stored row
    of that user; the page has [limit] rows, or what is left of the
    rows beyond the pages before it; the pages 1 to [TotalPages] put
    end to end are exactly the matching rows; and every page beyond
    [TotalPages] is empty. *)
Theorem GetTransactions_pages (db : sql.DB) (c : gin.Context) (userID : string) :
  let page := fst (utils.ParsePagination c) in
  let limit := snd (utils.ParsePagination c) in
  let rows :=
    order (List.filter (handlers.transactions_where date_text c userID)
                       (sql.transactions db)) in
  let total := Z.of_nat (List.length rows) in
  let totalPages := Z.max 1 (ceil_div total limit) in
  total <= goint.MaxInt - 100 ->
  (page - 1) * limit <= goint.MaxInt ->
  handlers.GetTransactions_data date_text order db c userID
  = Return (page_of limit rows page,
            {| models.Page := page; models.Limit := limit; models.Total := total;
               models.TotalPages := totalPages |})
  /\ (forall t, In t (page_of limit rows page) ->
                models.UserID t = userID /\ In t (sql.transactions db))
  /\ Z.of_nat (List.length (page_of limit rows page))
     = Z.max 0 (Z.min limit (total - (page - 1) * limit))
  /\ List.concat (List.map (page_of limit rows) (pages_upto totalPages)) = rows
  /\ (totalPages < page -> page_of limit rows page = []).
Proof.
  cbv zeta. intros Ht Hoff.
  pose proof (ParsePagination_range c) as [Hp Hl].
  unfold handlers.GetTransactions_data.
  destruct (utils.ParsePagination c) as [page limit]. cbn [fst snd] in *.
  set (matching := List.filter (handlers.transactions_where date_text c userID)
                     (sql.transactions db)) in *.
  assert (Hlen : List.length (order matching) = List.length matching)
    by (apply Permutation_length, order_permutes).
  rewrite Hlen in *.
  set (total := Z.of_nat (List.length matching)) in *.
  assert (Htot : 0 <= total) by (subst total; lia).
  pose proof (ceil_div_spec total limit ltac:(lia)) as Hceil.
  repeat apply conj.
  - rewrite CalculatePagination_pages by lia.
    unfold goint.mul, goint.sub.
    rewrite (wrap_id (page - 1))
      by (unfold goint.in_range, goint.MinInt, goint.MaxInt in *; lia).
    rewrite wrap_id by (unfold goint.in_range, goint.MinInt, goint.MaxInt in *; nia).
    unfold sql.limit_offset, page_of.
    destruct (Z.ltb_spec limit 0); [lia|]. reflexivity.
  - intros t Hin. apply page_of_In in Hin.
    apply (Permutation_in _ (order_permutes matching)) in Hin.
    subst matching. apply List.filter_In in Hin as [Hin Hw]. split; [|exact Hin].
    unfold handlers.transactions_where in Hw.
    apply andb_prop in Hw as [Hw _]. apply andb_prop in Hw as [Hw _].
    apply andb_prop in Hw as [Hw _]. apply andb_prop in Hw as [Hw _].
    apply String.eqb_eq, Hw.
  - unfold page_of. rewrite List.length_firstn, List.length_skipn, Hlen. fold total. nia.
  - rewrite pages_upto_concat by lia. apply List.firstn_all2. rewrite Hlen. fold total.
    nia.
  - intros Hbeyond. unfold page_of.
    rewrite List.skipn_all2; [destruct (Z.to_nat limit); reflexivity|].
    rewrite Hlen. fold total. nia.
Qed.

End Listing.

Lemma GetTransactions_pages_witness :
  handlers.GetTransactions_data sample_date_text sample_order five_rows second_page "u1"
  = Return ([sample_transaction "t4" "u1"; sample_transaction "t3" "u1"],
            {| models.Page := 2; models.Limit := 2; models.Total := 5;
               models.TotalPages := 3 |}).
Proof.
  assert (Hperm : forall l, Permutation (sample_order l) l)
    by (intros l; symmetry; apply Permutation_rev).
  destruct (GetTransactions_pages sample_date_text sample_order Hperm five_rows
              second_page "u1" ltac:(vm_compute; discriminate)
              ltac:(vm_compute; discriminate)) as [Hd _].
  rewrite Hd. vm_compute. reflexivity.
Defined.

(** ** The quarterly summary (handlers/finance.go) *)

Lemma text_le_trans a : forall b c,
  sql.text_le a b = true -> sql.text_le b c = true -> sql.text_le a c = true.
Proof.
  induction a as [|x a IH]; intros b c Hab Hbc; [reflexivity|].
  destruct b as [|y b]; [discriminate|]. destruct c as [|z c]; [discriminate|].
  simpl in *.
  destruct (Nat.ltb_spec (nat_of_ascii x) (nat_of_ascii y));
    destruct (Nat.ltb_spec (nat_of_ascii y) (nat_of_ascii z));
    destruct (Nat.ltb_spec (nat_of_ascii x) (nat_of_ascii z)); try reflexivity; try lia.
  - destruct (Nat.ltb_spec (nat_of_ascii z) (nat_of_ascii y)); [discriminate|lia].
  - destruct (Nat.ltb_spec (nat_of_ascii y) (nat_of_ascii x)); [discriminate|lia].
  - destruct (Nat.ltb_spec (nat_of_ascii y) (nat_of_ascii x)); [discriminate|].
    destruct (Nat.ltb_spec (nat_of_ascii z) (nat_of_ascii y)); [discriminate|].
    destruct (Nat.ltb_spec (nat_of_ascii z) (nat_of_ascii x)); [lia|].
    apply (IH b c); assumption.
Qed.

Lemma text_le_prefix p a b : sql.text_le (p ++ a) (p ++ b) = sql.text_le a b.
Proof.
  induction p as [|x p IH]; [reflexivity|].
  change (String x p ++ a) with (String x (p ++ a)).
  change (String x p ++ b) with (String x (p ++ b)). simpl.
  rewrite Nat.ltb_irrefl. exact IH.
Qed.

Lemma text_le_head x a y b :
  (nat_of_ascii y <? nat_of_ascii x)%nat = true ->
  sql.text_le (String x a) (String y b) = false.
Proof.
  intros Hlt. simpl. apply Nat.ltb_lt in Hlt as Hlt'.
  destruct (Nat.ltb_spec (nat_of_ascii x) (nat_of_ascii y)); [lia|].
  rewrite Hlt. reflexivity.
Qed.

(** In every month the start of the range for "quarter" sorts after
    its end: its month field is two letters of a month name, not two
    digits. *)
Lemma quarter_range_empty now :
  1 <= gotime.Month now <= 12 ->
  exists startDate endDate,
    handlers.summary_range "quarter" now = Return (startDate, endDate)
    /\ sql.text_le startDate endDate = false.
Proof.
  intros Hm. unfold handlers.summary_range. cbn [String.eqb Ascii.eqb Bool.eqb].
  unfold gotime.Format_2006_01_02, gotime.Format_2006.
  destruct (gotime.Month now) as [|p|p]; try lia.
  do 4 (try destruct p as [p|p|]); try lia.
  all: match goal with
       | |- context [handlers.slice_to ?n ?s] =>
           let v := eval vm_compute in (handlers.slice_to n s) in
           change (handlers.slice_to n s) with v
       end; cbv iota beta.
  all: match goal with
       | |- context [gotime.appendInt (Z.pos ?p) 2] =>
           let v := eval vm_compute in (gotime.appendInt (Z.pos p) 2) in
           change (gotime.appendInt (Z.pos p) 2) with v
       end.
  all: eexists; eexists; (split; [reflexivity|]).
  all: rewrite text_le_prefix, (text_le_prefix "-").
  all: apply text_le_head; reflexivity.
Qed.

Section Summary.
Variable date_text : gotime.Time -> string.
Variable sum : list float -> float.

(** For the period "quarter" [GetFinanceSummary] reports an income,
    an expense and a net profit of zero, whatever the store holds: no
    stored date lies in a range whose start sorts after its end.  The
    pending payments, which are not restricted to the range, are
    summed as for the other periods. *)
Theorem quarterly_summary_counts_nothing (now : gotime.Civil) (db : sql.DB)
    (c : gin.Context) (userID : string) :
  gin.DefaultQuery c "period" "month" = "quarter" ->
  1 <= gotime.Month now <= 12 ->
  handlers.GetFinanceSummary_summary date_text sum now db c userID
  = Return {| handlers.totalIncome := 0%float;
              handlers.totalExpense := 0%float;
              handlers.netProfit := 0%float;
              handlers.pendingPayments :=
                sql.coalesce_sum sum
                  (List.map models.Amount
                     (List.filter (fun t => String.eqb (models.UserID t) userID
                                            && String.eqb (models.Status t) "pending")
                                  (sql.transactions db))) |}.
Proof.
  intros Hp Hm. unfold handlers.GetFinanceSummary_summary. rewrite Hp.
  destruct (quarter_range_empty now Hm) as (startDate & endDate & -> & Hle).
  assert (Hout : forall t, handlers.in_range date_text startDate endDate t = false).
  { intros t. unfold handlers.in_range.
    destruct (sql.text_le startDate (date_text (models.Date t))) eqn:H1; [|reflexivity].
    destruct (sql.text_le (date_text (models.Date t)) endDate) eqn:H2; [|reflexivity].
    rewrite (text_le_trans _ _ _ H1 H2) in Hle. discriminate. }
  assert (Hnone : forall f : models.Transaction -> bool,
            List.filter (fun t => f t && handlers.in_range date_text startDate endDate t)
                        (sql.transactions db) = []).
  { intros f. induction (sql.transactions db) as [|t l IH]; [reflexivity|].
    simpl. rewrite Hout, andb_false_r. exact IH. }
  rewrite !Hnone. reflexivity.
Qed.

End Summary.

Lemma quarterly_summary_counts_nothing_witness :
  handlers.GetFinanceSummary_summary sample_date_text sample_sum may_7 five_rows
    quarter_request "u1"
  = Return {| handlers.totalIncome := 0%float; handlers.totalExpense := 0%float;
              handlers.netProfit := 0%float; handlers.pendingPayments := 0%float |}
  /\ handlers.totalIncome
       <$> (match handlers.GetFinanceSummary_summary sample_date_text sample_sum may_7
                    five_rows (gin.NewContext ∅ ∅ ∅) "u1" with
            | Return s => Some s
            | Panic _ => None
            end) = Some 602.5%float.
Proof.
  split; [|vm_compute; reflexivity].
  assert (Hq : gin.DefaultQuery quarter_request "period" "month" = "quarter")
    by (vm_compute; reflexivity).
  rewrite (quarterly_summary_counts_nothing sample_date_text sample_sum may_7 five_rows
             quarter_request "u1" Hq ltac:(vm_compute; split; discriminate)).
  vm_compute. reflexivity.
Defined.

(** ** Updating and deleting a transaction (handlers/finance.go) *)

Lemma find_map_owned now req tid u l :
  List.find (sql.owned tid u)
    (List.map (fun t => if sql.owned tid u t then sql.set_transaction now req t else t) l)
  = sql.set_transaction now req <$> List.find (sql.owned tid u) l.
Proof.
  induction l as [|t l IH]; [reflexivity|]. simpl.
  destruct (sql.owned tid u t) eqn:E.
  - assert (E' : sql.owned tid u (sql.set_transaction now req t) = true) by exact E.
    rewrite E'. reflexivity.
  - rewrite E. exact IH.
Qed.

(** [UpdateTransaction] for the authenticated user and a path id that
    is not blank: when the user owns a row with that id, the answer is
    200 with the row as it is stored afterwards, which keeps its id,
    owner and creation time, takes type, category, description,
    amount, currency, date, status, payment method, receipt and notes
    from the request body as they are, and has the time of the update;
    when the user owns no such row, the answer is 404 and the store is
    unchanged. *)
Theorem UpdateTransaction_effect (clock : gotime.Clock) (dbnow : gotime.Time) (db : sql.DB)
    (req : models.Transaction) (c : gin.Context) (userID requestID : string) :
  gin.Get c "user_id" = Some userID ->
  gin.Get c "request_id" = Some requestID ->
  every one_byte (gin.Param c "id") = true ->
  utils.IsEmptyString (gin.Param c "id") = false ->
  let db' := fst (handlers.UpdateTransaction clock dbnow db (Ok req) c) in
  let o := snd (handlers.UpdateTransaction clock dbnow db (Ok req) c) in
  (forall row,
     sql.select_transaction db (gin.Param c "id") userID = Ok row ->
     last_status o = Some (200, None)
     /\ returned_transaction o = Some (sql.set_transaction dbnow req row)
     /\ sql.select_transaction db' (gin.Param c "id") userID
        = Ok (sql.set_transaction dbnow req row)
     /\ (models.ID (sql.set_transaction dbnow req row),
         models.UserID (sql.set_transaction dbnow req row),
         models.CreatedAt (sql.set_transaction dbnow req row),
         models.UpdatedAt (sql.set_transaction dbnow req row))
        = (models.ID row, models.UserID row, models.CreatedAt row, dbnow)
     /\ (models.Status (sql.set_transaction dbnow req row),
         models.Amount (sql.set_transaction dbnow req row),
         models.Type_ (sql.set_transaction dbnow req row))
        = (models.Status req, models.Amount req, models.Type_ req))
  /\ (sql.select_transaction db (gin.Param c "id") userID = Err ErrNoRows ->
      db' = db /\ last_status o = Some (404, Some "TRANSACTION_NOT_FOUND")).
Proof.
  intros Hu Hr _ Hid. cbv zeta.
  unfold handlers.UpdateTransaction, utils.GetUserID. rewrite Hu, Hid.
  unfold sql.update_transaction. cbn [fst snd].
  unfold handlers.GetTransaction, utils.GetUserID. rewrite Hu, Hid.
  unfold sql.select_transaction. cbn [sql.transactions]. rewrite find_map_owned.
  destruct (List.find (sql.owned (gin.Param c "id") userID) (sql.transactions db))
    as [row|] eqn:Hf; cbn [fmap option_fmap option_map]; split.
  - intros row' [= <-]. rewrite (SuccessResponse_status _ _ _ _ _ Hr).
    repeat apply conj; try reflexivity.
    unfold utils.SuccessResponse, returned_transaction. rewrite Hr. cbn.
    rewrite last_snoc. reflexivity.
  - discriminate.
  - intros row' [=].
  - intros _. rewrite (ErrorResponse_status _ _ _ _ _ _ _ Hr). split; [|reflexivity].
    rewrite map_no_match; [destruct db; reflexivity|].
    apply List.find_none. exact Hf.
Qed.

Lemma UpdateTransaction_effect_witness :
  returned_transaction
    (snd (handlers.UpdateTransaction sample_clock noon sample_store
            (Ok posted_transaction) (sample_request "u1" "t1")))
  = Some (sql.set_transaction noon posted_transaction (sample_transaction "t1" "u1"))
  /\ fst (handlers.UpdateTransaction sample_clock noon sample_store
            (Ok posted_transaction) (sample_request "u1" "t2")) = sample_store.
Proof.
  destruct (UpdateTransaction_effect sample_clock noon sample_store posted_transaction
              (sample_request "u1" "t1") "u1" "r-1" eq_refl eq_refl eq_refl eq_refl)
    as [Hown _].
  destruct (UpdateTransaction_effect sample_clock noon sample_store posted_transaction
              (sample_request "u1" "t2") "u1" "r-1" eq_refl eq_refl eq_refl eq_refl)
    as [_ Hnone].
  split.
  - apply (Hown (sample_transaction "t1" "u1")). reflexivity.
  - apply Hnone. reflexivity.
Defined.

(** [DeleteTransaction] for the authenticated user changes the store
    only when it answers 200, and then it has removed the rows with
    the path id that the user owns, of which there was one at least,
    and nothing else; afterwards [GetTransaction] answers 404 for that
    id. *)
Theorem DeleteTransaction_effect (clock : gotime.Clock) (db : sql.DB) (c : gin.Context)
    (userID requestID : string) :
  gin.Get c "user_id" = Some userID ->
  gin.Get c "request_id" = Some requestID ->
  every one_byte (gin.Param c "id") = true ->
  let db' := fst (handlers.DeleteTransaction clock db c) in
  let o := snd (handlers.DeleteTransaction clock db c) in
  (last_status o <> Some (200, None) -> db' = db)
  /\ (last_status o = Some (200, None) ->
      (exists row, In row (sql.transactions db)
                   /\ models.ID row = gin.Param c "id" /\ models.UserID row = userID)
      /\ sql.transactions db'
         = List.filter (fun t => negb (sql.owned (gin.Param c "id") userID t))
                       (sql.transactions db)
      /\ sql.users db' = sql.users db
      /\ (forall clock',
            handlers.GetTransaction clock' db' c
            = utils.ErrorResponse (clock' 0%nat) c 404 "TRANSACTION_NOT_FOUND"
                "İşlem bulunamadı" None)).
Proof.
  intros Hu Hr _. cbv zeta. unfold handlers.DeleteTransaction, utils.GetUserID. rewrite Hu.
  destruct (utils.IsEmptyString (gin.Param c "id")) eqn:Hid; cbn [fst snd];
    [split; [reflexivity|rewrite (ErrorResponse_status _ _ _ _ _ _ _ Hr); discriminate]|].
  unfold sql.delete_transaction.
  destruct (List.filter (sql.owned (gin.Param c "id") userID) (sql.transactions db))
    as [|row rest] eqn:Hf.
  - change (Z.of_nat (List.length (@nil models.Transaction)) =? 0) with true.
    cbv iota. cbn [fst snd]. split.
    + intros _.
      assert (Hno : forall t, In t (sql.transactions db) ->
                              sql.owned (gin.Param c "id") userID t = false).
      { intros t Hin. destruct (sql.owned (gin.Param c "id") userID t) eqn:E; [|reflexivity].
        assert (Hin' : In t (List.filter (sql.owned (gin.Param c "id") userID)
                               (sql.transactions db)))
          by (apply List.filter_In; split; assumption).
        rewrite Hf in Hin'. destruct Hin'. }
      destruct (filter_no_match _ _ Hno) as [-> _]. destruct db; reflexivity.
    + rewrite (ErrorResponse_status _ _ _ _ _ _ _ Hr). discriminate.
  - assert (Hz : (Z.of_nat (List.length (row :: rest)) =? 0) = false)
      by (apply Z.eqb_neq; cbn [List.length]; lia).
    rewrite Hz. cbn [fst snd]. rewrite (SuccessResponse_status _ _ _ _ _ Hr). split.
    + intros Hne. exfalso. apply Hne. reflexivity.
    + intros _. repeat apply conj; try reflexivity.
      * exists row.
        assert (Hin : In row (List.filter (sql.owned (gin.Param c "id") userID)
                                (sql.transactions db)))
          by (rewrite Hf; left; reflexivity).
        apply List.filter_In in Hin as [Hin Ho]. apply owned_spec in Ho. tauto.
      * intros clock'. rewrite (GetTransaction_no_match clock' _ c userID Hu);
          [rewrite Hid; reflexivity|].
        cbn [sql.transactions]. intros t Hin.
        apply List.filter_In in Hin as [_ Hn]. apply negb_true_iff, Hn.
Qed.

Lemma DeleteTransaction_effect_witness :
  sql.transactions (fst (handlers.DeleteTransaction sample_clock sample_store
                           (sample_request "u1" "t1")))
  = [sample_transaction "t2" "u2"]
  /\ fst (handlers.DeleteTransaction sample_clock sample_store (sample_request "u1" "t2"))
     = sample_store.
Proof.
  destruct (DeleteTransaction_effect sample_clock sample_store (sample_request "u1" "t1")
              "u1" "r-1" eq_refl eq_refl eq_refl) as [_ Hok].
  destruct (DeleteTransaction_effect sample_clock sample_store (sample_request "u1" "t2")
              "u1" "r-1" eq_refl eq_refl eq_refl) as [Hno _].
  split.
  - destruct (Hok ltac:(vm_compute; reflexivity)) as (_ & Ht & _). rewrite Ht.
    vm_compute. reflexivity.
  - apply Hno. vm_compute. discriminate.
Defined.

(** ** Passwords of more than 72 bytes (handlers/auth.go) *)

Section LongPasswords.
Context `{jwt.Codec auth.Claims} `{jwt.MAC} `{bcrypt.Primitives}.

Lemma HashPassword_too_long unencodedSalt password :
  (72 < String.length password)%nat ->
  utils.HashPassword unencodedSalt password = (EmptyString, Some ErrPasswordTooLong).
Proof.
  intros Hlen. unfold utils.HashPassword, bcrypt.GenerateFromPassword.
  apply Nat.ltb_lt in Hlen. rewrite Hlen. reflexivity.
Qed.

(** A password of more than 72 bytes is a server error: a
    registration that repeats it correctly under an unused email, and
    a password change that names it as the new password after a
    current password that verifies, are both answered with 500
    [HASH_ERROR], and the store is left as it is. *)
Theorem long_password_server_error (h : handlers.AuthHandler) (clock : gotime.Clock)
    (dbnow : gotime.Time) (db : sql.DB) (unencodedSalt : string) (c : gin.Context)
    (password : string) :
  (72 < String.length password)%nat ->
  (forall req userID jti jti',
     models.Password req = password ->
     models.ConfirmPassword req = password ->
     sql.select_user_id db (models.Email req) = Err ErrNoRows ->
     handlers.Register h clock dbnow db (Ok req) unencodedSalt userID jti jti' c
     = (db, utils.ErrorResponse (clock 0%nat) c 500 "HASH_ERROR" "Şifre hash'lenemedi"
              (Some (models.PError ErrPasswordTooLong))))
  /\ (forall req userID currentPassword row,
        gin.Get c "user_id" = Some userID ->
        req !! "currentPassword" = Some currentPassword ->
        req !! "newPassword" = Some password ->
        user_row userID db = Some row ->
        utils.CheckPassword currentPassword (sql.password row) = true ->
        handlers.ChangePassword clock dbnow db (Ok req) unencodedSalt c
        = (db, utils.ErrorResponse (clock 0%nat) c 500 "HASH_ERROR"
                 "Yeni şifre hash'lenemedi" (Some (models.PError ErrPasswordTooLong)))).
Proof.
  intros Hlen. split.
  - intros req userID jti jti' Hp Hc Hnew. unfold handlers.Register.
    rewrite Hp, Hc, String.eqb_refl, Hnew. cbn [negb].
    rewrite (HashPassword_too_long _ _ Hlen). reflexivity.
  - intros req userID currentPassword row Hu Hcur Hn Hrow Hcheck.
    unfold handlers.ChangePassword, utils.GetUserID. rewrite Hu, Hcur, Hn.
    unfold sql.select_password. unfold user_row in Hrow. rewrite Hrow, Hcheck. cbn [negb].
    rewrite (HashPassword_too_long _ _ Hlen). reflexivity.
Qed.

End LongPasswords.

Lemma long_password_server_error_witness :
  last_status (snd (handlers.Register sample_handler (ticking noon) noon empty_store
                      (Ok long_registration) sample_salt "user-1" "jti-1" "jti-2"
                      (request_of None)))
  = Some (500, Some "HASH_ERROR").
Proof.
  destruct (@long_password_server_error reference.codec reference.mac reference.primitives
              sample_handler (ticking noon) noon empty_store sample_salt (request_of None)
              (long_password ++ "b") ltac:(vm_compute; lia)) as [Hreg _].
  rewrite (Hreg long_registration "user-1" "jti-1" "jti-2" eq_refl eq_refl eq_refl).
  apply (ErrorResponse_status _ _ _ _ _ _ "req-1"). reflexivity.
Defined.

(** ** A page number beyond the [int] range (handlers/finance.go) *)

Section Overflow.
Variable date_text : gotime.Time -> string.
Variable order : list models.Transaction -> list models.Transaction.
Hypothesis order_permutes : forall l, Permutation (order l) l.

(** When the page of the request is the largest [int], as it is for
    every page numeral beyond the [int] range, the offset wraps
    around: at an even [limit] it is negative, which the engine takes
    for zero, so the answer is the first [limit] rows under the page
    number 9223372036854775807; at an odd [limit] the answer is
    empty. *)
Theorem GetTransactions_page_overflow (db : sql.DB) (c : gin.Context) (userID : string) :
  let limit := snd (utils.ParsePagination c) in
  let rows :=
    order (List.filter (handlers.transactions_where date_text c userID)
                       (sql.transactions db)) in
  fst (utils.ParsePagination c) = goint.MaxInt ->
  Z.of_nat (List.length rows) <= goint.MaxInt - 200 ->
  exists pagination,
    handlers.GetTransactions_data date_text order db c userID
    = Return (if Z.even limit then List.firstn (Z.to_nat limit) rows else [], pagination)
    /\ models.Page pagination = goint.MaxInt.
Proof.
  cbv zeta. intros Hpage Hrows.
  pose proof (ParsePagination_range c) as [_ Hl].
  unfold handlers.GetTransactions_data.
  destruct (utils.ParsePagination c) as [page limit]. cbn [fst snd] in *. subst page.
  rewrite (Permutation_length (order_permutes _)) in Hrows.
  rewrite CalculatePagination_pages by lia.
  exists {| models.Page := goint.MaxInt; models.Limit := limit;
            models.Total :=
              Z.of_nat (List.length
                          (List.filter (handlers.transactions_where date_text c userID)
                                       (sql.transactions db)));
            models.TotalPages :=
              Z.max 1 (ceil_div
                         (Z.of_nat (List.length
                                      (List.filter
                                         (handlers.transactions_where date_text c userID)
                                         (sql.transactions db)))) limit) |}.
  split; [|reflexivity]. do 2 f_equal.
  unfold sql.limit_offset. destruct (Z.ltb_spec limit 0); [lia|].
  unfold goint.mul, goint.sub.
  rewrite (wrap_id (goint.MaxInt - 1))
    by (unfold goint.in_range, goint.MinInt, goint.MaxInt; lia).
  unfold goint.wrap, goint.MaxInt in *.
  destruct (Z.even limit) eqn:He.
  - apply Z.even_spec in He as [k ->].
    replace ((9223372036854775807 - 1) * (2 * k) + 2 ^ 63)
      with ((2 ^ 63 - 4 * k) + k * 2 ^ 64) by lia.
    rewrite Z.mod_add by lia. rewrite Z.mod_small by lia.
    replace (Z.to_nat (2 ^ 63 - 4 * k - 2 ^ 63)) with 0%nat by lia. reflexivity.
  - assert (Ho : Z.odd limit = true) by (rewrite <- Z.negb_even, He; reflexivity).
    apply Z.odd_spec in Ho as [k ->].
    replace ((9223372036854775807 - 1) * (2 * k + 1) + 2 ^ 63)
      with ((2 ^ 64 - 4 * k - 2) + k * 2 ^ 64) by lia.
    rewrite Z.mod_add by lia. rewrite Z.mod_small by lia.
    rewrite List.skipn_all2; [destruct (Z.to_nat (2 * k + 1)); reflexivity|].
    rewrite (Permutation_length (order_permutes _)). lia.
Qed.

End Overflow.

Lemma GetTransactions_page_overflow_witness :
  exists pagination,
    handlers.GetTransactions_data sample_date_text sample_order five_rows huge_page "u1"
    = Return (List.firstn 10 (sample_order
                (List.filter (handlers.transactions_where sample_date_text huge_page "u1")
                             (sql.transactions five_rows))), pagination)
    /\ models.Page pagination = goint.MaxInt.
Proof.
  assert (Hperm : forall l, Permutation (sample_order l) l)
    by (intros l; symmetry; apply Permutation_rev).
  assert (Hp : fst (utils.ParsePagination huge_page) = goint.MaxInt)
    by (vm_compute; reflexivity).
  apply (GetTransactions_page_overflow sample_date_text sample_order Hperm five_rows
           huge_page "u1" Hp ltac:(vm_compute; discriminate)).
Defined.

(** ** From registration to an authenticated request *)

Section RegisteredTokens.
Context `{jwt.Codec auth.Claims} `{jwt.MAC} `{bcrypt.Primitives}.
Variable ParseDuration : string -> result gotime.Duration.
Variable env : gmap string string.

(** A token of [GenerateToken], presented as bearer token in its
    window to a server with the same environment, passes the
    middleware as the user it was issued for. *)
Lemma issued_token_authenticates clock uuid userID email role now c next :
  let j := auth.NewJWTManager ParseDuration env in
  let claims := auth.newClaims j clock uuid userID email role in
  let token := unwrap (auth.GenerateToken j clock uuid userID email role) in
  wire_ok (jwt.NewHeader (jwt.SigningMethodHMAC jwt.SHA256)) claims (signature_of j claims) ->
  free " " token = true ->
  clock 2%nat <= now ->
  now < jwt.NewNumericDate (gotime.Add (clock 0%nat) (auth.tokenDuration j)) ->
  gin.GetHeader c "Authorization" = "Bearer " ++ token ->
  middleware.Auth ParseDuration env now next c
  = next (gin.Set_ (gin.Set_ (gin.Set_ c "user_id" userID) "user_email" email)
            "user_role" role).
Proof.
  cbv zeta. intros Hw Hfree Hafter Hbefore Hh.
  rewrite (Auth_bearer ParseDuration env now c next
             (unwrap (auth.GenerateToken (auth.NewJWTManager ParseDuration env)
                        clock uuid userID email role))).
  - rewrite GenerateToken_eq. cbn [unwrap].
    rewrite (newClaims_validate _ clock uuid userID email role now Hw Hafter Hbefore).
    reflexivity.
  - rewrite Hh. discriminate.
  - rewrite Hh.
    change ("Bearer " ++ ?t) with ("Bearer" ++ String " " t).
    rewrite Split_app by reflexivity. rewrite (Split_free _ _ Hfree). reflexivity.
Qed.

(** A registration that answered 200 returned two tokens, issued one
    after the other for the new id, the email and the role "farmer".
    Each of them, the one called refresh token as well, presented as
    bearer token in its window, passes the authentication middleware
    and hands the handlers the new id, the email and the role
    "farmer". *)
Theorem registered_tokens_authenticate (clock : gotime.Clock) (dbnow : gotime.Time)
    (db : sql.DB) (req : models.RegisterRequest) (unencodedSalt userID jti jti' : string)
    (c : gin.Context) (requestID : string) :
  let j := auth.NewJWTManager ParseDuration env in
  let o := snd (handlers.Register (handlers.NewAuthHandler ParseDuration env) clock dbnow
                  db (Ok req) unencodedSalt userID jti jti' c) in
  gin.Get c "request_id" = Some requestID ->
  last_status o = Some (200, None) ->
  exists token refreshToken,
    returned_token o = Some token
    /\ returned_refresh_token o = Some refreshToken
    /\ (forall now c' next,
          wire_ok (jwt.NewHeader (jwt.SigningMethodHMAC jwt.SHA256))
            (auth.newClaims j clock jti userID (models.Email req) "farmer")
            (signature_of j (auth.newClaims j clock jti userID (models.Email req) "farmer")) ->
          free " " token = true ->
          clock 2%nat <= now ->
          now < jwt.NewNumericDate (gotime.Add (clock 0%nat) (auth.tokenDuration j)) ->
          gin.GetHeader c' "Authorization" = "Bearer " ++ token ->
          middleware.Auth ParseDuration env now next c'
          = next (gin.Set_ (gin.Set_ (gin.Set_ c' "user_id" userID)
                              "user_email" (models.Email req)) "user_role" "farmer"))
    /\ (forall now c' next,
          wire_ok (jwt.NewHeader (jwt.SigningMethodHMAC jwt.SHA256))
            (auth.newClaims j (gotime.after 3 clock) jti' userID (models.Email req) "farmer")
            (signature_of j
               (auth.newClaims j (gotime.after 3 clock) jti' userID
                  (models.Email req) "farmer")) ->
          free " " refreshToken = true ->
          clock 5%nat <= now ->
          now < jwt.NewNumericDate (gotime.Add (clock 3%nat) (auth.tokenDuration j)) ->
          gin.GetHeader c' "Authorization" = "Bearer " ++ refreshToken ->
          middleware.Auth ParseDuration env now next c'
          = next (gin.Set_ (gin.Set_ (gin.Set_ c' "user_id" userID)
                              "user_email" (models.Email req)) "user_role" "farmer")).
Proof.
  cbv zeta. intros Hr Hok.
  destruct (Register_success _ clock dbnow db (Ok req) unencodedSalt userID jti jti' c
              requestID Hr Hok) as (req' & hp & [= <-] & _ & _ & _ & ->).
  cbn [snd handlers.jwtManager handlers.NewAuthHandler].
  eexists. eexists.
  split; [unfold utils.SuccessResponse, returned_token; rewrite Hr; cbn;
          rewrite last_snoc; reflexivity|].
  split; [unfold utils.SuccessResponse, returned_refresh_token; rewrite Hr; cbn;
          rewrite last_snoc; reflexivity|].
  split.
  - intros now c' next Hw Hfree Hafter Hbefore Hh.
    apply (issued_token_authenticates clock jti userID (models.Email req) "farmer");
      assumption.
  - intros now c' next Hw Hfree Hafter Hbefore Hh.
    apply (issued_token_authenticates (gotime.after 3 clock) jti' userID
             (models.Email req) "farmer"); assumption.
Qed.

End RegisteredTokens.

Lemma registered_tokens_authenticate_witness :
  user_id_of (middleware.Auth reference.ParseDuration ∅ (noon + gotime.Hour)
                (fun c => Return c) (bearer_request alice_token))
  = Some "user-1".
Proof.
  assert (Hr : gin.Get (request_of None) "request_id" = Some "req-1") by reflexivity.
  destruct (@registered_tokens_authenticate reference.codec reference.mac
              reference.primitives reference.ParseDuration ∅ (ticking noon) noon
              empty_store alice_registration sample_salt "user-1" "jti-1" "jti-2"
              (request_of None) "req-1" Hr ltac:(vm_compute; reflexivity))
    as (token & refreshToken & Ht & _ & Hauth & _).
  assert (Htok : token = alice_token) by (vm_compute in Ht; vm_compute; congruence).
  subst token.
  rewrite (Hauth (noon + gotime.Hour) (bearer_request alice_token) (fun c => Return c)
             (reference_wire_ok _ _ _) ltac:(vm_compute; reflexivity)
             ltac:(vm_compute; discriminate) ltac:(vm_compute; reflexivity)
             ltac:(vm_compute; reflexivity)).
  reflexivity.
Defined.

(** ** Creating, then deleting a transaction (handlers/finance.go) *)

(** A transaction that [CreateTransaction] stored under an id that
    is not blank is removed again by [DeleteTransaction] of the same
    user for that id, which answers 200 and leaves the store as it was
    before the creation. *)
Theorem create_then_delete (clock : gotime.Clock) (dbnow : gotime.Time) (db : sql.DB)
    (req : models.Transaction) (transactionID : string) (c : gin.Context)
    (userID : string) :
  gin.Get c "user_id" = Some userID ->
  every one_byte (models.Type_ req) = true ->
  every one_byte (models.Category req) = true ->
  every one_byte transactionID = true ->
  utils.IsEmptyString transactionID = false ->
  last_status (snd (handlers.CreateTransaction clock dbnow db (Ok req) transactionID c))
  = Some (201, None) ->
  forall clock' c' requestID,
    gin.Get c' "user_id" = Some userID ->
    gin.Get c' "request_id" = Some requestID ->
    gin.Param c' "id" = transactionID ->
    handlers.DeleteTransaction clock'
      (fst (handlers.CreateTransaction clock dbnow db (Ok req) transactionID c)) c'
    = (db, utils.SuccessResponse (clock' 0%nat) c' None "İşlem başarıyla silindi").
Proof.
  intros Hu _ _ _ Hid. unfold handlers.CreateTransaction, utils.GetUserID. rewrite Hu.
  assert (Herr : forall now code ecode msg details,
            last_status (utils.ErrorResponse now c code ecode msg details)
            <> Some (201, None)).
  { intros now code ecode msg details. unfold utils.ErrorResponse.
    destruct (gin.Get c "request_id"); [|discriminate].
    simpl. rewrite last_snoc. simpl. discriminate. }
  destruct (utils.IsEmptyString (models.Type_ req) || utils.IsEmptyString (models.Category req)
            || PrimFloat.leb (models.Amount req) 0%float); cbn [fst snd];
    [intros E; destruct (Herr _ _ _ _ _ E)|].
  unfold sql.insert_transaction. cbn [models.ID models.Amount].
  destruct (PrimFloat.is_nan (models.Amount req) || List.existsb _ (sql.transactions db))
    eqn:He; cbn [fst snd]; [intros E; destruct (Herr _ _ _ _ _ E)|].
  apply orb_false_iff in He as [_ He].
  assert (Hfresh : forall t, In t (sql.transactions db) ->
                             String.eqb (models.ID t) transactionID = false)
    by (intros t Hin; apply (existsb_false _ _ He t Hin)).
  intros _ clock' c' requestID Hu' Hr' Hp.
  match goal with
  | |- handlers.DeleteTransaction _ (fst ?m) _ = _ =>
      assert (Hdb : fst m
                    = {| sql.users := sql.users db;
                         sql.transactions :=
                           sql.transactions db
                           ++ [ {| models.ID := transactionID; models.UserID := userID;
                                   models.Type_ := models.Type_ req;
                                   models.Category := models.Category req;
                                   models.Description := models.Description req;
                                   models.Amount := models.Amount req;
                                   models.Currency := models.Currency req;
                                   models.Date := models.Date req;
                                   models.Status := "completed";
                                   models.PaymentMethod := models.PaymentMethod req;
                                   models.Receipt := models.Receipt req;
                                   models.Notes := models.Notes req;
                                   models.CreatedAt := dbnow;
                                   models.UpdatedAt := dbnow |} ] |})
        by (destruct (sql.select_transaction_by_id _ transactionID); reflexivity);
      rewrite Hdb
  end.
  unfold handlers.DeleteTransaction, utils.GetUserID. rewrite Hu', Hp, Hid.
  unfold sql.delete_transaction. cbn [sql.transactions sql.users].
  rewrite !List.filter_app. cbn [List.filter].
  assert (Hown : forall t, In t (sql.transactions db) ->
                           sql.owned transactionID userID t = false)
    by (intros t Hin; unfold sql.owned; rewrite (Hfresh t Hin); reflexivity).
  destruct (filter_no_match _ _ Hown) as [-> ->].
  unfold sql.owned. cbn [models.ID models.UserID]. rewrite !String.eqb_refl.
  cbn [andb negb List.app List.length]. rewrite List.app_nil_r.
  change (Z.of_nat 1 =? 0) with false. cbv iota. destruct db; reflexivity.
Qed.

Lemma create_then_delete_witness :
  handlers.DeleteTransaction sample_clock
    (fst (handlers.CreateTransaction sample_clock noon sample_store
            (Ok posted_transaction) "t3" (sample_request "u1" "")))
    (sample_request "u1" "t3")
  = (sample_store,
     utils.SuccessResponse (sample_clock 0%nat) (sample_request "u1" "t3") None
       "İşlem başarıyla silindi").
Proof.
  apply (create_then_delete sample_clock noon sample_store posted_transaction "t3"
           (sample_request "u1" "") "u1" eq_refl eq_refl eq_refl eq_refl eq_refl
           ltac:(vm_compute; reflexivity)
           sample_clock (sample_request "u1" "t3") "r-1" eq_refl eq_refl eq_refl).
Defined.
